(** * userMigrationDash: the cache-refresh policy of [MigrationStats]

    A shallow embedding of [src/userMigrationDash.py]: the class
    [MigrationStats] with its two methods [should_update_cache] and
    [get_migration_stats], together with the parts of the Python run time
    they call (text, [datetime], [float], [json], the file holding the
    cache and the pymysql connection), and the script [main] that shows
    the snapshot.

    The development is organised as follows.
    - [Text]: Python [str] values as sequences of code points.
    - [Calendar]: the proleptic Gregorian calendar of [datetime].
    - [Datetime]: [datetime] values, [isoformat], [fromisoformat],
      subtraction.
    - [PyFloat]: binary64 arithmetic, [round], [repr] and [float(str)].
    - [Json]: the values [json.load] returns, [json.dumps], [json.loads].
    - [Db]: the [users] table and the four queries.
    - [Dash]: the two methods of [MigrationStats].
    - [PyObj]: subscripting, truth, [format], [repr], [str] and [/] on
      the values of the snapshot.
    - [App]: [__init__], [get_db_connection] and [main].
    The theorems follow the definitions. *)

From Stdlib Require Import ZArith NArith List String Ascii Bool Lia.
From Stdlib Require Import Floats.
Import ListNotations.
Local Open Scope Z_scope.

(* ================================================================= *)
(** ** Text *)

Module Text.

(** A Python [str] is a sequence of Unicode code points. *)
Definition pystr := list N.

(** A literal of the source, given as a Rocq string of ASCII characters. *)
Definition str (s : string) : pystr :=
  map N_of_ascii (list_ascii_of_string s).

(** A literal in which the apostrophe stands for the double quote, for
    writing JSON documents. *)
Definition jtext (s : string) : pystr :=
  map (fun c => if N.eqb c 39 then 34%N else c) (str s).

Fixpoint pystr_eqb (a b : pystr) : bool :=
  match a, b with
  | [], [] => true
  | x :: a', y :: b' => N.eqb x y && pystr_eqb a' b'
  | _, _ => false
  end.

(** Code point order, as [str.__lt__] compares. *)
Fixpoint pystr_compare (a b : pystr) : comparison :=
  match a, b with
  | [], [] => Eq
  | [], _ :: _ => Lt
  | _ :: _, [] => Gt
  | x :: a', y :: b' =>
      match N.compare x y with
      | Eq => pystr_compare a' b'
      | c => c
      end
  end.

Definition is_digit (c : N) : bool := (N.leb 48 c && N.leb c 57)%bool.
Definition digit_val (c : N) : Z := Z.of_N c - 48.
Definition digit_char (d : Z) : N := Z.to_N (48 + d).

(** [zpad k z]: the [k] low decimal digits of [z], most significant first:
    the format [%0kd] for [0 <= z < 10^k]. *)
Fixpoint zpad (k : nat) (z : Z) : pystr :=
  match k with
  | O => []
  | S k' => zpad k' (z / 10) ++ [digit_char (z mod 10)]
  end.

Fixpoint dec_digits (fuel : nat) (n : Z) (acc : pystr) : pystr :=
  match fuel with
  | O => acc
  | S f =>
      let acc' := digit_char (n mod 10) :: acc in
      if n <? 10 then acc' else dec_digits f (n / 10) acc'
  end.

(** The decimal numeral of a natural number, without leading zeros. *)
Definition dec_nat (n : Z) : pystr :=
  dec_digits (S (Z.to_nat (Z.log2 n))) n [].

(** [str(n)] for a Python [int]. *)
Definition dec (z : Z) : pystr :=
  if z <? 0 then 45%N :: dec_nat (- z) else dec_nat z.

(** The value of a run of decimal digits, most significant first. *)
Fixpoint digits_val (acc : Z) (s : pystr) : Z :=
  match s with
  | [] => acc
  | c :: s' => digits_val (10 * acc + digit_val c) s'
  end.

(** The longest prefix of [s] whose characters satisfy [p], and the rest. *)
Fixpoint span (p : N -> bool) (s : pystr) : pystr * pystr :=
  match s with
  | [] => ([], [])
  | c :: s' =>
      if p c then let '(a, b) := span p s' in (c :: a, b) else ([], s)
  end.

End Text.

(* ================================================================= *)
(** ** Calendar *)

Module Calendar.

(** [datetime._is_leap] *)
Definition is_leap (year : Z) : bool :=
  ((year mod 4 =? 0) && (negb (year mod 100 =? 0) || (year mod 400 =? 0)))%bool.

(** [datetime._days_before_year] *)
Definition days_before_year (year : Z) : Z :=
  let y := year - 1 in y * 365 + y / 4 - y / 100 + y / 400.

(** [datetime._DAYS_IN_MONTH] and [datetime._days_in_month] *)
Definition days_in_month (year month : Z) : Z :=
  if ((month =? 2) && is_leap year)%bool then 29
  else nth (Z.to_nat month) [0; 31; 28; 31; 30; 31; 30; 31; 31; 30; 31; 30; 31] 0.

(** [datetime._DAYS_BEFORE_MONTH] and [datetime._days_before_month] *)
Definition days_before_month (year month : Z) : Z :=
  nth (Z.to_nat month) [0; 0; 31; 59; 90; 120; 151; 181; 212; 243; 273; 304; 334] 0
  + (if ((2 <? month) && is_leap year)%bool then 1 else 0).

(** [datetime._ymd2ord]: the ordinal of a date, 0001-01-01 being day 1. *)
Definition ymd2ord (year month day : Z) : Z :=
  days_before_year year + days_before_month year month + day.

(** The range checks of the [date] constructor. *)
Definition valid_date (year month day : Z) : bool :=
  ((1 <=? year) && (year <=? 9999) && (1 <=? month) && (month <=? 12)
   && (1 <=? day) && (day <=? days_in_month year month))%bool.

(** The range checks of the [time] fields. *)
Definition valid_time (hour minute second microsecond : Z) : bool :=
  ((0 <=? hour) && (hour <=? 23) && (0 <=? minute) && (minute <=? 59)
   && (0 <=? second) && (second <=? 59)
   && (0 <=? microsecond) && (microsecond <=? 999999))%bool.

End Calendar.

(* ================================================================= *)
(** ** Datetime *)

Module Datetime.
Import Text Calendar.

(** A [datetime.datetime]; [tzinfo] is the UTC offset in microseconds of
    an aware value and [None] for a naive one. *)
Record datetime := mkDT {
  year : Z; month : Z; day : Z;
  hour : Z; minute : Z; second : Z; microsecond : Z;
  tzinfo : option Z
}.

(** The character at index [i] of a NUL-terminated buffer. *)
Definition char_at (t : pystr) (i : nat) : N := nth i t 0%N.

(** [parse_digits] of [_datetimemodule.c]: exactly [k] decimal digits
    from index [p]. *)
Fixpoint parse_digits (t : pystr) (p k : nat) (acc : Z) : option Z :=
  match k with
  | O => Some acc
  | S k' =>
      let c := char_at t p in
      if is_digit c then parse_digits t (S p) k' (10 * acc + digit_val c)
      else None
  end.

(** [parse_isoformat_date]: [YYYY-MM-DD] in the first ten characters. *)
Definition parse_isoformat_date (s : pystr) : option (Z * Z * Z) :=
  match parse_digits s 0 4 0 with
  | None => None
  | Some y =>
      if negb (N.eqb (char_at s 4) 45) then None
      else
        match parse_digits s 5 2 0 with
        | None => None
        | Some m =>
            if negb (N.eqb (char_at s 7) 45) then None
            else
              match parse_digits s 8 2 0 with
              | None => None
              | Some d => Some (y, m, d)
              end
        end
  end.

(** What [parse_hh_mm_ss_ff] reports: failure, or the fields read, the
    microseconds, and whether a character other than NUL follows. *)
Inductive hms_result :=
| HmsFail
| HmsOk (trailing : bool) (fields : list Z) (us : Z).

(** The part of [parse_hh_mm_ss_ff] that reads [.fff] or [.ffffff]. *)
Definition hms_fraction (t : pystr) (p pend : nat) (fields : list Z)
  : hms_result :=
  let len_remains := (pend - p)%nat in
  if (Nat.eqb len_remains 6 || Nat.eqb len_remains 3)%bool then
    match parse_digits t p len_remains 0 with
    | None => HmsFail
    | Some us =>
        HmsOk (negb (N.eqb (char_at t (p + len_remains)) 0)) fields
              (if Nat.eqb len_remains 3 then us * 1000 else us)
    end
  else HmsFail.

(** The loop of [parse_hh_mm_ss_ff] over hour, minute and second: [n]
    fields are still to be read, [p] is the read position and [pend] the
    end of the component. *)
Fixpoint hms_fields (n : nat) (t : pystr) (pend p : nat) (fields : list Z)
  : hms_result :=
  match n with
  | O => hms_fraction t p pend fields
  | S n' =>
      match parse_digits t p 2 0 with
      | None => HmsFail
      | Some v =>
          let c := char_at t (p + 2) in
          let p' := (p + 3)%nat in
          let fields' := fields ++ [v] in
          if Nat.leb pend p' then HmsOk (negb (N.eqb c 0)) fields' 0
          else if N.eqb c 58 then hms_fields n' t pend p' fields'
          else if N.eqb c 46 then hms_fraction t p' pend fields'
          else HmsFail
      end
  end.

Definition parse_hh_mm_ss_ff (t : pystr) (p pend : nat) : hms_result :=
  hms_fields 3 t pend p [].

Definition is_sign (c : N) : bool := (N.eqb c 43 || N.eqb c 45)%bool.

Fixpoint find_sign (t : pystr) (i : nat) : option nat :=
  match t with
  | [] => None
  | c :: t' => if is_sign c then Some i else find_sign t' (S i)
  end.

(** Where [parse_isoformat_time] looks for the UTC offset: the first [+]
    or [-], or the position its do-while loop stops at. *)
Definition tzinfo_pos (t : pystr) : nat :=
  match find_sign t 0 with
  | Some i => i
  | None => Nat.max (List.length t) 1
  end.

Inductive time_result :=
| TimeFail
| TimeNaive (h m s us : Z)
| TimeAware (h m s us : Z) (tzoffset tzusec : Z).

(** [parse_isoformat_time] on the text after the separator. *)
Definition parse_isoformat_time (t : pystr) : time_result :=
  let len := List.length t in
  let pos := tzinfo_pos t in
  match parse_hh_mm_ss_ff t 0 pos with
  | HmsFail => TimeFail
  | HmsOk trailing f us =>
      let h := nth 0 f 0 in
      let m := nth 1 f 0 in
      let s := nth 2 f 0 in
      if Nat.eqb pos len then
        if trailing then TimeFail else TimeNaive h m s us
      else
        let tzlen := (len - pos)%nat in
        if (Nat.eqb tzlen 6 || Nat.eqb tzlen 9 || Nat.eqb tzlen 16)%bool then
          let tzsign := if N.eqb (char_at t pos) 45 then -1 else 1 in
          match parse_hh_mm_ss_ff t (S pos) len with
          | HmsFail => TimeFail
          | HmsOk trailing' tf tzus =>
              if trailing' then TimeFail
              else
                TimeAware h m s us
                  (tzsign * (nth 0 tf 0 * 3600 + nth 1 tf 0 * 60 + nth 2 tf 0))
                  (tzsign * tzus)
          end
        else TimeFail
  end.

(** [tzinfo_from_isoformat_results] with the range check of
    [new_timezone]: the offset lies strictly between -24 h and 24 h. *)
Definition tz_of_offset (tzoffset tzusec : Z) : option Z :=
  if tzoffset =? 0 then Some 0
  else
    let off := tzoffset * 1000000 + tzusec in
    if ((- 86400000000 <? off) && (off <? 86400000000))%bool then Some off
    else None.

(** [datetime.fromisoformat] (CPython 3.7 to 3.10, the inverse of
    [isoformat]) on a [str]; [None] stands for [ValueError]. *)
Definition fromisoformat (s : pystr) : option datetime :=
  match parse_isoformat_date s with
  | None => None
  | Some (y, mo, d) =>
      let tr :=
        if Nat.ltb 10 (List.length s) then parse_isoformat_time (skipn 11 s)
        else TimeNaive 0 0 0 0 in
      match tr with
      | TimeFail => None
      | TimeNaive h mi sec us =>
          if (valid_date y mo d && valid_time h mi sec us)%bool
          then Some (mkDT y mo d h mi sec us None) else None
      | TimeAware h mi sec us tzoffset tzusec =>
          match tz_of_offset tzoffset tzusec with
          | None => None
          | Some off =>
              if (valid_date y mo d && valid_time h mi sec us)%bool
              then Some (mkDT y mo d h mi sec us (Some off)) else None
          end
      end
  end.

(** The text of a UTC offset, as [isoformat] appends it. *)
Definition format_offset (off : Z) : pystr :=
  let a := Z.abs off in
  let hh := a / 3600000000 in
  let mm := (a / 60000000) mod 60 in
  let ss := (a / 1000000) mod 60 in
  let us := a mod 1000000 in
  [if off <? 0 then 45%N else 43%N] ++ zpad 2 hh ++ [58%N] ++ zpad 2 mm
  ++ (if ((ss =? 0) && (us =? 0))%bool then []
      else [58%N] ++ zpad 2 ss
           ++ (if us =? 0 then [] else [46%N] ++ zpad 6 us)).

(** [date.isoformat]: [YYYY-MM-DD]. *)
Definition date_isoformat (y m d : Z) : pystr :=
  zpad 4 y ++ [45%N] ++ zpad 2 m ++ [45%N] ++ zpad 2 d.

(** [datetime.isoformat()] with the default separator and timespec. *)
Definition isoformat (d : datetime) : pystr :=
  date_isoformat (year d) (month d) (day d) ++ [84%N]
  ++ zpad 2 (hour d) ++ [58%N] ++ zpad 2 (minute d) ++ [58%N]
  ++ zpad 2 (second d)
  ++ (if microsecond d =? 0 then [] else [46%N] ++ zpad 6 (microsecond d))
  ++ match tzinfo d with None => [] | Some off => format_offset off end.

(** The value is in the range the constructor accepts. *)
Definition valid (d : datetime) : bool :=
  (valid_date (year d) (month d) (day d)
   && valid_time (hour d) (minute d) (second d) (microsecond d))%bool.

Definition naive (d : datetime) : bool :=
  match tzinfo d with None => true | Some _ => false end.

(** The microseconds from 0001-01-01T00:00:00 to the wall-clock fields. *)
Definition wall_us (d : datetime) : Z :=
  ((ymd2ord (year d) (month d) (day d) * 86400
    + (second d + minute d * 60 + hour d * 3600)) * 1000000)
  + microsecond d.

(** [a - b] as a [timedelta], in microseconds. [None] stands for the
    [TypeError] raised when one operand is naive and the other aware. *)
Definition sub (a b : datetime) : option Z :=
  match tzinfo a, tzinfo b with
  | None, None => Some (wall_us a - wall_us b)
  | Some oa, Some ob => Some ((wall_us a - oa) - (wall_us b - ob))
  | _, _ => None
  end.

End Datetime.

(* ================================================================= *)
(** ** Exceptions and results *)

Module Py.

(** The exception classes that occur. [JSONDecodeError] is a subclass of
    [ValueError]; [DatabaseError] stands for the exceptions of pymysql
    ([pymysql.err.Error] and its subclasses). *)
Inductive exn :=
| JSONDecodeError
| ValueError
| KeyError
| TypeError
| AttributeError
| UnboundLocalError
| ZeroDivisionError
| OverflowError
| OSError
| DatabaseError.

(** The outcome of evaluating an expression: a value or a raised
    exception. *)
Inductive result (A : Type) :=
| Ok (a : A)
| Raise (e : exn).
Arguments Ok {A} a.
Arguments Raise {A} e.

Definition rbind {A B} (r : result A) (k : A -> result B) : result B :=
  match r with
  | Ok a => k a
  | Raise e => Raise e
  end.

End Py.

(* ================================================================= *)
(** ** Floating point *)

Module PyFloat.
Import Text Py.

(** A Python [float] is an IEEE 754 binary64 value. Finite values are kept
    in the canonical form of [SpecFloat]: [S754_finite s m e] is
    [(-1)^s * m * 2^e] with [m < 2^53], [-1074 <= e <= 971], and
    [2^52 <= m] unless [e = -1074]. *)
Definition pyfloat := spec_float.

(** [a / b] rounded to the nearest integer, ties to the even one, for
    [0 <= a] and [0 < b]. *)
Definition div_rne (a b : Z) : Z :=
  let '(q, r) := Z.div_eucl a b in
  match 2 * r ?= b with
  | Lt => q
  | Gt => q + 1
  | Eq => if Z.even q then q else q + 1
  end.

(** [2^l <= a / b] *)
Definition ge_pow2 (a b l : Z) : bool :=
  if 0 <=? l then b * 2 ^ l <=? a else b <=? a * 2 ^ (- l).

(** The binary magnitude of [a / b] for [0 < a], [0 < b]: the [ex] with
    [2^(ex-1) <= a / b < 2^ex]. *)
Definition mag (a b : Z) : Z :=
  let l := Z.log2 a - Z.log2 b in
  if ge_pow2 a b l then l + 1 else l.

(** The float [(-1)^s * m * 2^e] for a rounded significand
    [0 <= m <= 2^53]: the significand [2^53] is renormalised, a zero
    significand is an underflow to zero, an exponent above 971 an
    overflow to infinity. *)
Definition pack (s : bool) (m e : Z) : pyfloat :=
  let m1 := if m =? 2 ^ 53 then 2 ^ 52 else m in
  let e1 := if m =? 2 ^ 53 then e + 1 else e in
  if m1 =? 0 then S754_zero s
  else if 971 <? e1 then S754_infinity s
  else S754_finite s (Z.to_pos m1) e1.

(** The binary64 value nearest to [(-1)^s * a / b] (round to nearest, ties
    to even), for [0 <= a] and [0 < b]: every arithmetic operation below
    rounds its exact result this way. *)
Definition nearest_double (s : bool) (a b : Z) : pyfloat :=
  if a =? 0 then S754_zero s
  else
    let e := Z.max (mag a b - 53) (- 1074) in
    pack s (if 0 <=? e then div_rne a (b * 2 ^ e)
            else div_rne (a * 2 ^ (- e)) b) e.

(** The exact value of a finite float as a fraction with a positive
    denominator. *)
Definition num_den (x : pyfloat) : Z * Z :=
  match x with
  | S754_finite s m e =>
      let n := if 0 <=? e then Zpos m * 2 ^ e else Zpos m in
      let d := if 0 <=? e then 1 else 2 ^ (- e) in
      (if s then - n else n, d)
  | _ => (0, 1)
  end.

Definition is_finite (x : pyfloat) : bool :=
  match x with
  | S754_finite _ _ _ | S754_zero _ => true
  | _ => false
  end.

Definition sign_of (x : pyfloat) : bool :=
  match x with
  | S754_finite s _ _ | S754_zero s | S754_infinity s => s
  | S754_nan => false
  end.

(** [float(n)] for a Python [int]: [OverflowError] when too large. *)
Definition of_int (z : Z) : result pyfloat :=
  let x := nearest_double (z <? 0) (Z.abs z) 1 in
  if is_finite x then Ok x else Raise OverflowError.

(** [a / b] for Python [int]s: the correctly rounded quotient. *)
Definition int_truediv (a b : Z) : result pyfloat :=
  if b =? 0 then Raise ZeroDivisionError
  else
    let x := nearest_double (xorb (a <? 0) (b <? 0)) (Z.abs a) (Z.abs b) in
    if is_finite x then Ok x else Raise OverflowError.

(** [x * y] for floats (IEEE 754 multiplication). *)
Definition mul (x y : pyfloat) : pyfloat :=
  match x, y with
  | S754_nan, _ | _, S754_nan => S754_nan
  | S754_infinity _, S754_zero _ | S754_zero _, S754_infinity _ => S754_nan
  | S754_infinity sx, _ => S754_infinity (xorb sx (sign_of y))
  | _, S754_infinity sy => S754_infinity (xorb (sign_of x) sy)
  | S754_zero sx, _ => S754_zero (xorb sx (sign_of y))
  | _, S754_zero sy => S754_zero (xorb (sign_of x) sy)
  | S754_finite sx _ _, S754_finite sy _ _ =>
      let '(nx, dx) := num_den x in
      let '(ny, dy) := num_den y in
      nearest_double (xorb sx sy) (Z.abs nx * Z.abs ny) (dx * dy)
  end.

(** [x * n] for a float and an [int]: the [int] is converted first. *)
Definition mul_int (x : pyfloat) (n : Z) : result pyfloat :=
  rbind (of_int n) (fun y => Ok (mul x y)).

(** [round(x, ndigits)] for a float and [0 <= ndigits]: the exact value
    of [x] is rounded to [ndigits] decimals, ties to even, and the
    result is the float nearest to that decimal ([double_round] of
    [floatobject.c]). *)
Definition round (x : pyfloat) (ndigits : Z) : pyfloat :=
  match x with
  | S754_finite s _ _ =>
      if 323 <? ndigits then x
      else
        let '(n, d) := num_den x in
        let p := 10 ^ ndigits in
        nearest_double s (div_rne (Z.abs n * p) d) p
  | _ => x
  end.

(** The comparison of a float with an [int], on the exact values. *)
Definition compare_int (x : pyfloat) (z : Z) : option comparison :=
  match x with
  | S754_nan => None
  | S754_infinity s => Some (if s then Lt else Gt)
  | S754_zero _ => Some (0 ?= z)
  | S754_finite _ _ _ => let '(n, d) := num_den x in Some (n ?= z * d)
  end.

(** [x > z] *)
Definition gt_int (x : pyfloat) (z : Z) : bool :=
  match compare_int x z with
  | Some Gt => true
  | _ => false
  end.

(** The float nearest to [(-1)^s * n * 10^p], as [float(str)] computes it
    from a decimal numeral. *)
Definition of_decimal (s : bool) (n p : Z) : pyfloat :=
  if 0 <=? p then nearest_double s (n * 10 ^ p) 1
  else nearest_double s n (10 ^ (- p)).

(** Equality of representations. *)
Definition same (x y : pyfloat) : bool :=
  match x, y with
  | S754_zero a, S754_zero b => Bool.eqb a b
  | S754_infinity a, S754_infinity b => Bool.eqb a b
  | S754_nan, S754_nan => true
  | S754_finite a m e, S754_finite b n f =>
      (Bool.eqb a b && Pos.eqb m n && (e =? f))%bool
  | _, _ => false
  end.

(** [a / b < 10^k] *)
Definition lt_pow10 (a b k : Z) : bool :=
  if 0 <=? k then a <? b * 10 ^ k else a * 10 ^ (- k) <? b.

Fixpoint find_decpt (fuel : nat) (a b k : Z) : Z :=
  match fuel with
  | O => k
  | S f => if lt_pow10 a b k then k else find_decpt f a b (k + 1)
  end.

(** The decimal point position of [a / b], for a positive float [a / b]:
    the [k] with [10^(k-1) <= a / b < 10^k]. *)
Definition decimal_point (a b : Z) : Z :=
  find_decpt 4 a b (((mag a b - 1) * 30103) / 100000).

(** The [d]-digit decimal [N * 10^(k-d)] next to [a / b] that reads back
    as [x], the nearer one when both neighbours do. *)
Definition try_digits (x : pyfloat) (a b k d : Z) : option Z :=
  let sa := if k <=? d then a * 10 ^ (d - k) else a in
  let sb := if k <=? d then b else b * 10 ^ (k - d) in
  let '(lo, r) := Z.div_eucl sa sb in
  if r =? 0 then Some lo
  else
    let ok_lo := same (of_decimal false lo (k - d)) x in
    let ok_hi := same (of_decimal false (lo + 1) (k - d)) x in
    match ok_lo, ok_hi with
    | true, true =>
        Some match 2 * r ?= sb with
             | Lt => lo
             | Gt => lo + 1
             | Eq => if Z.even lo then lo else lo + 1
             end
    | true, false => Some lo
    | false, true => Some (lo + 1)
    | false, false => None
    end.

(** The shortest decimal that reads back as the positive float [x]:
    [d] digits are tried for [d = 1, 2, ...]; seventeen always suffice. *)
Fixpoint shortest (fuel : nat) (x : pyfloat) (a b k d : Z) : Z * Z :=
  match fuel with
  | O => (div_rne (if k <=? d then a * 10 ^ (d - k) else a)
                  (if k <=? d then b else b * 10 ^ (k - d)), k - d)
  | S f =>
      match try_digits x a b k d with
      | Some n => (n, k - d)
      | None => shortest f x a b k (d + 1)
      end
  end.

Fixpoint strip_zeros (fuel : nat) (n p : Z) : Z * Z :=
  match fuel with
  | O => (n, p)
  | S f =>
      if ((n mod 10 =? 0) && negb (n =? 0))%bool
      then strip_zeros f (n / 10) (p + 1) else (n, p)
  end.

(** The digits and the decimal point position of [repr] for a positive
    finite float (mode 0 of [_Py_dg_dtoa]). *)
Definition repr_digits (x : pyfloat) : pystr * Z :=
  let '(n, d) := num_den x in
  let k := decimal_point n d in
  let '(m, p) := shortest 16 x n d k 1 in
  let '(m', p') := strip_zeros 17 m p in
  let digits := dec_nat m' in
  (digits, Z.of_nat (List.length digits) + p').

(** [format_float_short] for the format code [r]. *)
Definition format_repr (digits : pystr) (decpt : Z) : pystr :=
  let nd := Z.of_nat (List.length digits) in
  if ((decpt <=? - 4) || (16 <? decpt))%bool then
    let ex := decpt - 1 in
    firstn 1 digits
    ++ (if 1 <? nd then 46%N :: skipn 1 digits else [])
    ++ [101%N; if ex <? 0 then 45%N else 43%N]
    ++ (if Z.abs ex <? 10 then 48%N :: dec_nat (Z.abs ex)
        else dec_nat (Z.abs ex))
  else if decpt <=? 0 then
    [48%N; 46%N] ++ repeat 48%N (Z.to_nat (- decpt)) ++ digits
  else if decpt <? nd then
    firstn (Z.to_nat decpt) digits ++ [46%N] ++ skipn (Z.to_nat decpt) digits
  else
    digits ++ repeat 48%N (Z.to_nat (decpt - nd)) ++ [46%N; 48%N].

(** [repr(x)], which is also [str(x)]. *)
Definition repr (x : pyfloat) : pystr :=
  match x with
  | S754_nan => str "nan"
  | S754_infinity s => (if s then [45%N] else []) ++ str "inf"
  | S754_zero s => (if s then [45%N] else []) ++ str "0.0"
  | S754_finite s m e =>
      let '(digits, decpt) := repr_digits (S754_finite false m e) in
      (if s then [45%N] else []) ++ format_repr digits decpt
  end.

End PyFloat.

(* ================================================================= *)
(** ** Values and JSON *)

Module Json.
Import Text Py PyFloat.

(** The Python values that occur: what [json.load] returns, and the
    [datetime.date] objects pymysql delivers for a [DATE] column. A
    [dict] keeps its items in insertion order, its keys are [str]. *)
#[warnings="-register-all"]
Inductive pyval :=
| PNone
| PBool (b : bool)
| PInt (z : Z)
| PFloat (x : pyfloat)
| PStr (s : pystr)
| PDate (y m d : Z)
| PList (l : list pyval)
| PDict (d : list (pystr * pyval)).

(** [d.get(k)] on the items of a dict. *)
Fixpoint dict_get {A} (d : list (pystr * A)) (k : pystr) : option A :=
  match d with
  | [] => None
  | (k', v) :: d' => if pystr_eqb k' k then Some v else dict_get d' k
  end.

(** [d[k] = v]: an existing key keeps its position. *)
Fixpoint dict_set {A} (d : list (pystr * A)) (k : pystr) (v : A)
  : list (pystr * A) :=
  match d with
  | [] => [(k, v)]
  | (k', v') :: d' =>
      if pystr_eqb k' k then (k', v) :: d' else (k', v') :: dict_set d' k v
  end.

(** [dict(pairs)] *)
Definition dict_of_pairs {A} (pairs : list (pystr * A)) : list (pystr * A) :=
  fold_left (fun d kv => dict_set d (fst kv) (snd kv)) pairs [].

(** *** Encoding: [json.dumps] with its default arguments *)

Definition hex_char (d : Z) : N :=
  Z.to_N (if d <? 10 then 48 + d else 87 + d).

(** The format [\uXXXX] of a code point below [0x10000]. *)
Definition u_escape (c : Z) : pystr :=
  [92%N; 117%N; hex_char (c / 4096); hex_char ((c / 256) mod 16);
   hex_char ((c / 16) mod 16); hex_char (c mod 16)].

(** The replacement [py_encode_basestring_ascii] makes for one code
    point. *)
Definition escape_char (c : N) : pystr :=
  if N.eqb c 34 then [92%N; 34%N]
  else if N.eqb c 92 then [92%N; 92%N]
  else if N.eqb c 10 then [92%N; 110%N]
  else if N.eqb c 13 then [92%N; 114%N]
  else if N.eqb c 9 then [92%N; 116%N]
  else if N.eqb c 8 then [92%N; 98%N]
  else if N.eqb c 12 then [92%N; 102%N]
  else if (N.leb 32 c && N.leb c 126)%bool then [c]
  else if N.ltb c 65536 then u_escape (Z.of_N c)
  else
    let n := Z.of_N c - 65536 in
    u_escape (55296 + (n / 1024) mod 1024) ++ u_escape (56320 + n mod 1024).

Definition encode_string (s : pystr) : pystr :=
  [34%N] ++ flat_map escape_char s ++ [34%N].

(** [floatstr] of [json.encoder]. *)
Definition encode_float (x : pyfloat) : pystr :=
  match x with
  | S754_nan => str "NaN"
  | S754_infinity false => str "Infinity"
  | S754_infinity true => str "-Infinity"
  | _ => repr x
  end.

(** [json.dumps(v)]; [None] stands for the [TypeError] raised for an
    object that is not JSON serializable. *)
Fixpoint encode (v : pyval) : option pystr :=
  match v with
  | PNone => Some (str "null")
  | PBool true => Some (str "true")
  | PBool false => Some (str "false")
  | PInt z => Some (dec z)
  | PFloat x => Some (encode_float x)
  | PStr s => Some (encode_string s)
  | PDate _ _ _ => None
  | PList l =>
      let fix items (first : bool) (l : list pyval) : option pystr :=
        match l with
        | [] => Some []
        | x :: l' =>
            match encode x, items false l' with
            | Some a, Some b =>
                Some ((if first then [] else [44%N; 32%N]) ++ a ++ b)
            | _, _ => None
            end
        end in
      match items true l with
      | Some body => Some ([91%N] ++ body ++ [93%N])
      | None => None
      end
  | PDict d =>
      let fix members (first : bool) (d : list (pystr * pyval))
        : option pystr :=
        match d with
        | [] => Some []
        | (k, x) :: d' =>
            match encode x, members false d' with
            | Some a, Some b =>
                Some ((if first then [] else [44%N; 32%N])
                      ++ encode_string k ++ [58%N; 32%N] ++ a ++ b)
            | _, _ => None
            end
        end in
      match members true d with
      | Some body => Some ([123%N] ++ body ++ [125%N])
      | None => None
      end
  end.

Definition json_dumps (v : pyval) : result pystr :=
  match encode v with
  | Some s => Ok s
  | None => Raise TypeError
  end.

(** *** Decoding: [json.loads] with its default arguments *)

Definition is_ws (c : N) : bool :=
  (N.eqb c 32 || N.eqb c 9 || N.eqb c 10 || N.eqb c 13)%bool.

Fixpoint skip_ws (s : pystr) : pystr :=
  match s with
  | c :: s' => if is_ws c then skip_ws s' else s
  | [] => []
  end.

Definition hex_val (c : N) : option Z :=
  if (N.leb 48 c && N.leb c 57)%bool then Some (Z.of_N c - 48)
  else if (N.leb 97 c && N.leb c 102)%bool then Some (Z.of_N c - 87)
  else if (N.leb 65 c && N.leb c 70)%bool then Some (Z.of_N c - 55)
  else None.

Definition hex4_val (a b c d : N) : option Z :=
  match hex_val a, hex_val b, hex_val c, hex_val d with
  | Some x, Some y, Some z, Some w => Some (((x * 16 + y) * 16 + z) * 16 + w)
  | _, _, _, _ => None
  end.

(** The character a one-letter escape stands for. *)
Definition unescape (e : N) : option N :=
  if N.eqb e 34 then Some 34%N
  else if N.eqb e 92 then Some 92%N
  else if N.eqb e 47 then Some 47%N
  else if N.eqb e 98 then Some 8%N
  else if N.eqb e 102 then Some 12%N
  else if N.eqb e 110 then Some 10%N
  else if N.eqb e 114 then Some 13%N
  else if N.eqb e 116 then Some 9%N
  else None.

Definition cons_scanned (c : N) (r : option (pystr * pystr))
  : option (pystr * pystr) :=
  match r with
  | Some (a, rest) => Some (c :: a, rest)
  | None => None
  end.

(** [scanstring] in strict mode, from the character after the opening
    quote: the string and the text after the closing quote. *)
Fixpoint scanstring (s : pystr) : option (pystr * pystr) :=
  match s with
  | [] => None
  | c :: s' =>
      if N.eqb c 34 then Some ([], s')
      else if N.eqb c 92 then
        match s' with
        | [] => None
        | e :: s'' =>
            if N.eqb e 117 then
              match s'' with
              | h1 :: h2 :: h3 :: h4 :: rest =>
                  match hex4_val h1 h2 h3 h4 with
                  | None => None
                  | Some u =>
                      if ((55296 <=? u) && (u <=? 56319))%bool then
                        match rest with
                        | 92%N :: 117%N :: g1 :: g2 :: g3 :: g4 :: rest' =>
                            match hex4_val g1 g2 g3 g4 with
                            | None => None
                            | Some u2 =>
                                if ((56320 <=? u2) && (u2 <=? 57343))%bool
                                then
                                  cons_scanned
                                    (Z.to_N (65536 + (u - 55296) * 1024
                                             + (u2 - 56320)))
                                    (scanstring rest')
                                else cons_scanned (Z.to_N u) (scanstring rest)
                            end
                        | _ => cons_scanned (Z.to_N u) (scanstring rest)
                        end
                      else cons_scanned (Z.to_N u) (scanstring rest)
                  end
              | _ => None
              end
            else
              match unescape e with
              | Some ch => cons_scanned ch (scanstring s'')
              | None => None
              end
        end
      else if N.leb c 31 then None
      else cons_scanned c (scanstring s')
  end.

(** [prefix p s]: the rest of [s] after the literal [p]. *)
Fixpoint prefix (p s : pystr) : option pystr :=
  match p, s with
  | [], _ => Some s
  | a :: p', b :: s' => if N.eqb a b then prefix p' s' else None
  | _ :: _, [] => None
  end.

(** [starts_with c s]: the rest of [s] after the character [c]. *)
Definition starts_with (c : N) (s : pystr) : option pystr :=
  match s with
  | x :: r => if N.eqb x c then Some r else None
  | [] => None
  end.

(** The parts of a numeral: an optional minus sign, *)
Definition scan_sign (s : pystr) : bool * pystr :=
  match starts_with 45 s with
  | Some s' => (true, s')
  | None => (false, s)
  end.

(** the integer part, a single zero or a run of digits that starts with
    a non-zero one, *)
Definition scan_int_part (s : pystr) : option (pystr * pystr) :=
  match s with
  | c :: s' =>
      if N.eqb c 48 then Some ([c], s')
      else if is_digit c then Some (span is_digit s)
      else None
  | [] => None
  end.

(** an optional fraction, a dot and at least one digit, *)
Definition scan_frac (s : pystr) : pystr * pystr :=
  match starts_with 46 s with
  | Some r =>
      match span is_digit r with
      | ([], _) => ([], s)
      | (fd, r') => (fd, r')
      end
  | None => ([], s)
  end.

(** and an optional exponent, the letter e in either case, an optional
    sign and at least one digit. *)
Definition scan_exp (s : pystr) : option Z * pystr :=
  match s with
  | c :: r =>
      if (N.eqb c 101 || N.eqb c 69)%bool then
        let '(eneg, ra) :=
          match starts_with 45 r with
          | Some r' => (true, r')
          | None =>
              match starts_with 43 r with
              | Some r' => (false, r')
              | None => (false, r)
              end
          end in
        match span is_digit ra with
        | ([], _) => (None, s)
        | (ed, r') =>
            (Some (if eneg then - digits_val 0 ed else digits_val 0 ed), r')
        end
      else (None, s)
  | [] => (None, s)
  end.

(** The value of a numeral: an [int] when it has neither fraction nor
    exponent and a [float] otherwise. *)
Definition number_value (neg : bool) (ds frac : pystr) (ex : option Z)
  : pyval :=
  match frac, ex with
  | [], None => PInt (if neg then - digits_val 0 ds else digits_val 0 ds)
  | _, _ =>
      PFloat (of_decimal neg (digits_val 0 (ds ++ frac))
                (match ex with Some e => e | None => 0 end
                 - Z.of_nat (List.length frac)))
  end.

(** The number at the head of [s], as [_match_number] reads it. *)
Definition scan_number (s : pystr) : option (pyval * pystr) :=
  let '(neg, s1) := scan_sign s in
  match scan_int_part s1 with
  | None => None
  | Some (ds, r1) =>
      let '(frac, r2) := scan_frac r1 in
      let '(ex, r3) := scan_exp r2 in
      Some (number_value neg ds frac ex, r3)
  end.

(** The constants and numbers of [scan_once]. *)
Definition scan_atom (s : pystr) : option (pyval * pystr) :=
  match prefix (str "null") s with
  | Some r => Some (PNone, r)
  | None =>
  match prefix (str "true") s with
  | Some r => Some (PBool true, r)
  | None =>
  match prefix (str "false") s with
  | Some r => Some (PBool false, r)
  | None =>
  match prefix (str "NaN") s with
  | Some r => Some (PFloat S754_nan, r)
  | None =>
  match prefix (str "Infinity") s with
  | Some r => Some (PFloat (S754_infinity false), r)
  | None =>
  match prefix (str "-Infinity") s with
  | Some r => Some (PFloat (S754_infinity true), r)
  | None => scan_number s
  end end end end end end.

(** [scan_once]: the JSON term at the head of [s], and the rest.
    [parse_items] reads the terms of a non-empty array up to its closing
    bracket, [parse_members] the items of a non-empty object. *)
Fixpoint parse_value (fuel : nat) (s : pystr) {struct fuel}
  : option (pyval * pystr) :=
  match fuel with
  | O => None
  | S f =>
      match s with
      | [] => None
      | c :: s' =>
          if N.eqb c 34 then
            match scanstring s' with
            | Some (a, r) => Some (PStr a, r)
            | None => None
            end
          else if N.eqb c 91 then
            match starts_with 93 (skip_ws s') with
            | Some r => Some (PList [], r)
            | None =>
                match parse_items f (skip_ws s') with
                | Some (l, r) => Some (PList l, r)
                | None => None
                end
            end
          else if N.eqb c 123 then
            match starts_with 125 (skip_ws s') with
            | Some r => Some (PDict [], r)
            | None =>
                match parse_members f (skip_ws s') with
                | Some (d, r) => Some (PDict (dict_of_pairs d), r)
                | None => None
                end
            end
          else scan_atom s
      end
  end
with parse_items (fuel : nat) (s : pystr) {struct fuel}
  : option (list pyval * pystr) :=
  match fuel with
  | O => None
  | S f =>
      match parse_value f s with
      | None => None
      | Some (v, r) =>
          match starts_with 93 (skip_ws r) with
          | Some r' => Some ([v], r')
          | None =>
              match starts_with 44 (skip_ws r) with
              | Some r' =>
                  match parse_items f (skip_ws r') with
                  | Some (l, r'') => Some (v :: l, r'')
                  | None => None
                  end
              | None => None
              end
          end
      end
  end
with parse_members (fuel : nat) (s : pystr) {struct fuel}
  : option (list (pystr * pyval) * pystr) :=
  match fuel with
  | O => None
  | S f =>
      match starts_with 34 s with
      | None => None
      | Some s' =>
          match scanstring s' with
          | None => None
          | Some (k, r) =>
              match starts_with 58 (skip_ws r) with
              | None => None
              | Some r1 =>
                  match parse_value f (skip_ws r1) with
                  | None => None
                  | Some (v, r2) =>
                      match starts_with 125 (skip_ws r2) with
                      | Some r' => Some ([(k, v)], r')
                      | None =>
                          match starts_with 44 (skip_ws r2) with
                          | Some r' =>
                              match parse_members f (skip_ws r') with
                              | Some (d, r'') => Some ((k, v) :: d, r'')
                              | None => None
                              end
                          | None => None
                          end
                      end
                  end
              end
          end
      end
  end.

(** [json.loads(s)]: one term, surrounded by white space only. [None]
    stands for [JSONDecodeError]. *)
Definition decode (s : pystr) : option pyval :=
  match parse_value (S (List.length s)) (skip_ws s) with
  | Some (v, r) =>
      match skip_ws r with
      | [] => Some v
      | _ => None
      end
  | None => None
  end.

Definition json_loads (s : pystr) : result pyval :=
  match decode s with
  | Some v => Ok v
  | None => Raise JSONDecodeError
  end.

End Json.

(* ================================================================= *)
(** ** The user store *)

Module Db.
Import Text Calendar Datetime Json.

(** A [DATETIME] value of MySQL. *)
Record sqltime := mkSql {
  s_year : Z; s_month : Z; s_day : Z;
  s_hour : Z; s_minute : Z; s_second : Z
}.

(** A row of the table [users]: the two columns the queries read. Both
    are nullable. *)
Record user := mkUser {
  cm_firebase_token : option pystr;
  updated_at : option sqltime
}.

(** A column value as pymysql delivers it. *)
Inductive cell :=
| CNull
| CInt (z : Z)
| CStr (s : pystr)
| CDate (y m d : Z).

(** A row of a [DictCursor]: a dict from column names to values. *)
Definition row := list (pystr * cell).

(** The Python object a column value is. *)
Definition cell_value (c : cell) : pyval :=
  match c with
  | CNull => PNone
  | CInt z => PInt z
  | CStr s => PStr s
  | CDate y m d => PDate y m d
  end.

(** [str(c)] *)
Definition cell_str (c : cell) : pystr :=
  match c with
  | CNull => str "None"
  | CInt z => dec z
  | CStr s => s
  | CDate y m d => date_isoformat y m d
  end.

Definition row_value (r : row) : pyval :=
  PDict (map (fun kc => (fst kc, cell_value (snd kc))) r).

(** The four statements [get_migration_stats] executes. *)
Inductive query := QTotal | QMigrated | QHourly | QDaily.

Definition sql_seconds (t : sqltime) : Z :=
  ymd2ord (s_year t) (s_month t) (s_day t) * 86400
  + s_hour t * 3600 + s_minute t * 60 + s_second t.

(** [cm_firebase_token IS NOT NULL] *)
Definition migrated (u : user) : bool :=
  match cm_firebase_token u with Some _ => true | None => false end.

(** [cm_firebase_token IS NOT NULL AND updated_at >= NOW() - INTERVAL ...],
    the interval given in seconds. *)
Definition migrated_since (now : sqltime) (interval : Z) (u : user) : bool :=
  match cm_firebase_token u, updated_at u with
  | Some _, Some t => sql_seconds now - interval <=? sql_seconds t
  | _, _ => false
  end.

(** [DATE_FORMAT(t, '%Y-%m-%d %H:00:00')] *)
Definition hour_bucket (t : sqltime) : pystr :=
  zpad 4 (s_year t) ++ [45%N] ++ zpad 2 (s_month t) ++ [45%N]
  ++ zpad 2 (s_day t) ++ [32%N] ++ zpad 2 (s_hour t) ++ str ":00:00".

(** [DATE(t)] *)
Definition day_bucket (t : sqltime) : Z * Z * Z :=
  (s_year t, s_month t, s_day t).

Definition date_compare (a b : Z * Z * Z) : comparison :=
  let '(y1, m1, d1) := a in
  let '(y2, m2, d2) := b in
  match y1 ?= y2 with
  | Eq => match m1 ?= m2 with Eq => d1 ?= d2 | c => c end
  | c => c
  end.

(** [COUNT( * ) ... GROUP BY k ORDER BY k]: one more row counted for the
    key [k], the groups kept in ascending order. *)
Fixpoint bump {K} (cmp : K -> K -> comparison) (k : K) (l : list (K * Z))
  : list (K * Z) :=
  match l with
  | [] => [(k, 1)]
  | (k', n) :: l' =>
      match cmp k k' with
      | Eq => (k', n + 1) :: l'
      | Lt => (k, 1) :: l
      | Gt => (k', n) :: bump cmp k l'
      end
  end.

Definition group_count {K} (cmp : K -> K -> comparison) (keys : list K)
  : list (K * Z) :=
  fold_left (fun acc k => bump cmp k acc) keys [].

Definition times_of (us : list user) : list sqltime :=
  flat_map (fun u => match updated_at u with Some t => [t] | None => [] end) us.

(** The result set of a statement on the table [users] at the server
    time [now]. *)
Definition run_query (users : list user) (now : sqltime) (q : query)
  : list row :=
  match q with
  | QTotal =>
      [[(str "total", CInt (Z.of_nat (List.length users)))]]
  | QMigrated =>
      [[(str "migrated",
         CInt (Z.of_nat (List.length (filter migrated users))))]]
  | QHourly =>
      map (fun kn => [(str "hour", CStr (fst kn)); (str "count", CInt (snd kn))])
          (group_count pystr_compare
             (map hour_bucket
                (times_of (filter (migrated_since now 86400) users))))
  | QDaily =>
      map (fun kn =>
             let '(y, m, d) := fst kn in
             [(str "date", CDate y m d); (str "count", CInt (snd kn))])
          (group_count date_compare
             (map day_bucket
                (times_of (filter (migrated_since now 604800) users))))
  end.

End Db.

(* ================================================================= *)
(** ** MigrationStats *)

Module Dash.
Import Text Py PyFloat Datetime Json Db.

(** *** The state the methods act on *)

(** A call of the pymysql connection or its cursor. *)
Inductive db_event :=
| EvConnect
| EvCursor
| EvExecute (q : query)
| EvCloseCursor
| EvCloseConn.

(** The state outside the process: the file [migration_stats_cache.json]
    (absent, or its text), the connections and cursors that are open, and
    the calls made to the database so far (latest first). *)
Record world := mkWorld {
  cache_file : option pystr;
  open_conns : nat;
  open_cursors : nat;
  db_log : list db_event
}.

(** What a call reads from its surroundings: the two readings of the
    local clock ([datetime.now()] in [should_update_cache] and for
    [last_update]), the table [users] and the server time [NOW()], and
    which of the fallible steps fail: connecting, executing a statement,
    opening the cache file for writing. *)
Record env := mkEnv {
  now_check : datetime;
  now_stamp : datetime;
  users : list user;
  db_now : sqltime;
  connect_fails : bool;
  execute_fails : query -> bool;
  write_fails : bool
}.

(** The local variables of [get_migration_stats] that its [finally]
    clause reads, [None] while unbound, and the result set the cursor
    holds. *)
Record frame := mkFrame {
  conn : option unit;
  cursor : option unit;
  cursor_rows : list row
}.

(** *** Statements: state and exceptions *)

Definition M (S A : Type) : Type := S -> result A * S.

Definition ret {S A} (a : A) : M S A := fun s => (Ok a, s).

Definition raise {S A} (e : exn) : M S A := fun s => (Raise e, s).

Definition bind {S A B} (m : M S A) (k : A -> M S B) : M S B :=
  fun s =>
    match m s with
    | (Ok a, s') => k a s'
    | (Raise e, s') => (Raise e, s')
    end.

(** An expression without effect on the state. *)
Definition eval {S A} (r : result A) : M S A := fun s => (r, s).

Notation "x <- m ;; k" := (bind m (fun x => k))
  (at level 61, m at next level, right associativity).
Notation "m ;;; k" := (bind m (fun _ => k))
  (at level 61, right associativity).

(** [try: body except (handled classes): handler] *)
Definition try_except {S A} (body : M S A) (handled : exn -> bool)
  (handler : M S A) : M S A :=
  fun s =>
    match body s with
    | (Raise e, s') => if handled e then handler s' else (Raise e, s')
    | r => r
    end.

(** [try: body finally: fin]: an exception of [fin] replaces the outcome
    of [body]. *)
Definition try_finally {S A} (body : M S A) (fin : M S unit) : M S A :=
  fun s =>
    let '(r, s') := body s in
    match fin s' with
    | (Ok _, s'') => (r, s'')
    | (Raise e, s'') => (Raise e, s'')
    end.

(** *** The cache file *)

(** [os.path.exists(self.cache_file)] *)
Definition path_exists : M world bool :=
  fun w => (Ok (match cache_file w with Some _ => true | None => false end), w).

(** [open(self.cache_file, 'r')] and reading the text. *)
Definition read_text : M world pystr :=
  fun w =>
    match cache_file w with
    | Some t => (Ok t, w)
    | None => (Raise OSError, w)
    end.

(** [open(self.cache_file, 'w')]: the file is created or truncated. *)
Definition open_truncate (fails : bool) : M world unit :=
  fun w =>
    if fails then (Raise OSError, w)
    else (Ok tt, mkWorld (Some []) (open_conns w) (open_cursors w) (db_log w)).

(** Writing to the file just opened. *)
Definition write_text (t : pystr) : M world unit :=
  fun w =>
    (Ok tt,
     mkWorld (Some (match cache_file w with Some old => old ++ t | None => t end))
             (open_conns w) (open_cursors w) (db_log w)).

(** *** The connection *)

Definition log (ev : db_event) (w : world) : world :=
  mkWorld (cache_file w) (open_conns w) (open_cursors w) (ev :: db_log w).

(** [self.get_db_connection()], that is [pymysql.connect(...)] *)
Definition get_db_connection (e : env) : M world unit :=
  fun w =>
    if connect_fails e then (Raise DatabaseError, log EvConnect w)
    else
      (Ok tt,
       mkWorld (cache_file w) (S (open_conns w)) (open_cursors w)
               (EvConnect :: db_log w)).

(** [conn.cursor()] *)
Definition new_cursor : M world unit :=
  fun w =>
    (Ok tt,
     mkWorld (cache_file w) (open_conns w) (S (open_cursors w))
             (EvCursor :: db_log w)).

(** [cursor.close()] *)
Definition close_cursor : M world unit :=
  fun w =>
    (Ok tt,
     mkWorld (cache_file w) (open_conns w) (Nat.pred (open_cursors w))
             (EvCloseCursor :: db_log w)).

(** [conn.close()] *)
Definition close_conn : M world unit :=
  fun w =>
    (Ok tt,
     mkWorld (cache_file w) (Nat.pred (open_conns w)) (open_cursors w)
             (EvCloseConn :: db_log w)).

(** *** Statements of [get_migration_stats] on the world and its frame *)

Definition on_world {A} (m : M world A) : M (world * frame) A :=
  fun s => let '(r, w') := m (fst s) in (r, (w', snd s)).

Definition set_conn (c : unit) : M (world * frame) unit :=
  fun s =>
    (Ok tt, (fst s, mkFrame (Some c) (cursor (snd s)) (cursor_rows (snd s)))).

Definition set_cursor (c : unit) : M (world * frame) unit :=
  fun s =>
    (Ok tt, (fst s, mkFrame (conn (snd s)) (Some c) (cursor_rows (snd s)))).

(** Reading a local variable: [UnboundLocalError] while it is unbound. *)
Definition get_conn : M (world * frame) unit :=
  fun s =>
    match conn (snd s) with
    | Some c => (Ok c, s)
    | None => (Raise UnboundLocalError, s)
    end.

Definition get_cursor : M (world * frame) unit :=
  fun s =>
    match cursor (snd s) with
    | Some c => (Ok c, s)
    | None => (Raise UnboundLocalError, s)
    end.

(** [cursor.execute(q)] *)
Definition execute (e : env) (q : query) : M (world * frame) unit :=
  fun s =>
    let w := log (EvExecute q) (fst s) in
    if execute_fails e q then (Raise DatabaseError, (w, snd s))
    else
      (Ok tt,
       (w, mkFrame (conn (snd s)) (cursor (snd s))
                   (run_query (users e) (db_now e) q))).

(** [cursor.fetchone()[key]]: [fetchone] returns [None] when the result
    set is empty. *)
Definition fetchone_item (key : pystr) : M (world * frame) cell :=
  fun s =>
    match cursor_rows (snd s) with
    | [] => (Raise TypeError, s)
    | r :: _ =>
        match dict_get r key with
        | Some c => (Ok c, s)
        | None => (Raise KeyError, s)
        end
    end.

(** [cursor.fetchall()] *)
Definition fetchall : M (world * frame) (list row) :=
  fun s => (Ok (cursor_rows (snd s)), s).

(** The operands of the arithmetic on the counts are [int]s; anything
    else a column could hold raises [TypeError] there. *)
Definition as_int (c : cell) : result Z :=
  match c with
  | CInt z => Ok z
  | _ => Raise TypeError
  end.

(** [[{**item, key: str(item[key])} for item in rows]] *)
Fixpoint stringify (key : pystr) (rows : list row) : result (list row) :=
  match rows with
  | [] => Ok []
  | item :: rows' =>
      match dict_get item key with
      | None => Raise KeyError
      | Some c =>
          rbind (stringify key rows')
                (fun l => Ok (dict_set item key (CStr (cell_str c)) :: l))
      end
  end.

(** *** The two methods *)

(** [self.cache_duration] *)
Definition cache_duration : Z := 300.

(** [cache.get('last_update', '')]: only a [dict] has the method. *)
Definition py_get (cache : pyval) (key : pystr) (default : pyval)
  : result pyval :=
  match cache with
  | PDict d =>
      Ok (match dict_get d key with Some v => v | None => default end)
  | _ => Raise AttributeError
  end.

(** [datetime.fromisoformat(v)]: [TypeError] unless [v] is a [str],
    [ValueError] for a [str] that is no ISO timestamp. *)
Definition py_fromisoformat (v : pyval) : result datetime :=
  match v with
  | PStr s =>
      match fromisoformat s with
      | Some d => Ok d
      | None => Raise ValueError
      end
  | _ => Raise TypeError
  end.

(** [a - b] for two [datetime]s. *)
Definition py_datetime_sub (a b : datetime) : result Z :=
  match Datetime.sub a b with
  | Some td => Ok td
  | None => Raise TypeError
  end.

(** [td.total_seconds()] for a [timedelta] of [td] microseconds. *)
Definition total_seconds (td : Z) : result pyfloat :=
  int_truediv td 1000000.

(** [datetime.now()]: the reading of the local clock as a naive value. *)
Definition datetime_now (reading : datetime) : datetime :=
  mkDT (year reading) (month reading) (day reading) (hour reading)
       (minute reading) (second reading) (microsecond reading) None.

(** The classes the [except] clause of [should_update_cache] names, with
    their subclasses. *)
Definition cache_errors (e : exn) : bool :=
  match e with
  | JSONDecodeError | ValueError | KeyError => true
  | _ => false
  end.

(** [MigrationStats.should_update_cache] *)
Definition should_update_cache (e : env) : M world bool :=
  present <- path_exists ;;
  if negb present then ret true
  else
    try_except
      (text <- read_text ;;
       cache <- eval (json_loads text) ;;
       field <- eval (py_get cache (str "last_update") (PStr [])) ;;
       last_update <- eval (py_fromisoformat field) ;;
       td <- eval (py_datetime_sub (datetime_now (now_check e)) last_update) ;;
       secs <- eval (total_seconds td) ;;
       ret (gt_int secs cache_duration))
      cache_errors
      (ret true).

(** [round((migrated / total * 100), 2) if total > 0 else 0] *)
Definition migration_rate (migrated_users total_users : Z) : result pyval :=
  if 0 <? total_users then
    rbind (int_truediv migrated_users total_users) (fun q =>
    rbind (mul_int q 100) (fun p =>
    Ok (PFloat (round p 2))))
  else Ok (PInt 0).

(** The dict literal bound to [stats]. *)
Definition make_stats (total_users migrated_users : Z) (rate : pyval)
  (hourly_data daily_data : list row) (now : datetime) : pyval :=
  PDict
    [(str "total_users", PInt total_users);
     (str "migrated_users", PInt migrated_users);
     (str "pending_users", PInt (total_users - migrated_users));
     (str "migration_rate", rate);
     (str "hourly_data", PList (map row_value hourly_data));
     (str "daily_data", PList (map row_value daily_data));
     (str "last_update", PStr (isoformat now))].

(** The body of the [try] statement of [get_migration_stats]. *)
Definition refresh_body (e : env) : M (world * frame) pyval :=
  c <- on_world (get_db_connection e) ;;
  set_conn c ;;;
  cur <- on_world new_cursor ;;
  set_cursor cur ;;;
  execute e QTotal ;;;
  total_cell <- fetchone_item (str "total") ;;
  execute e QMigrated ;;;
  migrated_cell <- fetchone_item (str "migrated") ;;
  execute e QHourly ;;;
  hourly_rows <- fetchall ;;
  hourly_data <- eval (stringify (str "hour") hourly_rows) ;;
  execute e QDaily ;;;
  daily_rows <- fetchall ;;
  daily_data <- eval (stringify (str "date") daily_rows) ;;
  total_users <- eval (as_int total_cell) ;;
  migrated_users <- eval (as_int migrated_cell) ;;
  rate <- eval (migration_rate migrated_users total_users) ;;
  let stats :=
    make_stats total_users migrated_users rate hourly_data daily_data
               (datetime_now (now_stamp e)) in
  on_world (open_truncate (write_fails e)) ;;;
  text <- eval (json_dumps stats) ;;
  on_world (write_text text) ;;;
  ret stats.

(** The [finally] clause: [cursor.close()] then [conn.close()]. *)
Definition refresh_finally : M (world * frame) unit :=
  get_cursor ;;;
  on_world close_cursor ;;;
  get_conn ;;;
  on_world close_conn.

(** Running a block on a fresh frame, both locals unbound. *)
Definition in_frame {A} (m : M (world * frame) A) : M world A :=
  fun w => let '(r, s) := m (w, mkFrame None None []) in (r, fst s).

(** [MigrationStats.get_migration_stats] *)
Definition get_migration_stats (e : env) : M world pyval :=
  stale <- should_update_cache e ;;
  if negb stale then
    text <- read_text ;;
    eval (json_loads text)
  else
    in_frame (try_finally (refresh_body e) refresh_finally).

End Dash.

(* ================================================================= *)
(** ** Notions the statements use *)

Module Obs.
Import Text Py PyFloat Datetime Json Db Dash.

(** The world in which the cache file holds [text], nothing is open and
    no call to the database has been made. *)
Definition file_world (text : pystr) : world := mkWorld (Some text) 0 0 [].

(** The world without a cache file. *)
Definition empty_world : world := mkWorld None 0 0 [].

(** [v[k]] for a dict [v]. *)
Definition field (v : pyval) (k : string) : option pyval :=
  match v with
  | PDict d => dict_get d (str k)
  | _ => None
  end.

(** The timestamp a cache file holds: its text is a JSON object whose
    [last_update] is a string that [fromisoformat] accepts. *)
Definition cache_timestamp (text : pystr) : option datetime :=
  match decode text with
  | Some (PDict d) =>
      match dict_get d (str "last_update") with
      | Some (PStr s) => fromisoformat s
      | _ => None
      end
  | _ => None
  end.

(** The time from the timestamp [d] to the clock reading of the
    staleness check, in microseconds of wall-clock time. *)
Definition elapsed_us (e : env) (d : datetime) : Z :=
  wall_us (datetime_now (now_check e)) - wall_us d.

(** No step of the refresh fails. *)
Definition no_fault (e : env) : Prop :=
  connect_fails e = false
  /\ (forall q, execute_fails e q = false)
  /\ write_fails e = false.

(** [x] is a non-negative float of value at most the integer [k]. *)
Definition at_most (k : Z) (x : pyfloat) : Prop :=
  match x with
  | S754_zero s => s = false
  | S754_finite s m e => s = false /\ e <= 0 /\ Zpos m <= k * 2 ^ (- e)
  | _ => False
  end.

(** [x] is a non-negative float within [2^(-k)] of [a / b]. *)
Definition within (k a b : Z) (x : pyfloat) : Prop :=
  match x with
  | S754_zero s => s = false /\ a * 2 ^ k <= b
  | S754_finite s m e =>
      s = false /\ e <= 0
      /\ Z.abs (Zpos m * b - a * 2 ^ (- e)) * 2 ^ k <= b * 2 ^ (- e)
  | _ => False
  end.

(** [x] with the sign [s]. *)
Definition with_sign (s : bool) (x : pyfloat) : pyfloat :=
  match x with
  | S754_zero _ => S754_zero s
  | S754_infinity _ => S754_infinity s
  | S754_nan => S754_nan
  | S754_finite _ m e => S754_finite s m e
  end.

(** What may follow a JSON term inside a document written by
    [json.dumps]: nothing, a comma, or a closing bracket or brace. *)
Definition stop (rest : pystr) : bool :=
  match rest with
  | [] => true
  | c :: _ => (N.eqb c 44 || N.eqb c 93 || N.eqb c 125)%bool
  end.

(** A character that is none of the three that may follow a term. *)
Definition inner_char (c : N) : bool :=
  negb (N.eqb c 44 || N.eqb c 93 || N.eqb c 125).

(** The text does not start like a string, an array or an object. *)
Definition atom_head (t : pystr) : bool :=
  match t with
  | c :: _ => negb (N.eqb c 34 || N.eqb c 91 || N.eqb c 123)
  | [] => false
  end.

(** The text starts like a term: with a character that is neither white
    space nor one of the three that may follow a term. *)
Definition term_head (t : pystr) : bool :=
  match t with
  | c :: _ => (negb (is_ws c) && inner_char c)%bool
  | [] => false
  end.

(** A numeral: decimal digits, the first one zero only for the numeral
    of zero. *)
Definition numeral (ds : pystr) (n : Z) : Prop :=
  forallb is_digit ds = true /\ digits_val 0 ds = n
  /\ exists c tl, ds = c :: tl /\ (c = 48%N -> tl = []).

(** The text of a percentage reads back as the percentage. *)
Definition reads_back (x : pyfloat) : bool :=
  let t := encode_float x in
  match scan_atom t with
  | Some (PFloat y, []) => (same x y && atom_head t && term_head t)%bool
  | _ => false
  end.

(** The text [json.dumps] writes between the brackets of an array, *)
Fixpoint encode_items (first : bool) (l : list pyval) : option pystr :=
  match l with
  | [] => Some []
  | x :: l' =>
      match encode x, encode_items false l' with
      | Some a, Some b => Some ((if first then [] else [44%N; 32%N]) ++ a ++ b)
      | _, _ => None
      end
  end.

(** and between the braces of an object. *)
Fixpoint encode_members (first : bool) (d : list (pystr * pyval))
  : option pystr :=
  match d with
  | [] => Some []
  | (k, x) :: d' =>
      match encode x, encode_members false d' with
      | Some a, Some b =>
          Some ((if first then [] else [44%N; 32%N])
                ++ encode_string k ++ [58%N; 32%N] ++ a ++ b)
      | _, _ => None
      end
  end.

(** A character [json.dumps] writes as it is: printable ASCII other than
    the double quote and the backslash. *)
Definition plain_char (c : N) : bool :=
  (N.leb 32 c && N.leb c 126 && negb (N.eqb c 34) && negb (N.eqb c 92))%bool.

Definition plain_str (s : pystr) : bool := forallb plain_char s.

(** The floats a migration rate can be: those nearest to [n / 100] for
    [n = 0, ..., 10000]. *)
Definition percents : list pyfloat :=
  map (fun n => nearest_double false (Z.of_nat n) 100)
      (seq 0 (Z.to_nat 10001)).

Definition is_percent (x : pyfloat) : bool := existsb (same x) percents.

Fixpoint distinct (keys : list pystr) : bool :=
  match keys with
  | [] => true
  | k :: ks => (negb (existsb (pystr_eqb k) ks) && distinct ks)%bool
  end.

(** The values a snapshot is made of: [None], booleans, integers,
    percentages, strings of plain characters, lists, and dicts with
    distinct keys of plain characters. *)
Fixpoint plain (v : pyval) : bool :=
  match v with
  | PNone | PBool _ | PInt _ => true
  | PFloat x => is_percent x
  | PStr s => plain_str s
  | PDate _ _ _ => false
  | PList l => forallb plain l
  | PDict d =>
      (forallb (fun kv => plain_str (fst kv) && plain (snd kv)) d
       && distinct (map fst d))%bool
  end.

(** A bound on the nesting and the number of terms of a value. *)
Fixpoint size (v : pyval) : nat :=
  match v with
  | PList l => S (fold_right (fun x n => S (size x + n)) O l)
  | PDict d => S (fold_right (fun kv n => S (size (snd kv) + n)) O d)
  | _ => 1
  end.

Definition items_size (l : list pyval) : nat :=
  fold_right (fun x n => S (size x + n)) O l.

Definition members_size (d : list (pystr * pyval)) : nat :=
  fold_right (fun kv n => S (size (snd kv) + n)) O d.

(** [json.loads] reads back what [json.dumps] writes for [v], also
    inside a document: the text [t] of [v] starts like a term, is at
    least as long as the size of [v], and with enough fuel is read as
    [v] whatever follows it. *)
Definition reads_back_as (v : pyval) (t : pystr) : Prop :=
  encode v = Some t /\ term_head t = true /\ (size v <= List.length t)%nat
  /\ forall fuel rest, (size v <= fuel)%nat -> stop rest = true ->
     parse_value fuel (t ++ rest) = Some (v, rest).

(** *** The snapshot of a database state

    The snapshot as sections 3 and 4.2 of the specification describe it:
    the count of all user records, the count of those with a non-null
    token, the difference of the two, the rate, the two series with
    their buckets as strings, and the time of generation. *)

Definition total_count (e : env) : Z := Z.of_nat (List.length (users e)).

Definition migrated_count (e : env) : Z :=
  Z.of_nat (List.length (filter migrated (users e))).

Definition hourly_series (e : env) : list row :=
  map (fun kn => [(str "hour", CStr (fst kn)); (str "count", CInt (snd kn))])
      (group_count pystr_compare
         (map hour_bucket
            (times_of (filter (migrated_since (db_now e) 86400) (users e))))).

Definition daily_series (e : env) : list row :=
  map (fun kn =>
         let '(y, m, d) := fst kn in
         [(str "date", CStr (date_isoformat y m d));
          (str "count", CInt (snd kn))])
      (group_count date_compare
         (map day_bucket
            (times_of (filter (migrated_since (db_now e) 604800) (users e))))).

Definition snapshot (e : env) (rate : pyval) : pyval :=
  make_stats (total_count e) (migrated_count e) rate
             (hourly_series e) (daily_series e) (datetime_now (now_stamp e)).

(** The calls a refresh that runs to its end makes to the database,
    latest first. *)
Definition refresh_calls : list db_event :=
  [EvCloseConn; EvCloseCursor; EvExecute QDaily; EvExecute QHourly;
   EvExecute QMigrated; EvExecute QTotal; EvCursor; EvConnect].

(** The state in which the body of the [try] statement ends when no step
    fails and [text] is written. *)
Definition body_end (e : env) (w : world) (text : pystr) : world * frame :=
  (mkWorld (Some text) (S (open_conns w)) (S (open_cursors w))
           (EvExecute QDaily :: EvExecute QHourly :: EvExecute QMigrated
            :: EvExecute QTotal :: EvCursor :: EvConnect :: db_log w),
   mkFrame (Some tt) (Some tt) (run_query (users e) (db_now e) QDaily)).

(** The world after a refresh in which the statement [q] failed: the
    cache file as it was, nothing left open, the calls made up to [q]
    and the two calls that close. *)
Definition after_failed_query (w : world) (q : query) : world :=
  mkWorld (cache_file w) (open_conns w) (open_cursors w)
          (EvCloseConn :: EvCloseCursor
           :: match q with
              | QTotal => [EvExecute QTotal]
              | QMigrated => [EvExecute QMigrated; EvExecute QTotal]
              | QHourly =>
                  [EvExecute QHourly; EvExecute QMigrated; EvExecute QTotal]
              | QDaily =>
                  [EvExecute QDaily; EvExecute QHourly; EvExecute QMigrated;
                   EvExecute QTotal]
              end ++ EvCursor :: EvConnect :: db_log w).

(** The first statement that fails, if any. *)
Definition first_failure (e : env) : option query :=
  if execute_fails e QTotal then Some QTotal
  else if execute_fails e QMigrated then Some QMigrated
  else if execute_fails e QHourly then Some QHourly
  else if execute_fails e QDaily then Some QDaily
  else None.

(** The refresh path of [get_migration_stats]. *)
Definition refresh (e : env) : M world pyval :=
  in_frame (try_finally (refresh_body e) refresh_finally).

(** A computation that leaves the state as it is. *)
Definition read_only {S A} (m : M S A) : Prop := forall s, snd (m s) = s.

(** The count of a row of a series, when it is an integer. *)
Definition row_count (r : row) : option Z :=
  match dict_get r (str "count") with
  | Some (CInt n) => Some n
  | _ => None
  end.

(** Every row of the series counts at least one record. *)
Definition counts_positive (rows : list row) : Prop :=
  Forall (fun r => exists n, row_count r = Some n /\ 1 <= n) rows.

(** *** Example states *)

(** Seven user records: five carry a token, three of those were updated
    within the last 24 hours, four within the last 7 days, one has no
    [updated_at]. *)
Definition example_users : list user :=
  [mkUser (Some (str "tok-a")) (Some (mkSql 2024 5 17 9 30 0));
   mkUser None (Some (mkSql 2024 5 17 9 30 0));
   mkUser (Some (str "tok-b")) (Some (mkSql 2024 5 16 11 30 0));
   mkUser (Some (str "tok-c")) (Some (mkSql 2024 5 17 9 59 0));
   mkUser (Some (str "tok-d")) (Some (mkSql 2024 5 1 9 59 0));
   mkUser (Some (str "tok-e")) None;
   mkUser None None].

(** A call at 10:00:00.123456 on 2024-05-17 that stamps its snapshot at
    10:00:02, with the database reachable. *)
Definition example_env : env :=
  mkEnv (mkDT 2024 5 17 10 0 0 123456 None) (mkDT 2024 5 17 10 0 2 0 None)
        example_users (mkSql 2024 5 17 10 0 1)
        false (fun _ => false) false.

(** A call exactly 300 seconds after that stamp, with the database out
    of reach. *)
Definition later_env : env :=
  mkEnv (mkDT 2024 5 17 10 5 2 0 None) (mkDT 2024 5 17 10 5 3 0 None)
        [] (mkSql 2024 5 17 10 5 2)
        true (fun _ => true) true.

(** A call whose connection attempt fails. *)
Definition unreachable_env : env :=
  mkEnv (mkDT 2024 5 17 10 0 0 123456 None) (mkDT 2024 5 17 10 0 2 0 None)
        example_users (mkSql 2024 5 17 10 0 1)
        true (fun _ => false) false.

(** A call whose third statement fails. *)
Definition failing_query_env : env :=
  mkEnv (mkDT 2024 5 17 10 0 0 123456 None) (mkDT 2024 5 17 10 0 2 0 None)
        example_users (mkSql 2024 5 17 10 0 1)
        false (fun q => match q with QHourly => true | _ => false end) false.

Definition text_299 : pystr := jtext "{'last_update': '2024-05-17T10:00:03'}".
Definition text_number : pystr := jtext "{'last_update': 123}".
Definition text_array : pystr := jtext "[]".
Definition text_cut : pystr := jtext "{'total_users': 7, 'migrated_us".
Definition text_odd : pystr :=
  jtext "{'last_update': '2024-05-17T10:04:00', 'total_users': 1, 'migrated_users': 5}".

Definition value_odd : pyval :=
  PDict [(str "last_update", PStr (str "2024-05-17T10:04:00"));
         (str "total_users", PInt 1);
         (str "migrated_users", PInt 5)].

End Obs.

(* ================================================================= *)
(** ** Operations on Python objects that the page uses *)

Module PyObj.
Import Text Py PyFloat Datetime Json.

(** [v[key]] for a [str] key: a [dict] raises [KeyError] for a key it
    does not hold, every other object [TypeError]. *)
Definition getitem (v : pyval) (key : pystr) : result pyval :=
  match v with
  | PDict d =>
      match dict_get d key with
      | Some x => Ok x
      | None => Raise KeyError
      end
  | _ => Raise TypeError
  end.

(** [bool(v)], the test of an [if] statement. *)
Definition truthy (v : pyval) : bool :=
  match v with
  | PNone => false
  | PBool b => b
  | PInt z => negb (z =? 0)
  | PFloat (S754_zero _) => false
  | PFloat _ => true
  | PStr [] => false
  | PStr _ => true
  | PDate _ _ _ => true
  | PList [] => false
  | PList _ => true
  | PDict [] => false
  | PDict _ => true
  end.

(** *** The format specification [,] *)

(** The digits, least significant first, with a comma after every third
    one that has a successor; [k] digits of the current group are
    out. *)
Fixpoint group_rev (k : nat) (rds : pystr) : pystr :=
  match rds with
  | [] => []
  | c :: r =>
      if Nat.eqb k 3 then 44%N :: c :: group_rev 1 r
      else c :: group_rev (S k) r
  end.

(** Thousands separators for a run of digits. *)
Definition group3 (ds : pystr) : pystr := rev (group_rev 0 (rev ds)).

(** [format(n, ',')] for an [int]. *)
Definition format_int_comma (n : Z) : pystr :=
  (if n <? 0 then [45%N] else []) ++ group3 (dec_nat (Z.abs n)).

(** [format(x, ',')] for a [float]: [repr(x)] with the digits before the
    decimal point or the exponent grouped. *)
Definition format_float_comma (x : pyfloat) : pystr :=
  let r := repr x in
  let sign := match r with 45%N :: _ => [45%N] | _ => [] end in
  let body := match r with 45%N :: b => b | _ => r end in
  let '(ds, rest) := span is_digit body in
  sign ++ group3 ds ++ rest.

(** [format(v, ',')], that is [f"{v:,}"]: [str] refuses the comma with
    [ValueError]; [None], lists and dicts accept no format
    specification at all ([TypeError]); a [date] passes it to
    [strftime]. *)
Definition format_comma (v : pyval) : result pystr :=
  match v with
  | PInt n => Ok (format_int_comma n)
  | PBool b => Ok (format_int_comma (if b then 1 else 0))
  | PFloat x => Ok (format_float_comma x)
  | PStr _ => Raise ValueError
  | PDate _ _ _ => Ok [44%N]
  | PNone | PList _ | PDict _ => Raise TypeError
  end.

(** *** [repr] and [str] *)

Section Repr.

(** [str.isprintable] on one code point, a table of the interpreter's
    Unicode database. *)
Variable printable : N -> bool.

Definition hex_digits (width : nat) (c : N) : pystr :=
  map (fun i => hex_char ((Z.of_N c / 16 ^ Z.of_nat i) mod 16))
      (rev (seq 0 width)).

(** What [repr] writes for one code point of a [str] between the
    quotes [quote]. *)
Definition repr_char (quote c : N) : pystr :=
  if (N.eqb c quote || N.eqb c 92)%bool then [92%N; c]
  else if N.eqb c 9 then [92%N; 116%N]
  else if N.eqb c 10 then [92%N; 110%N]
  else if N.eqb c 13 then [92%N; 114%N]
  else if (N.ltb c 32 || N.eqb c 127)%bool then
    [92%N; 120%N] ++ hex_digits 2 c
  else if N.ltb c 127 then [c]
  else if printable c then [c]
  else if N.leb c 255 then [92%N; 120%N] ++ hex_digits 2 c
  else if N.leb c 65535 then [92%N; 117%N] ++ hex_digits 4 c
  else [92%N; 85%N] ++ hex_digits 8 c.

(** [repr(s)] for a [str]: double quotes only when the string holds an
    apostrophe and no double quote. *)
Definition repr_str (s : pystr) : pystr :=
  let quote :=
    if (existsb (N.eqb 39) s && negb (existsb (N.eqb 34) s))%bool
    then 34%N else 39%N in
  [quote] ++ flat_map (repr_char quote) s ++ [quote].

(** [repr(v)] *)
Fixpoint py_repr (v : pyval) : pystr :=
  match v with
  | PNone => str "None"
  | PBool true => str "True"
  | PBool false => str "False"
  | PInt z => dec z
  | PFloat x => repr x
  | PStr s => repr_str s
  | PDate y m d =>
      str "datetime.date(" ++ dec y ++ str ", " ++ dec m ++ str ", "
      ++ dec d ++ str ")"
  | PList l =>
      let fix items (first : bool) (l : list pyval) : pystr :=
        match l with
        | [] => []
        | x :: l' =>
            (if first then [] else [44%N; 32%N]) ++ py_repr x
            ++ items false l'
        end in
      [91%N] ++ items true l ++ [93%N]
  | PDict d =>
      let fix members (first : bool) (d : list (pystr * pyval)) : pystr :=
        match d with
        | [] => []
        | (k, x) :: d' =>
            (if first then [] else [44%N; 32%N]) ++ repr_str k
            ++ [58%N; 32%N] ++ py_repr x ++ members false d'
        end in
      [123%N] ++ members true d ++ [125%N]
  end.

(** [str(v)], which is what [f"{v}"] writes. *)
Definition py_str (v : pyval) : pystr :=
  match v with
  | PStr s => s
  | PDate y m d => date_isoformat y m d
  | _ => py_repr v
  end.

End Repr.

(** *** Division *)

(** [x / y] for two [float]s. *)
Definition div (x y : pyfloat) : result pyfloat :=
  match y with
  | S754_zero _ => Raise ZeroDivisionError
  | _ =>
      Ok match x, y with
         | S754_nan, _ | _, S754_nan => S754_nan
         | S754_infinity _, S754_infinity _ => S754_nan
         | S754_infinity sx, _ => S754_infinity (xorb sx (sign_of y))
         | _, S754_infinity sy => S754_zero (xorb (sign_of x) sy)
         | S754_zero sx, _ => S754_zero (xorb sx (sign_of y))
         | S754_finite sx _ _, S754_finite sy _ _ =>
             let '(nx, dx) := num_den x in
             let '(ny, dy) := num_den y in
             nearest_double (xorb sx sy) (Z.abs nx * dy) (dx * Z.abs ny)
         | S754_finite _ _ _, S754_zero _ => S754_nan
         end
  end.

(** [v / n] for an [int] [n]: an [int] or [bool] is divided as an
    integer, a [float] by [float(n)]; nothing else has [/]. *)
Definition truediv_int (v : pyval) (n : Z) : result pyfloat :=
  match v with
  | PInt a => int_truediv a n
  | PBool b => int_truediv (if b then 1 else 0) n
  | PFloat x => rbind (of_int n) (fun y => div x y)
  | _ => Raise TypeError
  end.

(** [d.strftime('%Y-%m-%d %H:%M:%S')]; the year as the C library of
    Linux writes [%Y], without padding. *)
Definition strftime_seconds (d : datetime) : pystr :=
  dec (year d) ++ [45%N] ++ zpad 2 (month d) ++ [45%N] ++ zpad 2 (day d)
  ++ [32%N] ++ zpad 2 (hour d) ++ [58%N] ++ zpad 2 (minute d) ++ [58%N]
  ++ zpad 2 (second d).

End PyObj.

(* ================================================================= *)
(** ** The class and the page *)

Module App.
Import Text Py PyFloat Datetime Json Db Dash PyObj.

(** *** [MigrationStats.__init__] and [get_db_connection] *)

(** An instance: [__init__] stores the configuration it is given; the
    other two attributes it sets are the constants [cache_file] and
    [cache_duration] of the methods. *)
Record migration_stats := mkStats { db_config : pyval }.

Definition init (config : pyval) : migration_stats := mkStats config.

Inductive cursor_class := DictCursor.

(** The keyword arguments of [pymysql.connect]. *)
Record connect_args := mkArgs {
  arg_host : pyval;
  arg_user : pyval;
  arg_password : pyval;
  arg_database : pyval;
  arg_charset : pystr;
  arg_cursorclass : cursor_class
}.

(** The arguments [get_db_connection] evaluates, left to right. *)
Definition connect_arguments (self : migration_stats) : result connect_args :=
  rbind (getitem (db_config self) (str "host")) (fun host =>
  rbind (getitem (db_config self) (str "user")) (fun user =>
  rbind (getitem (db_config self) (str "password")) (fun password =>
  rbind (getitem (db_config self) (str "database")) (fun database =>
  Ok (mkArgs host user password database (str "utf8mb4") DictCursor))))).

(** [self.get_db_connection()]: the arguments, then the call of
    [pymysql.connect], whose outcome is the environment's. *)
Definition get_db_connection_of (self : migration_stats) (e : env)
  : M world unit :=
  eval (connect_arguments self) ;;;
  get_db_connection e.

(** The body of the [try] statement after its first assignment. *)
Definition after_connect (e : env) (c : unit) : M (world * frame) pyval :=
  set_conn c ;;;
  cur <- on_world new_cursor ;;
  set_cursor cur ;;;
  execute e QTotal ;;;
  total_cell <- fetchone_item (str "total") ;;
  execute e QMigrated ;;;
  migrated_cell <- fetchone_item (str "migrated") ;;
  execute e QHourly ;;;
  hourly_rows <- fetchall ;;
  hourly_data <- eval (stringify (str "hour") hourly_rows) ;;
  execute e QDaily ;;;
  daily_rows <- fetchall ;;
  daily_data <- eval (stringify (str "date") daily_rows) ;;
  total_users <- eval (as_int total_cell) ;;
  migrated_users <- eval (as_int migrated_cell) ;;
  rate <- eval (migration_rate migrated_users total_users) ;;
  let stats :=
    make_stats total_users migrated_users rate hourly_data daily_data
               (datetime_now (now_stamp e)) in
  on_world (open_truncate (write_fails e)) ;;;
  text <- eval (json_dumps stats) ;;
  on_world (write_text text) ;;;
  ret stats.

(** [get_migration_stats] of an instance, with the configuration read
    where the source reads it. *)
Definition get_migration_stats_of (self : migration_stats) (e : env)
  : M world pyval :=
  stale <- should_update_cache e ;;
  if negb stale then
    text <- read_text ;;
    eval (json_loads text)
  else
    in_frame
      (try_finally
         (c <- on_world (get_db_connection_of self e) ;; after_connect e c)
         refresh_finally).

(** *** [main] *)

(** A call of streamlit, pandas and plotly, with its arguments. *)
Inductive ui_event :=
| UiPageConfig (page_title page_icon layout : pystr)
| UiTitle (body : pystr)
| UiWrite (body : pystr)
| UiCheckbox (label : pystr) (value : bool)
| UiColumns (n : Z)
| UiMetric (label value : pystr)
| UiProgress (value : pyfloat)
| UiLineChart (data : pyval) (x y title : pystr)
| UiBarChart (data : pyval) (x y title : pystr)
| UiSidebarWrite (body : pystr)
| UiSleep (seconds : Z)
| UiRerun.

(** What a run of the script reads besides the environment of
    [get_migration_stats]: the secrets ([None] when there is no secrets
    file), the state of the checkbox, and the interpreter's table of
    printable code points. *)
Record session := mkSession {
  secrets : option (list (pystr * pyval));
  checkbox : bool;
  printable : N -> bool
}.

(** The state a run acts on: the world of the cache and the database,
    and the calls made to the page, latest first. *)
Record app := mkApp {
  outside : world;
  ui_log : list ui_event
}.

(** A call to the page: what it is given is recorded, and it
    returns. *)
Definition ui (ev : ui_event) : M app unit :=
  fun a => (Ok tt, mkApp (outside a) (ev :: ui_log a)).

Definition on_outside {A} (m : M world A) : M app A :=
  fun a => let '(r, w') := m (outside a) in (r, mkApp w' (ui_log a)).

(** [st.secrets[key]] *)
Definition secret (s : session) (key : pystr) : result pyval :=
  match secrets s with
  | None => Raise OSError
  | Some d =>
      match dict_get d key with
      | Some v => Ok v
      | None => Raise KeyError
      end
  end.

(** [st.sidebar.checkbox(label, value=default)] *)
Definition checkbox_widget (s : session) (label : pystr) (default : bool)
  : M app bool :=
  ui (UiCheckbox label default) ;;; ret (checkbox s).

(** [main] *)
Definition main (s : session) (e : env) : M app unit :=
  ui (UiPageConfig (str "User Migration Dashboard") [128202%N] (str "wide")) ;;;
  host <- eval (secret s (str "DB_HOST")) ;;
  user <- eval (secret s (str "DB_USER")) ;;
  password <- eval (secret s (str "DB_PASSWORD")) ;;
  database <- eval (secret s (str "DB_NAME")) ;;
  let config :=
    PDict (dict_of_pairs [(str "host", host); (str "user", user);
                          (str "password", password);
                          (str "database", database)]) in
  let stats_manager := init config in
  ui (UiTitle (128241%N :: str " User Migration Dashboard")) ;;;
  ui (UiWrite (str "Track user migration progress in real-time")) ;;;
  auto_refresh <- checkbox_widget s (str "Auto-refresh (5 min)") true ;;
  stats <- on_outside (get_migration_stats_of stats_manager e) ;;
  ui (UiColumns 3) ;;;
  total <- eval (getitem stats (str "total_users")) ;;
  total_text <- eval (format_comma total) ;;
  ui (UiMetric (str "Total Users") total_text) ;;;
  migrated <- eval (getitem stats (str "migrated_users")) ;;
  migrated_text <- eval (format_comma migrated) ;;
  ui (UiMetric (str "Migrated Users") migrated_text) ;;;
  rate <- eval (getitem stats (str "migration_rate")) ;;
  ui (UiMetric (str "Migration Rate") (py_str (printable s) rate ++ [37%N])) ;;;
  rate' <- eval (getitem stats (str "migration_rate")) ;;
  fraction <- eval (truediv_int rate' 100) ;;
  ui (UiProgress fraction) ;;;
  ui (UiColumns 2) ;;;
  daily <- eval (getitem stats (str "daily_data")) ;;
  (if truthy daily then
     daily' <- eval (getitem stats (str "daily_data")) ;;
     ui (UiLineChart daily' (str "date") (str "count")
           (str "Daily Migration Trend (Last 7 Days)"))
   else ret tt) ;;;
  hourly <- eval (getitem stats (str "hourly_data")) ;;
  (if truthy hourly then
     hourly' <- eval (getitem stats (str "hourly_data")) ;;
     ui (UiBarChart hourly' (str "hour") (str "count")
           (str "Hourly Migration Activity (Last 24 Hours)"))
   else ret tt) ;;;
  last <- eval (getitem stats (str "last_update")) ;;
  stamp <- eval (py_fromisoformat last) ;;
  ui (UiSidebarWrite (str "Last updated: " ++ strftime_seconds stamp)) ;;;
  if auto_refresh then
    ui (UiSleep 600) ;;;
    ui UiRerun
  else ret tt.

End App.

(* ================================================================= *)
(** ** Notions the statements about the page use *)

Module View.
Import Text Py PyFloat Datetime Json Db Dash Obs PyObj App.

Definition not_comma (c : N) : bool := negb (N.eqb c 44).


(** The world a refresh that runs to its end leaves. *)
Definition refreshed (w : world) (text : pystr) : world :=
  mkWorld (Some text) (open_conns w) (open_cursors w)
          (refresh_calls ++ db_log w).

(** Consecutive keys ascend strictly. *)
Fixpoint ascending {K} (cmp : K -> K -> comparison) (keys : list K) : Prop :=
  match keys with
  | [] => True
  | a :: rest =>
      match rest with
      | [] => True
      | b :: _ => cmp a b = Lt
      end /\ ascending cmp rest
  end.

(** The buckets of the two series and their counts, as the result sets
    of the third and the fourth statement hold them. *)
Definition hourly_groups (e : env) : list (pystr * Z) :=
  group_count pystr_compare
    (map hour_bucket
       (times_of (filter (migrated_since (db_now e) 86400) (users e)))).

Definition daily_groups (e : env) : list (Z * Z * Z * Z) :=
  group_count date_compare
    (map day_bucket
       (times_of (filter (migrated_since (db_now e) 604800) (users e)))).

Definition hourly_row (kn : pystr * Z) : row :=
  [(str "hour", CStr (fst kn)); (str "count", CInt (snd kn))].

Definition daily_row (kn : Z * Z * Z * Z) : row :=
  let '(y, m, d) := fst kn in
  [(str "date", CStr (date_isoformat y m d)); (str "count", CInt (snd kn))].

Definition total (counts : list Z) : Z := fold_right Z.add 0 counts.

(** The records a series counts: migrated, with an [updated_at] inside
    the interval. *)
Definition recent (e : env) (interval : Z) : list user :=
  filter (migrated_since (db_now e) interval) (users e).

(** The keys [main] reads from the snapshot. *)
Definition page_keys : list pystr :=
  [str "total_users"; str "migrated_users"; str "migration_rate";
   str "daily_data"; str "hourly_data"; str "last_update"].

(** The keys [get_db_connection] reads from the configuration. *)
Definition config_keys : list pystr :=
  [str "host"; str "user"; str "password"; str "database"].

(** The secrets [main] reads. *)
Definition secret_keys : list pystr :=
  [str "DB_HOST"; str "DB_USER"; str "DB_PASSWORD"; str "DB_NAME"].

(** The calls a run of [main] makes to the page when nothing fails, in
    the order of the script. *)
Definition page (auto : bool) (total_text migrated_text rate_text : pystr)
  (fraction : pyfloat) (daily hourly : pyval) (label : pystr)
  : list ui_event :=
  [UiPageConfig (str "User Migration Dashboard") [128202%N] (str "wide");
   UiTitle (128241%N :: str " User Migration Dashboard");
   UiWrite (str "Track user migration progress in real-time");
   UiCheckbox (str "Auto-refresh (5 min)") true;
   UiColumns 3;
   UiMetric (str "Total Users") total_text;
   UiMetric (str "Migrated Users") migrated_text;
   UiMetric (str "Migration Rate") rate_text;
   UiProgress fraction;
   UiColumns 2]
  ++ (if truthy daily then
        [UiLineChart daily (str "date") (str "count")
           (str "Daily Migration Trend (Last 7 Days)")]
      else [])
  ++ (if truthy hourly then
        [UiBarChart hourly (str "hour") (str "count")
           (str "Hourly Migration Activity (Last 24 Hours)")]
      else [])
  ++ [UiSidebarWrite (str "Last updated: " ++ label)]
  ++ (if auto then [UiSleep 600; UiRerun] else []).

(** *** Example states *)

Definition example_secrets : list (pystr * pyval) :=
  [(str "DB_HOST", PStr (str "db.internal"));
   (str "DB_USER", PStr (str "dash"));
   (str "DB_PASSWORD", PStr (str "s3cret"));
   (str "DB_NAME", PStr (str "app"))].

(** A session with the four secrets and the checkbox ticked. *)
Definition example_session : session :=
  mkSession (Some example_secrets) true (fun _ => false).

(** A session whose secrets lack [DB_NAME]. *)
Definition short_session : session :=
  mkSession (Some (firstn 3 example_secrets)) true (fun _ => false).

(** A configuration without [password]. *)
Definition short_config : pyval :=
  PDict [(str "host", PStr (str "db.internal"));
         (str "user", PStr (str "dash"));
         (str "database", PStr (str "app"))].

Definition example_config : pyval :=
  PDict [(str "host", PStr (str "db.internal"));
         (str "user", PStr (str "dash"));
         (str "password", PStr (str "s3cret"));
         (str "database", PStr (str "app"))].

(** A call whose opening of the cache file for writing fails. *)
Definition read_only_disk_env : env :=
  mkEnv (mkDT 2024 5 17 10 0 0 123456 None) (mkDT 2024 5 17 10 0 2 0 None)
        example_users (mkSql 2024 5 17 10 0 1)
        false (fun _ => false) true.


(** A cache file that is fresh at 10:05:02 and holds nothing but its
    stamp. *)
Definition text_stamp_only : pystr :=
  jtext "{'last_update': '2024-05-17T10:04:00'}".

Definition start : app := mkApp empty_world [].

End View.

(* ================================================================= *)
(** * Properties *)

(** ** Statements that only read *)

Module ReadOnly.
Import Text Py PyFloat Datetime Json Db Dash Obs.

Lemma read_only_ret {S A} (a : A) : read_only (@ret S A a).
Proof. intros s; reflexivity. Qed.

Lemma read_only_eval {S A} (r : result A) : read_only (@eval S A r).
Proof. intros s; reflexivity. Qed.

Lemma read_only_bind {S A B} (m : M S A) (k : A -> M S B) :
  read_only m -> (forall a, read_only (k a)) -> read_only (bind m k).
Proof.
  intros Hm Hk s. unfold bind.
  specialize (Hm s). destruct (m s) as [[a | ex] s']; simpl in Hm; subst s'.
  - apply Hk.
  - reflexivity.
Qed.

Lemma read_only_try_except {S A} (body : M S A) handled (handler : M S A) :
  read_only body -> read_only handler ->
  read_only (try_except body handled handler).
Proof.
  intros Hb Hh s. unfold try_except.
  specialize (Hb s). destruct (body s) as [[a | ex] s']; simpl in Hb; subst s'.
  - reflexivity.
  - destruct (handled ex); [apply Hh | reflexivity].
Qed.

Lemma read_only_path_exists : read_only path_exists.
Proof. intros w; reflexivity. Qed.

Lemma read_only_read_text : read_only read_text.
Proof. intros w; unfold read_text; destruct (cache_file w); reflexivity. Qed.

Create HintDb ro.
#[local] Hint Resolve read_only_ret read_only_eval read_only_path_exists
  read_only_read_text : ro.

Lemma read_only_should_update_cache (e : env) :
  read_only (should_update_cache e).
Proof.
  unfold should_update_cache.
  apply read_only_bind; [auto with ro |].
  intros present. destruct (negb present); [auto with ro |].
  apply read_only_try_except; [| auto with ro].
  repeat (apply read_only_bind; [auto with ro | intro]); auto with ro.
Qed.

(** C10. [should_update_cache] changes nothing: whatever it returns or
    raises, the cache file (its existence and its text), the open
    connections and cursors and the record of database calls are after
    the call what they were before it. *)
Theorem should_update_cache_changes_nothing (e : env) (w : world) :
  snd (should_update_cache e w) = w.
Proof. apply read_only_should_update_cache. Qed.

End ReadOnly.

(** ** Rounding to binary64 *)

Module FloatFacts.
Import Text Py PyFloat Datetime Json Db Dash Obs.

Lemma div_rne_eq (a b : Z) :
  div_rne a b =
  match 2 * (a mod b) ?= b with
  | Lt => a / b
  | Gt => a / b + 1
  | Eq => if Z.even (a / b) then a / b else a / b + 1
  end.
Proof.
  unfold div_rne, Z.div, Z.modulo. destruct (Z.div_eucl a b). reflexivity.
Qed.

Lemma div_rne_nonneg (a b : Z) : 0 <= a -> 0 < b -> 0 <= div_rne a b.
Proof.
  intros Ha Hb. rewrite div_rne_eq.
  pose proof (Z.div_pos a b Ha Hb) as Hq.
  destruct (2 * (a mod b) ?= b); [destruct (Z.even (a / b)) | |]; lia.
Qed.

Lemma div_rne_le (a b n : Z) :
  0 <= a -> 0 < b -> a <= n * b -> div_rne a b <= n.
Proof.
  intros Ha Hb Hle. rewrite div_rne_eq.
  pose proof (Z.div_mod a b ltac:(lia)) as Hdm.
  pose proof (Z.mod_pos_bound a b Hb) as Hr.
  assert (Hq : a / b <= n) by (apply Z.div_le_upper_bound; lia).
  destruct (Z.eq_dec (a / b) n) as [E | E].
  - assert (a mod b = 0) by nia.
    replace (2 * (a mod b) ?= b) with Lt; [lia |].
    symmetry; apply Z.compare_lt_iff; lia.
  - destruct (2 * (a mod b) ?= b); [destruct (Z.even (a / b)) | |]; lia.
Qed.

Lemma div_rne_ge (a b n : Z) :
  0 <= a -> 0 < b -> n * b <= a -> n <= div_rne a b.
Proof.
  intros Ha Hb Hle. rewrite div_rne_eq.
  assert (Hq : n <= a / b) by (apply Z.div_le_lower_bound; lia).
  destruct (2 * (a mod b) ?= b); [destruct (Z.even (a / b)) | |]; lia.
Qed.

Lemma ge_pow2_true (a b l : Z) :
  0 <= l -> ge_pow2 a b l = true -> b * 2 ^ l <= a.
Proof. unfold ge_pow2; intros Hl H. destruct (0 <=? l) eqn:E; lia. Qed.

Lemma ge_pow2_false (a b l : Z) :
  0 <= l -> ge_pow2 a b l = false -> a < b * 2 ^ l.
Proof. unfold ge_pow2; intros Hl H. destruct (0 <=? l) eqn:E; lia. Qed.

Lemma log2_bounds (a : Z) :
  0 < a -> 2 ^ Z.log2 a <= a < 2 ^ (Z.log2 a + 1) /\ 0 <= Z.log2 a.
Proof.
  intros Ha. pose proof (Z.log2_spec a Ha). pose proof (Z.log2_nonneg a).
  replace (Z.log2 a + 1) with (Z.succ (Z.log2 a)) by lia. lia.
Qed.

(** For a positive magnitude, [2^(mag-1) <= a / b]. *)
Lemma mag_lower (a b : Z) :
  0 < a -> 0 < b -> 1 <= mag a b -> b * 2 ^ (mag a b - 1) <= a.
Proof.
  intros Ha Hb. unfold mag.
  destruct (log2_bounds a Ha) as [[La Ua] Na].
  destruct (log2_bounds b Hb) as [[Lb Ub] Nb].
  set (l := Z.log2 a - Z.log2 b).
  destruct (ge_pow2 a b l) eqn:G; intros H.
  - replace (l + 1 - 1) with l by lia. apply ge_pow2_true; [lia | exact G].
  - assert (El : Z.log2 a = (Z.log2 b + 1) + (l - 1)) by (unfold l; lia).
    rewrite El in La. rewrite Z.pow_add_r in La by lia.
    assert (0 < 2 ^ (l - 1)) by (apply Z.pow_pos_nonneg; lia).
    nia.
Qed.

(** For a non-negative magnitude, [a / b < 2^mag]. *)
Lemma mag_upper (a b : Z) :
  0 < a -> 0 < b -> 0 <= mag a b -> a < b * 2 ^ mag a b.
Proof.
  intros Ha Hb. unfold mag.
  destruct (log2_bounds a Ha) as [[La Ua] Na].
  destruct (log2_bounds b Hb) as [[Lb Ub] Nb].
  set (l := Z.log2 a - Z.log2 b).
  destruct (ge_pow2 a b l) eqn:G; intros H.
  - assert (El : Z.log2 a + 1 = Z.log2 b + (l + 1)) by (unfold l; lia).
    rewrite El in Ua. rewrite Z.pow_add_r in Ua by lia.
    assert (0 < 2 ^ (l + 1)) by (apply Z.pow_pos_nonneg; lia).
    nia.
  - apply ge_pow2_false; [lia | exact G].
Qed.

(** A quotient of at most [k < 2^53] has magnitude at most 53. *)
Lemma mag_le_53 (a b k : Z) :
  0 < a -> 0 < b -> a <= k * b -> k < 2 ^ 53 -> mag a b <= 53.
Proof.
  intros Ha Hb Hle Hk.
  destruct (Z_le_gt_dec (mag a b) 53) as [| Hgt]; [assumption | exfalso].
  pose proof (mag_lower a b Ha Hb ltac:(lia)) as Hl.
  assert (2 ^ 53 <= 2 ^ (mag a b - 1)) by (apply Z.pow_le_mono_r; lia).
  nia.
Qed.

Lemma at_most_finite (k : Z) (x : pyfloat) : at_most k x -> is_finite x = true.
Proof. destruct x; simpl; intuition. Qed.

Lemma pack_at_most (k m e : Z) :
  0 <= m <= k * 2 ^ (- e) -> k < 2 ^ 53 -> e <= 0 ->
  at_most k (pack false m e).
Proof.
  intros Hm Hk He. unfold pack.
  assert (Hp : 0 < 2 ^ (- e)) by (apply Z.pow_pos_nonneg; lia).
  destruct (m =? 2 ^ 53) eqn:Em.
  - assert (Hm53 : m = 2 ^ 53) by lia.
    assert (He' : e < 0).
    { destruct (Z.eq_dec e 0) as [E | E]; [| lia].
      rewrite E in Hm. simpl (2 ^ (- 0)) in Hm. lia. }
    change (2 ^ 52 =? 0) with false. cbv iota.
    destruct (971 <? e + 1) eqn:E971; [lia |].
    change (Z.to_pos (2 ^ 52)) with 4503599627370496%positive.
    simpl. repeat split; try lia.
    replace (- e) with (1 + (- (e + 1))) in Hm by lia.
    rewrite Z.pow_add_r in Hm by lia.
    change (2 ^ 1) with 2 in Hm. rewrite Hm53 in Hm.
    change (2 ^ 53) with (2 * 4503599627370496) in Hm. lia.
  - destruct (m =? 0) eqn:Em0; [reflexivity |].
    destruct (971 <? e) eqn:E971; [lia |].
    simpl. repeat split; lia.
Qed.

(** Rounding is monotone at an integer below [2^53]: a quotient of at
    most [k] rounds to a float of at most [k]. *)
Lemma nearest_double_at_most (a b k : Z) :
  0 <= a -> 0 < b -> a <= k * b -> k < 2 ^ 53 ->
  at_most k (nearest_double false a b).
Proof.
  intros Ha Hb Hle Hk. unfold nearest_double.
  destruct (a =? 0) eqn:Ea; [reflexivity |].
  assert (Ha' : 0 < a) by lia.
  pose proof (mag_le_53 a b k Ha' Hb Hle Hk) as Hmag.
  set (e := Z.max (mag a b - 53) (- 1074)).
  assert (He : e <= 0) by (unfold e; lia).
  assert (Hp : 0 < 2 ^ (- e)) by (apply Z.pow_pos_nonneg; lia).
  apply pack_at_most; [| assumption | assumption].
  destruct (0 <=? e) eqn:E0.
  - assert (e = 0) by lia. replace e with 0 by lia. simpl (2 ^ 0).
    simpl (2 ^ (- 0)). rewrite Z.mul_1_r. split.
    + apply div_rne_nonneg; lia.
    + apply div_rne_le; lia.
  - split.
    + apply div_rne_nonneg; nia.
    + apply div_rne_le; nia.
Qed.

Lemma int_truediv_unit (m t : Z) :
  0 <= m <= t -> 0 < t -> exists q, int_truediv m t = Ok q /\ at_most 1 q.
Proof.
  intros Hm Ht. unfold int_truediv.
  replace (t =? 0) with false by lia.
  replace (m <? 0) with false by lia.
  replace (t <? 0) with false by lia.
  simpl xorb. rewrite !Z.abs_eq by lia.
  assert (H : at_most 1 (nearest_double false m t))
    by (apply nearest_double_at_most; lia).
  rewrite (at_most_finite _ _ H). eauto.
Qed.

Lemma of_int_100 : of_int 100 = Ok (S754_finite false 7036874417766400 (- 46)).
Proof. vm_compute. reflexivity. Qed.

Lemma mul_100_at_most (q : pyfloat) :
  at_most 1 q -> exists p, mul_int q 100 = Ok p /\ at_most 100 p.
Proof.
  intros H. unfold mul_int. rewrite of_int_100. simpl rbind.
  eexists; split; [reflexivity |].
  destruct q as [s | s | | s m e]; cbn [at_most] in H; try contradiction.
  - subst s. reflexivity.
  - destruct H as (-> & He & Hm).
    assert (Hp : 0 < 2 ^ (- e)) by (apply Z.pow_pos_nonneg; lia).
    unfold mul, num_den.
    change (0 <=? - 46) with false. cbv iota.
    change (2 ^ (- - 46)) with 70368744177664.
    simpl xorb.
    destruct (0 <=? e) eqn:E0.
    + assert (e = 0) by lia. subst e. simpl (2 ^ 0). simpl (2 ^ (- 0)) in Hm.
      simpl Z.abs. apply nearest_double_at_most; lia.
    + simpl Z.abs. apply nearest_double_at_most; lia.
Qed.

(** A float between 0 and 100 rounds, at two decimals, to the float
    nearest to [n / 100] for an integer [n] between 0 and 10000. *)
Lemma round_2_percent (p : pyfloat) :
  at_most 100 p ->
  exists n, 0 <= n <= 10000 /\ round p 2 = nearest_double false n 100.
Proof.
  intros H. destruct p as [s | s | | s m e]; cbn [at_most] in H;
    try contradiction.
  - subst s. exists 0. split; [lia | reflexivity].
  - destruct H as (-> & He & Hm).
    assert (Hp : 0 < 2 ^ (- e)) by (apply Z.pow_pos_nonneg; lia).
    unfold round. change (323 <? 2) with false. cbv iota.
    unfold num_den. change (10 ^ 2) with 100.
    destruct (0 <=? e) eqn:E0; simpl Z.abs.
    + assert (e = 0) by lia. subst e. simpl (2 ^ 0). simpl (2 ^ (- 0)) in Hm.
      eexists; split; [| reflexivity]. split.
      * apply div_rne_nonneg; lia.
      * apply div_rne_le; lia.
    + eexists; split; [| reflexivity]. split.
      * apply div_rne_nonneg; lia.
      * apply div_rne_le; lia.
Qed.

Lemma at_most_not_gt (k : Z) (x : pyfloat) :
  at_most k x -> 0 <= k -> gt_int x k = false.
Proof.
  intros H Hk. destruct x as [s | s | | s m e]; cbn [at_most] in H;
    try contradiction.
  - unfold gt_int, compare_int. destruct (0 ?= k) eqn:E; try reflexivity.
    apply Z.compare_gt_iff in E. lia.
  - destruct H as (-> & He & Hm).
    unfold gt_int, compare_int, num_den.
    destruct (0 <=? e) eqn:E0.
    + assert (e = 0) by lia. subst e. simpl (2 ^ 0). simpl (2 ^ (- 0)) in Hm.
      destruct (Z.pos m * 1 ?= k * 1) eqn:E; try reflexivity.
      apply Z.compare_gt_iff in E. lia.
    + destruct (Z.pos m ?= k * 2 ^ (- e)) eqn:E; try reflexivity.
      apply Z.compare_gt_iff in E. lia.
Qed.

(** The sign does not change what a quotient rounds to. *)
Lemma nearest_double_sign (s : bool) (a b : Z) :
  nearest_double s a b = with_sign s (nearest_double false a b).
Proof.
  unfold nearest_double, pack.
  destruct (a =? 0); [reflexivity |].
  repeat match goal with |- context [if ?c then _ else _] => destruct c end;
    reflexivity.
Qed.

Lemma with_sign_finite (s : bool) (x : pyfloat) :
  is_finite (with_sign s x) = is_finite x.
Proof. destruct x; reflexivity. Qed.

Lemma negative_not_gt (x : pyfloat) (k : Z) :
  is_finite x = true -> 0 <= k -> gt_int (with_sign true x) k = false.
Proof.
  intros Hf Hk. destruct x as [s | s | | s m e]; try discriminate.
  - unfold gt_int, compare_int, with_sign.
    destruct (0 ?= k) eqn:E; try reflexivity.
    apply Z.compare_gt_iff in E. lia.
  - unfold gt_int, compare_int, with_sign, num_den.
    assert (0 < 2 ^ e \/ e < 0).
    { destruct (Z_lt_ge_dec e 0); [right; lia | left].
      apply Z.pow_pos_nonneg; lia. }
    assert (0 < 2 ^ (- e) \/ 0 <= e).
    { destruct (Z_lt_ge_dec e 0); [left | right; lia].
      apply Z.pow_pos_nonneg; lia. }
    destruct (0 <=? e) eqn:E0.
    + destruct (- (Z.pos m * 2 ^ e) ?= k * 1) eqn:E; try reflexivity.
      apply Z.compare_gt_iff in E. nia.
    + destruct (- Z.pos m ?= k * 2 ^ (- e)) eqn:E; try reflexivity.
      apply Z.compare_gt_iff in E. nia.
Qed.

Ltac decide_compare :=
  match goal with
  | |- context [?a ?= ?b] =>
      let E := fresh "E" in
      destruct (a ?= b) eqn:E; try reflexivity; exfalso;
      first [rewrite Z.compare_eq_iff in E | rewrite Z.compare_lt_iff in E
            | rewrite Z.compare_gt_iff in E];
      lia
  end.

Lemma pack_gt (k m e : Z) :
  0 <= k -> 0 < m <= 2 ^ 53 -> e <= 0 -> k * 2 ^ (- e) < m ->
  is_finite (pack false m e) = true /\ gt_int (pack false m e) k = true.
Proof.
  intros Hk Hm He Hlt. unfold pack.
  assert (Hp : 0 < 2 ^ (- e)) by (apply Z.pow_pos_nonneg; lia).
  destruct (m =? 2 ^ 53) eqn:Em.
  - assert (Hm53 : m = 2 ^ 53) by lia.
    change (2 ^ 52 =? 0) with false. cbv iota.
    destruct (971 <? e + 1) eqn:E971; [lia |].
    change (Z.to_pos (2 ^ 52)) with 4503599627370496%positive.
    split; [reflexivity |].
    unfold gt_int, compare_int, num_den.
    rewrite Hm53 in Hlt. change (2 ^ 53) with 9007199254740992 in Hlt.
    destruct (0 <=? e + 1) eqn:E1.
    + assert (He01 : e = 0 \/ e = - 1) by lia.
      destruct He01; subst e.
      * change (2 ^ (0 + 1)) with 2. change (2 ^ (- 0)) with 1 in Hlt.
        decide_compare.
      * change (2 ^ (-1 + 1)) with 1. change (2 ^ (- -1)) with 2 in Hlt.
        decide_compare.
    + replace (- e) with (1 + (- (e + 1))) in Hlt by lia.
      rewrite Z.pow_add_r in Hlt by lia. change (2 ^ 1) with 2 in Hlt.
      decide_compare.
  - destruct (m =? 0) eqn:Em0; [lia |].
    destruct (971 <? e) eqn:E971; [lia |].
    split; [reflexivity |].
    unfold gt_int, compare_int, num_den. rewrite Z2Pos.id by lia.
    destruct (0 <=? e) eqn:E0.
    + assert (e = 0) by lia. subst e.
      change (2 ^ 0) with 1. change (2 ^ (- 0)) with 1 in Hlt.
      decide_compare.
    + decide_compare.
Qed.

Lemma mag_nonneg (a b : Z) : 0 < b <= a -> 0 <= mag a b.
Proof.
  intros H. unfold mag.
  pose proof (Z.log2_le_mono b a ltac:(lia)).
  destruct (ge_pow2 a b (Z.log2 a - Z.log2 b)); lia.
Qed.

(** More than 300 seconds, in microseconds, is more than 300 as a float
    of seconds. *)
Lemma seconds_above_300 (a : Z) :
  300000000 < a <= 2 ^ 63 ->
  is_finite (nearest_double false a 1000000) = true
  /\ gt_int (nearest_double false a 1000000) 300 = true.
Proof.
  intros [Hlo Hhi]. change (2 ^ 63) with 9223372036854775808 in Hhi.
  unfold nearest_double. replace (a =? 0) with false by lia.
  set (b := 1000000) in *.
  assert (Ha : 0 < a) by lia. assert (Hb : 0 < b) by (unfold b; lia).
  pose proof (mag_nonneg a b ltac:(unfold b; lia)) as H0.
  pose proof (mag_upper a b Ha Hb H0) as Hup.
  assert (H9 : 9 <= mag a b).
  { destruct (Z_le_gt_dec 9 (mag a b)) as [| Hs]; [assumption | exfalso].
    assert (2 ^ mag a b <= 2 ^ 8) by (apply Z.pow_le_mono_r; lia).
    change (2 ^ 8) with 256 in *. unfold b in *. nia. }
  assert (H53 : mag a b <= 53).
  { apply (mag_le_53 a b (2 ^ 44)); try assumption; try reflexivity.
    change (2 ^ 44) with 17592186044416. unfold b. lia. }
  pose proof (mag_lower a b Ha Hb ltac:(lia)) as Hlow.
  set (ex := mag a b) in *.
  replace (Z.max (ex - 53) (- 1074)) with (ex - 53) by lia.
  set (e := ex - 53).
  assert (Hp : 0 < 2 ^ (- e)) by (apply Z.pow_pos_nonneg; unfold e; lia).
  assert (Hlo52 : 2 ^ (ex - 1) * 2 ^ (- e) = 2 ^ 52).
  { rewrite <- Z.pow_add_r by (unfold e; lia). f_equal. unfold e. lia. }
  assert (Hup53 : 2 ^ ex * 2 ^ (- e) = 2 ^ 53).
  { rewrite <- Z.pow_add_r by (unfold e; lia). f_equal. unfold e. lia. }
  change (2 ^ 52) with 4503599627370496 in Hlo52.
  assert (Hup53' := Hup53). change (2 ^ 53) with 9007199254740992 in Hup53'.
  assert (Hq1 : 0 < 2 ^ (ex - 1)) by (apply Z.pow_pos_nonneg; lia).
  assert (Hq2 : 0 < 2 ^ ex) by (apply Z.pow_pos_nonneg; lia).
  apply pack_gt; try lia.
  - (* the significand is positive and at most 2^53 *)
    destruct (0 <=? e) eqn:E0.
    + assert (Ee : e = 0) by lia. rewrite Ee in *. simpl (2 ^ 0).
      simpl (2 ^ (- 0)) in *. split.
      * assert (4503599627370496 <= div_rne a (b * 1))
          by (apply div_rne_ge; nia). lia.
      * change (2 ^ 53) with 9007199254740992.
        apply div_rne_le; nia.
    + split.
      * assert (4503599627370496 <= div_rne (a * 2 ^ (- e)) b)
          by (apply div_rne_ge; nia). lia.
      * change (2 ^ 53) with 9007199254740992.
        apply div_rne_le; nia.
  - (* it exceeds 300 * 2^(-e) *)
    destruct (0 <=? e) eqn:E0.
    + assert (Ee : e = 0) by lia. rewrite Ee in *. simpl (2 ^ 0).
      simpl (2 ^ (- 0)) in *.
      assert (4503599627370496 <= div_rne a (b * 1))
        by (apply div_rne_ge; nia). lia.
    + destruct (Z.eq_dec ex 9) as [E9 | E9].
      * assert (Ee : - e = 44) by (unfold e; lia). rewrite Ee in *.
        change (2 ^ 44) with 17592186044416 in *.
        assert (300 * 17592186044416 + 1 <= div_rne (a * 17592186044416) b)
          by (apply div_rne_ge; unfold b; lia). lia.
      * assert (2 ^ (- e) <= 2 ^ 43)
          by (apply Z.pow_le_mono_r; unfold e; lia).
        change (2 ^ 43) with 8796093022208 in *.
        assert (4503599627370496 <= div_rne (a * 2 ^ (- e)) b)
          by (apply div_rne_ge; nia). lia.
Qed.

(** The comparison [total_seconds() > 300] is the comparison of the
    microseconds with [300 * 10^6]. *)
Lemma total_seconds_threshold (td : Z) :
  Z.abs td <= 2 ^ 63 ->
  exists x, total_seconds td = Ok x /\ gt_int x 300 = (300000000 <? td).
Proof.
  intros Hb. change (2 ^ 63) with 9223372036854775808 in Hb.
  unfold total_seconds, int_truediv. change (1000000 =? 0) with false.
  cbv iota. change (1000000 <? 0) with false. rewrite xorb_false_r.
  change (Z.abs 1000000) with 1000000.
  rewrite nearest_double_sign, with_sign_finite.
  destruct (Z_lt_ge_dec td 0) as [Hneg | Hpos].
  - replace (td <? 0) with true by lia.
    assert (H : at_most (2 ^ 44) (nearest_double false (Z.abs td) 1000000)).
    { apply nearest_double_at_most; try lia; reflexivity. }
    rewrite (at_most_finite _ _ H). eexists; split; [reflexivity |].
    rewrite negative_not_gt; [lia | | lia].
    apply (at_most_finite _ _ H).
  - replace (td <? 0) with false by lia. rewrite Z.abs_eq by lia.
    replace (with_sign false (nearest_double false td 1000000))
      with (nearest_double false td 1000000)
      by (rewrite <- nearest_double_sign; reflexivity).
    destruct (Z_le_gt_dec td 300000000) as [Hle | Hgt].
    + assert (H : at_most 300 (nearest_double false td 1000000))
        by (apply nearest_double_at_most; try lia; reflexivity).
      rewrite (at_most_finite _ _ H). eexists; split; [reflexivity |].
      rewrite (at_most_not_gt _ _ H) by lia. lia.
    + destruct (seconds_above_300 td) as [Hf Hg];
        [change (2 ^ 63) with 9223372036854775808; lia |].
      rewrite Hf. eexists; split; [reflexivity |].
      rewrite Hg. lia.
Qed.

(** *** The error of a rounding *)

Lemma div_rne_error (a b : Z) :
  0 <= a -> 0 < b -> 2 * Z.abs (div_rne a b * b - a) <= b.
Proof.
  intros Ha Hb. rewrite div_rne_eq.
  pose proof (Z.div_mod a b ltac:(lia)) as Hdm.
  pose proof (Z.mod_pos_bound a b Hb) as Hr.
  destruct (2 * (a mod b) ?= b) eqn:E;
    [apply Z.compare_eq_iff in E | rewrite Z.compare_lt_iff in E
    | rewrite Z.compare_gt_iff in E];
    [destruct (Z.even (a / b)) | |]; nia.
Qed.

(** A quotient of at most [2^j] has magnitude at most [j + 1]. *)
Lemma mag_le (a b j : Z) :
  0 < a -> 0 < b -> 0 <= j -> a <= b * 2 ^ j -> mag a b <= j + 1.
Proof.
  intros Ha Hb Hj Hle.
  destruct (Z_le_gt_dec (mag a b) (j + 1)) as [| Hgt]; [assumption | exfalso].
  pose proof (mag_lower a b Ha Hb ltac:(lia)) as Hl.
  assert (2 ^ (j + 1) <= 2 ^ (mag a b - 1)) by (apply Z.pow_le_mono_r; lia).
  rewrite Z.pow_add_r in H by lia. change (2 ^ 1) with 2 in H.
  assert (0 < 2 ^ j) by (apply Z.pow_pos_nonneg; lia).
  nia.
Qed.

Lemma pack_within (k a b m e : Z) :
  0 <= m -> e < 0 -> 0 <= a -> 0 < b -> 0 <= k ->
  Z.abs (m * b - a * 2 ^ (- e)) * 2 ^ k <= b * 2 ^ (- e) ->
  within k a b (pack false m e).
Proof.
  intros Hm He Ha Hb Hk H. unfold pack.
  assert (Hp : 0 < 2 ^ (- e)) by (apply Z.pow_pos_nonneg; lia).
  assert (Hk2 : 0 < 2 ^ k) by (apply Z.pow_pos_nonneg; lia).
  destruct (m =? 2 ^ 53) eqn:Em.
  - assert (Hm53 : m = 2 ^ 53) by lia.
    change (2 ^ 52 =? 0) with false. cbv iota.
    destruct (971 <? e + 1) eqn:E971; [lia |].
    change (Z.to_pos (2 ^ 52)) with 4503599627370496%positive.
    cbn [within]. repeat split; try lia.
    replace (- e) with (1 + (- (e + 1))) in H by lia.
    rewrite Z.pow_add_r in H by lia. change (2 ^ 1) with 2 in H.
    rewrite Hm53 in H. change (2 ^ 53) with (2 * 4503599627370496) in H.
    assert (Hp' : 0 < 2 ^ (- (e + 1))) by (apply Z.pow_pos_nonneg; lia).
    set (P := 2 ^ (- (e + 1))) in *. set (K := 2 ^ k) in *.
    replace (2 * 4503599627370496 * b - a * (2 * P))
      with (2 * (4503599627370496 * b - a * P)) in H by ring.
    rewrite Z.abs_mul in H. change (Z.abs 2) with 2 in H. nia.
  - destruct (m =? 0) eqn:Em0.
    + assert (m = 0) by lia. subst m. cbn [within]. split; [reflexivity |].
      replace (0 * b - a * 2 ^ (- e)) with (- (a * 2 ^ (- e))) in H by ring.
      rewrite Z.abs_opp, Z.abs_eq in H by nia. nia.
    + destruct (971 <? e) eqn:E971; [lia |].
      cbn [within]. rewrite Z2Pos.id by lia. repeat split; lia.
Qed.

(** Rounding a quotient of at most [2^j] moves it by at most
    [2^(j-53)]. *)
Lemma nearest_double_within (a b j : Z) :
  0 <= a -> 0 < b -> 0 <= j <= 50 -> a <= b * 2 ^ j ->
  within (53 - j) a b (nearest_double false a b).
Proof.
  intros Ha Hb Hj Hle. unfold nearest_double.
  destruct (a =? 0) eqn:Ea.
  { assert (a = 0) by lia. subst a. cbn [within]. split; [reflexivity | lia]. }
  assert (Ha' : 0 < a) by lia.
  pose proof (mag_le a b j Ha' Hb ltac:(lia) Hle) as Hmag.
  set (e := Z.max (mag a b - 53) (- 1074)).
  assert (He : e <= j - 52) by (unfold e; lia).
  replace (0 <=? e) with false by lia.
  assert (Hp : 0 < 2 ^ (- e)) by (apply Z.pow_pos_nonneg; lia).
  apply pack_within; try lia.
  - apply div_rne_nonneg; nia.
  - pose proof (div_rne_error (a * 2 ^ (- e)) b ltac:(nia) Hb) as Herr.
    assert (Hpow : 2 ^ (53 - j) <= 2 * 2 ^ (- e)).
    { replace (53 - j) with (1 + (52 - j)) by lia.
      rewrite Z.pow_add_r by lia. change (2 ^ 1) with 2.
      assert (2 ^ (52 - j) <= 2 ^ (- e)) by (apply Z.pow_le_mono_r; lia).
      lia. }
    assert (0 < 2 ^ (53 - j)) by (apply Z.pow_pos_nonneg; lia).
    set (D := Z.abs (div_rne (a * 2 ^ (- e)) b * b - a * 2 ^ (- e))) in *.
    assert (0 <= D) by (unfold D; apply Z.abs_nonneg).
    nia.
Qed.

(** The three roundings of the migration rate together: the count [n]
    of hundredths is within [1/2 + 22800 / 2^53] of [10000 * m / t]. *)
Lemma three_roundings (m t mq Q mp P n : Z) :
  0 < t -> 0 < Q -> 0 < P ->
  Z.abs (mq * t - m * Q) * 2 ^ 53 <= t * Q ->
  Z.abs (mp * Q - 100 * mq * P) * 2 ^ 46 <= Q * P ->
  2 * Z.abs (n * P - 100 * mp) <= P ->
  Z.abs (n * t - 10000 * m) * 2 ^ 53 <= t * (2 ^ 52 + 22800).
Proof.
  intros Ht HQ HP H1 H2 H3.
  change (2 ^ 53) with 9007199254740992 in *.
  change (2 ^ 52) with 4503599627370496 in *.
  change (2 ^ 46) with 70368744177664 in *.
  set (A := n * P - 100 * mp) in *.
  set (B := mp * Q - 100 * mq * P) in *.
  set (C := mq * t - m * Q) in *.
  assert (E : (n * t - 10000 * m) * (P * Q)
              = A * (t * Q) + 100 * (B * t) + 10000 * (P * C))
    by (unfold A, B, C; ring).
  assert (T : Z.abs (n * t - 10000 * m) * (P * Q)
              <= Z.abs A * (t * Q) + 100 * (Z.abs B * t)
                 + 10000 * (P * Z.abs C)).
  { rewrite <- (Z.abs_eq (P * Q)) at 1 by nia.
    rewrite <- Z.abs_mul, E.
    eapply Z.le_trans; [apply Z.abs_triangle |].
    eapply Z.le_trans;
      [apply Z.add_le_mono_r; apply Z.abs_triangle |].
    rewrite !Z.abs_mul.
    rewrite (Z.abs_eq t), (Z.abs_eq Q), (Z.abs_eq P) by lia.
    change (Z.abs 100) with 100. change (Z.abs 10000) with 10000. lia. }
  pose proof (Z.abs_nonneg A). pose proof (Z.abs_nonneg B).
  pose proof (Z.abs_nonneg C).
  pose proof (Z.abs_nonneg (n * t - 10000 * m)).
  set (a := Z.abs A) in *. set (b := Z.abs B) in *. set (c := Z.abs C) in *.
  set (d := Z.abs (n * t - 10000 * m)) in *.
  assert (HPQ : 0 < P * Q) by nia.
  assert (U : d * 9007199254740992 * (P * Q)
              <= t * (4503599627370496 + 22800) * (P * Q)).
  { assert (U1 : 9007199254740992 * (a * (t * Q))
                 <= 4503599627370496 * (t * (P * Q))) by nia.
    assert (U2 : 9007199254740992 * (100 * (b * t))
                 <= 12800 * (t * (P * Q))) by nia.
    assert (U3 : 9007199254740992 * (10000 * (P * c))
                 <= 10000 * (t * (P * Q))) by nia.
    nia. }
  apply Z.mul_le_mono_pos_r with (p := P * Q); assumption.
Qed.

(** The two predicates on the exact value [n / d] of the float. *)
Lemma at_most_num_den (k : Z) (x : pyfloat) :
  at_most k x -> 0 <= k ->
  0 <= fst (num_den x) <= k * snd (num_den x) /\ 0 < snd (num_den x).
Proof.
  intros H Hk. destruct x as [s | s | | s m e]; cbn [at_most] in H;
    try contradiction.
  - cbn. lia.
  - destruct H as (-> & He & Hm). unfold num_den.
    assert (Hp : 0 < 2 ^ (- e)) by (apply Z.pow_pos_nonneg; lia).
    destruct (0 <=? e) eqn:E0; cbn [fst snd].
    + assert (e = 0) by lia. subst e. change (2 ^ 0) with 1.
      change (2 ^ (- 0)) with 1 in Hm. lia.
    + lia.
Qed.

Lemma within_num_den (k a b : Z) (x : pyfloat) :
  within k a b x -> 0 <= a ->
  Z.abs (fst (num_den x) * b - a * snd (num_den x)) * 2 ^ k
  <= b * snd (num_den x).
Proof.
  intros H Ha. destruct x as [s | s | | s m e]; cbn [within] in H;
    try contradiction.
  - destruct H as [_ H]. cbn [num_den fst snd].
    replace (0 * b - a * 1) with (- a) by ring.
    rewrite Z.abs_opp, Z.abs_eq by lia. lia.
  - destruct H as (-> & He & Hm). unfold num_den.
    destruct (0 <=? e) eqn:E0; cbn [fst snd].
    + assert (e = 0) by lia. subst e. change (2 ^ 0) with 1.
      change (2 ^ (- 0)) with 1 in Hm.
      replace (Z.pos m * 1) with (Z.pos m) by ring. exact Hm.
    + exact Hm.
Qed.

Lemma int_truediv_within (m t : Z) :
  0 <= m <= t -> 0 < t ->
  exists q, int_truediv m t = Ok q /\ at_most 1 q /\ within 53 m t q.
Proof.
  intros Hm Ht. unfold int_truediv.
  replace (t =? 0) with false by lia.
  replace (m <? 0) with false by lia.
  replace (t <? 0) with false by lia.
  simpl xorb. rewrite !Z.abs_eq by lia.
  assert (H : at_most 1 (nearest_double false m t))
    by (apply nearest_double_at_most; lia).
  rewrite (at_most_finite _ _ H). eexists. split; [reflexivity |].
  split; [exact H |].
  apply (nearest_double_within m t 0); try lia.
Qed.

(** The product with [100.0] is the rounded product of the exact
    values. *)
Lemma mul_100_value (q : pyfloat) :
  at_most 1 q ->
  mul_int q 100
  = Ok (nearest_double false (fst (num_den q) * 7036874417766400)
                             (snd (num_den q) * 2 ^ 46)).
Proof.
  intros H. unfold mul_int. rewrite of_int_100. simpl rbind.
  destruct q as [s | s | | s m e]; cbn [at_most] in H; try contradiction.
  - subst s. reflexivity.
  - destruct H as (-> & He & Hm).
    assert (Hp : 0 < 2 ^ (- e)) by (apply Z.pow_pos_nonneg; lia).
    unfold mul, num_den.
    change (0 <=? - 46) with false. cbv iota.
    change (2 ^ (- - 46)) with (2 ^ 46).
    simpl xorb.
    destruct (0 <=? e) eqn:E0; cbn [fst snd].
    + assert (e = 0) by lia. subst e. reflexivity.
    + reflexivity.
Qed.

(** [round(p, 2)] is the float nearest to the hundredths of [p]. *)
Lemma round_2_value (p : pyfloat) :
  at_most 100 p ->
  round p 2
  = nearest_double false
      (div_rne (fst (num_den p) * 100) (snd (num_den p))) 100.
Proof.
  intros H. destruct p as [s | s | | s m e]; cbn [at_most] in H;
    try contradiction.
  - subst s. reflexivity.
  - destruct H as (-> & He & Hm).
    unfold round. change (323 <? 2) with false. cbv iota.
    unfold num_den. change (10 ^ 2) with 100.
    destruct (0 <=? e) eqn:E0; cbn [fst snd].
    + assert (e = 0) by lia. subst e. reflexivity.
    + reflexivity.
Qed.

(** The rate of [m] migrated among [t > 0] users: the float nearest to
    [n / 100] for a count [n] of hundredths between 0 and 10000 that is
    within [1/2 + 22800 / 2^53] of [10000 * m / t]. *)
Lemma rate_hundredths (m t : Z) :
  0 <= m <= t -> 0 < t ->
  exists q p n,
    int_truediv m t = Ok q /\ mul_int q 100 = Ok p
    /\ round p 2 = nearest_double false n 100
    /\ 0 <= n <= 10000
    /\ Z.abs (n * t - 10000 * m) * 2 ^ 53 <= t * (2 ^ 52 + 22800).
Proof.
  intros Hm Ht.
  destruct (int_truediv_within m t Hm Ht) as (q & Hq & Hq1 & Hqw).
  destruct (mul_100_at_most q Hq1) as (p & Hp & Hp100).
  assert (Hpv : p = nearest_double false
                     (fst (num_den q) * 7036874417766400)
                     (snd (num_den q) * 2 ^ 46))
    by (pose proof (mul_100_value q Hq1); congruence).
  destruct (at_most_num_den 1 q Hq1 ltac:(lia)) as [Hnq Hdq].
  destruct (at_most_num_den 100 p Hp100 ltac:(lia)) as [Hnp Hdp].
  pose proof (within_num_den 53 m t q Hqw ltac:(lia)) as H1.
  set (nq := fst (num_den q)) in *. set (dq := snd (num_den q)) in *.
  assert (Hpw : within 46 (nq * 7036874417766400) (dq * 2 ^ 46) p).
  { rewrite Hpv.
    apply (nearest_double_within _ _ 7); lia. }
  pose proof (within_num_den _ _ _ p Hpw ltac:(lia)) as H2.
  set (np := fst (num_den p)) in *. set (dp := snd (num_den p)) in *.
  exists q, p, (div_rne (np * 100) dp).
  split; [exact Hq |]. split; [exact Hp |].
  split; [apply round_2_value, Hp100 |].
  split.
  { split; [apply div_rne_nonneg; lia | apply div_rne_le; lia]. }
  pose proof (div_rne_error (np * 100) dp ltac:(lia) Hdp) as H3.
  apply (three_roundings m t nq dq np dp _ Ht Hdq Hdp H1).
  - change (2 ^ 46) with 70368744177664 in *.
    replace (np * (dq * 70368744177664) - nq * 7036874417766400 * dp)
      with ((np * dq - 100 * nq * dp) * 70368744177664) in H2 by ring.
    rewrite Z.abs_mul in H2. change (Z.abs 70368744177664) with 70368744177664 in H2.
    pose proof (Z.abs_nonneg (np * dq - 100 * nq * dp)).
    nia.
  - replace (div_rne (np * 100) dp * dp - 100 * np)
      with (div_rne (np * 100) dp * dp - np * 100) by ring.
    exact H3.
Qed.

(** For fewer than [2^37] users, no count of hundredths is nearer to
    [10000 * m / t]. *)
Lemma nearest_hundredths (m t n : Z) :
  0 < t < 2 ^ 37 ->
  Z.abs (n * t - 10000 * m) * 2 ^ 53 <= t * (2 ^ 52 + 22800) ->
  2 * Z.abs (n * t - 10000 * m) <= t.
Proof.
  change (2 ^ 37) with 137438953472. change (2 ^ 53) with 9007199254740992.
  change (2 ^ 52) with 4503599627370496. lia.
Qed.

End FloatFacts.

(** ** Timestamps *)

Module DatetimeFacts.
Import Text Calendar Datetime Obs.

(** [fromisoformat] only returns values in the range of the
    constructor. *)
Lemma fromisoformat_valid (s : pystr) (d : datetime) :
  fromisoformat s = Some d -> valid d = true.
Proof.
  unfold fromisoformat.
  destruct (parse_isoformat_date s) as [[[y mo] dd] |]; [| discriminate].
  destruct (if Nat.ltb 10 (List.length s) then parse_isoformat_time (skipn 11 s)
            else TimeNaive 0 0 0 0) as [| h mi sec us | h mi sec us off offus];
    [discriminate | |].
  - destruct (valid_date y mo dd && valid_time h mi sec us)%bool eqn:V;
      [| discriminate].
    intros H; injection H as <-. exact V.
  - destruct (tz_of_offset off offus); [| discriminate].
    destruct (valid_date y mo dd && valid_time h mi sec us)%bool eqn:V;
      [| discriminate].
    intros H; injection H as <-. exact V.
Qed.

Lemma days_before_month_bounds (y m : Z) :
  1 <= m <= 12 -> 0 <= days_before_month y m <= 335.
Proof.
  intros Hm. unfold days_before_month.
  assert (Hc : m = 1 \/ m = 2 \/ m = 3 \/ m = 4 \/ m = 5 \/ m = 6 \/ m = 7
               \/ m = 8 \/ m = 9 \/ m = 10 \/ m = 11 \/ m = 12) by lia.
  destruct (is_leap y);
    repeat (destruct Hc as [-> | Hc]; [simpl; lia |]); subst m; simpl; lia.
Qed.

Lemma days_in_month_bounds (y m : Z) :
  1 <= m <= 12 -> 28 <= days_in_month y m <= 31.
Proof.
  intros Hm. unfold days_in_month.
  assert (Hc : m = 1 \/ m = 2 \/ m = 3 \/ m = 4 \/ m = 5 \/ m = 6 \/ m = 7
               \/ m = 8 \/ m = 9 \/ m = 10 \/ m = 11 \/ m = 12) by lia.
  destruct (is_leap y);
    repeat (destruct Hc as [-> | Hc]; [simpl; lia |]); subst m; simpl; lia.
Qed.

(** The wall-clock time of a valid value is below ten thousand years. *)
Lemma wall_us_bounds (d : datetime) :
  valid d = true -> 0 <= wall_us d < 2 ^ 59.
Proof.
  unfold valid, valid_date, valid_time, wall_us, ymd2ord, days_before_year.
  intros V.
  repeat match goal with
         | H : (_ && _)%bool = true |- _ => apply andb_prop in H; destruct H
         end.
  pose proof (days_before_month_bounds (year d) (month d) ltac:(lia)).
  pose proof (days_in_month_bounds (year d) (month d) ltac:(lia)).
  change (2 ^ 59) with 576460752303423488.
  Z.div_mod_to_equations. lia.
Qed.

(** *** Decimal digits *)

Lemma digit_char_code (x : Z) : Z.of_N (digit_char (x mod 10)) = 48 + x mod 10.
Proof.
  unfold digit_char. rewrite Z2N.id; [reflexivity |].
  pose proof (Z.mod_pos_bound x 10 ltac:(lia)). lia.
Qed.

Lemma digit_char_ge (x : Z) : N.leb 48 (digit_char (x mod 10)) = true.
Proof.
  apply N.leb_le. pose proof (digit_char_code x) as H.
  pose proof (Z.mod_pos_bound x 10 ltac:(lia)). lia.
Qed.

Lemma digit_char_le (x : Z) : N.leb (digit_char (x mod 10)) 57 = true.
Proof.
  apply N.leb_le. pose proof (digit_char_code x) as H.
  pose proof (Z.mod_pos_bound x 10 ltac:(lia)). lia.
Qed.

Lemma digit_char_neq (x : Z) (c : N) :
  (c < 48 \/ 57 < c)%N -> N.eqb (digit_char (x mod 10)) c = false.
Proof.
  intros Hc. apply N.eqb_neq. pose proof (digit_char_code x) as H.
  pose proof (Z.mod_pos_bound x 10 ltac:(lia)). lia.
Qed.

Lemma is_digit_digit_char (x : Z) : is_digit (digit_char (x mod 10)) = true.
Proof. unfold is_digit. rewrite digit_char_ge, digit_char_le. reflexivity. Qed.

Lemma digit_val_digit_char (x : Z) : digit_val (digit_char (x mod 10)) = x mod 10.
Proof. unfold digit_val. rewrite digit_char_code. lia. Qed.

Lemma is_sign_digit_char (x : Z) : is_sign (digit_char (x mod 10)) = false.
Proof. unfold is_sign. rewrite !digit_char_neq by lia. reflexivity. Qed.

Ltac run_digits :=
  repeat (rewrite ?is_digit_digit_char, ?digit_val_digit_char,
                  ?is_sign_digit_char;
          change (is_sign 58) with false;
          change (is_sign 46) with false;
          cbn -[is_digit digit_val is_sign digit_char Z.modulo Z.div Z.mul
                Z.add Z.sub valid_date valid_time]).

Lemma two_digits (z : Z) :
  0 <= z < 100 -> 10 * (10 * 0 + (z / 10) mod 10) + z mod 10 = z.
Proof. intros H. Z.div_mod_to_equations. lia. Qed.

Lemma four_digits (z : Z) :
  0 <= z < 10000 ->
  10 * (10 * (10 * (10 * 0 + (z / 10 / 10 / 10) mod 10)
              + (z / 10 / 10) mod 10) + (z / 10) mod 10) + z mod 10 = z.
Proof. intros H. Z.div_mod_to_equations. lia. Qed.

Lemma six_digits (z : Z) :
  0 <= z < 1000000 ->
  10 * (10 * (10 * (10 * (10 * (10 * 0 + (z / 10 / 10 / 10 / 10 / 10) mod 10)
                          + (z / 10 / 10 / 10 / 10) mod 10)
                    + (z / 10 / 10 / 10) mod 10)
              + (z / 10 / 10) mod 10) + (z / 10) mod 10) + z mod 10 = z.
Proof. intros H. Z.div_mod_to_equations. lia. Qed.

Lemma valid_ranges (y mo dd h mi sec us : Z) :
  (valid_date y mo dd && valid_time h mi sec us)%bool = true ->
  0 <= y < 10000 /\ 0 <= mo < 100 /\ 0 <= dd < 100 /\ 0 <= h < 100
  /\ 0 <= mi < 100 /\ 0 <= sec < 100 /\ 0 <= us < 1000000.
Proof.
  unfold valid_date, valid_time. intros V.
  repeat match goal with
         | H : (_ && _)%bool = true |- _ => apply andb_prop in H; destruct H
         end.
  pose proof (days_in_month_bounds y mo ltac:(lia)). lia.
Qed.

(** [fromisoformat] reads back what [isoformat] writes for a naive
    value in the range of the constructor. *)
Lemma fromisoformat_isoformat (d : datetime) :
  valid d = true -> naive d = true -> fromisoformat (isoformat d) = Some d.
Proof.
  destruct d as [y mo dd h mi sec us tz]. unfold valid, naive.
  cbn [year month day hour minute second microsecond tzinfo].
  intros V N. destruct tz; [discriminate |].
  destruct (valid_ranges _ _ _ _ _ _ _ V) as (Hy & Hmo & Hdd & Hh & Hmi & Hs & Hus).
  unfold isoformat, date_isoformat.
  cbn [year month day hour minute second microsecond tzinfo zpad app].
  destruct (us =? 0) eqn:Eus.
  - unfold fromisoformat, parse_isoformat_date. run_digits.
    unfold parse_isoformat_time, tzinfo_pos, parse_hh_mm_ss_ff. run_digits.
    rewrite (four_digits y), !two_digits by assumption.
    assert (us = 0) by lia. subst us. rewrite V. reflexivity.
  - unfold fromisoformat, parse_isoformat_date. run_digits.
    unfold parse_isoformat_time, tzinfo_pos, parse_hh_mm_ss_ff. run_digits.
    unfold hms_fraction. run_digits.
    rewrite (four_digits y), !two_digits, (six_digits us) by assumption.
    rewrite V. reflexivity.
Qed.

End DatetimeFacts.

(** ** JSON documents *)

Module JsonFacts.
Import Text Py PyFloat Json Obs.
Import DatetimeFacts.

(** *** Strings *)

Lemma plain_char_escape (c : N) : plain_char c = true -> escape_char c = [c].
Proof.
  unfold plain_char, escape_char. intros H.
  repeat (apply andb_prop in H; destruct H as [H ?]).
  apply N.leb_le in H.
  destruct (N.eqb c 34); [discriminate |].
  destruct (N.eqb c 92); [discriminate |].
  repeat match goal with
         | |- context [N.eqb c ?k] =>
             replace (N.eqb c k) with false by (symmetry; apply N.eqb_neq; lia)
         end.
  replace (N.leb 32 c) with true by (symmetry; apply N.leb_le; lia).
  rewrite H2. reflexivity.
Qed.

Lemma plain_str_escape (s : pystr) :
  plain_str s = true -> flat_map escape_char s = s.
Proof.
  induction s as [| c s IH]; [reflexivity |].
  cbn [plain_str forallb flat_map]. intros H.
  apply andb_prop in H. destruct H as [Hc Hs].
  rewrite (plain_char_escape c Hc), (IH Hs). reflexivity.
Qed.

Lemma encode_string_plain (s : pystr) :
  plain_str s = true -> encode_string s = 34%N :: s ++ [34%N].
Proof. intros H. unfold encode_string. rewrite plain_str_escape by exact H. reflexivity. Qed.

Lemma scanstring_plain (s rest : pystr) :
  plain_str s = true -> scanstring (s ++ 34%N :: rest) = Some (s, rest).
Proof.
  induction s as [| c s IH]; [reflexivity |].
  cbn [plain_str forallb]. intros H.
  apply andb_prop in H. destruct H as [Hc Hs].
  unfold plain_char in Hc.
  repeat (apply andb_prop in Hc; destruct Hc as [Hc ?]).
  apply N.leb_le in Hc.
  cbn [app scanstring].
  destruct (N.eqb c 34); [discriminate |].
  destruct (N.eqb c 92); [discriminate |].
  replace (N.leb c 31) with false by (symmetry; apply N.leb_gt; lia).
  rewrite (IH Hs). reflexivity.
Qed.

(** *** Stability of the scanners under what follows a term *)

Lemma span_stop (p : N -> bool) (t rest : pystr) :
  match rest with [] => True | c :: _ => p c = false end ->
  span p (t ++ rest) = (fst (span p t), snd (span p t) ++ rest).
Proof.
  intros Hrest. induction t as [| c t IH].
  - cbn. destruct rest as [| c rest]; [reflexivity |].
    cbn. rewrite Hrest. reflexivity.
  - cbn [app span]. destruct (p c); [| reflexivity].
    rewrite IH. destruct (span p t). reflexivity.
Qed.

Lemma stop_not_digit (rest : pystr) :
  stop rest = true ->
  match rest with [] => True | c :: _ => is_digit c = false end.
Proof.
  destruct rest as [| c rest]; [trivial |]. cbn [stop]. intros H.
  unfold is_digit.
  apply orb_prop in H. destruct H as [H | H];
    [apply orb_prop in H; destruct H as [H | H] |];
    apply N.eqb_eq in H; subst c; reflexivity.
Qed.

Lemma stop_head (rest : pystr) (c : N) :
  stop rest = true -> inner_char c = true ->
  match rest with [] => True | x :: _ => N.eqb x c = false end.
Proof.
  destruct rest as [| x rest]; [trivial |]. cbn [stop]. unfold inner_char.
  intros H Hc. destruct (N.eqb_spec x c) as [-> | Hne]; [| reflexivity].
  rewrite H in Hc. discriminate.
Qed.

Lemma starts_with_stop (c : N) (t rest : pystr) :
  stop rest = true -> inner_char c = true ->
  starts_with c (t ++ rest)
  = option_map (fun r => r ++ rest) (starts_with c t).
Proof.
  intros Hs Hc. destruct t as [| x t].
  - cbn. pose proof (stop_head rest c Hs Hc) as H.
    destruct rest as [| y rest]; [reflexivity |]. cbn. rewrite H. reflexivity.
  - cbn. destruct (N.eqb x c); reflexivity.
Qed.

Lemma scan_sign_stop (t rest : pystr) :
  stop rest = true ->
  scan_sign (t ++ rest) = (fst (scan_sign t), snd (scan_sign t) ++ rest).
Proof.
  intros Hs. unfold scan_sign. rewrite starts_with_stop by (auto; reflexivity).
  destruct (starts_with 45 t); reflexivity.
Qed.

Lemma scan_int_part_stop (t rest ds r : pystr) :
  stop rest = true -> scan_int_part t = Some (ds, r) ->
  scan_int_part (t ++ rest) = Some (ds, r ++ rest).
Proof.
  intros Hs. destruct t as [| c t]; [discriminate |].
  cbn [app scan_int_part]. destruct (N.eqb c 48).
  - intros H; injection H as <- <-. reflexivity.
  - destruct (is_digit c); [| discriminate].
    intros H. change (c :: t ++ rest) with ((c :: t) ++ rest).
    rewrite span_stop by (apply stop_not_digit; exact Hs).
    assert (E : span is_digit (c :: t) = (ds, r)) by congruence.
    rewrite E. reflexivity.
Qed.

Lemma scan_frac_stop (t rest : pystr) :
  stop rest = true ->
  scan_frac (t ++ rest) = (fst (scan_frac t), snd (scan_frac t) ++ rest).
Proof.
  intros Hs. unfold scan_frac. rewrite starts_with_stop by (auto; reflexivity).
  destruct (starts_with 46 t) as [r |]; cbn [option_map]; [| reflexivity].
  rewrite span_stop by (apply stop_not_digit; exact Hs).
  destruct (span is_digit r) as [[| d fd] r']; reflexivity.
Qed.

Lemma scan_exp_stop (t rest : pystr) :
  stop rest = true ->
  scan_exp (t ++ rest) = (fst (scan_exp t), snd (scan_exp t) ++ rest).
Proof.
  intros Hs. destruct t as [| c t].
  - cbn [app]. unfold scan_exp at 2 3. cbn [fst snd app].
    destruct rest as [| x rest]; [reflexivity |].
    cbn [scan_exp]. cbn [stop] in Hs.
    replace (N.eqb x 101 || N.eqb x 69)%bool with false; [reflexivity |].
    apply orb_prop in Hs. destruct Hs as [H | H];
      [apply orb_prop in H; destruct H as [H | H] |];
      apply N.eqb_eq in H; subst x; reflexivity.
  - cbn [app scan_exp]. destruct (N.eqb c 101 || N.eqb c 69)%bool;
      [| reflexivity].
    rewrite !starts_with_stop by (auto; reflexivity).
    destruct (starts_with 45 t) as [r |]; cbn [option_map].
    + rewrite span_stop by (apply stop_not_digit; exact Hs).
      destruct (span is_digit r) as [[| d ed] r']; reflexivity.
    + destruct (starts_with 43 t) as [r |]; cbn [option_map];
        rewrite span_stop by (apply stop_not_digit; exact Hs).
      * destruct (span is_digit r) as [[| d ed] r']; reflexivity.
      * destruct (span is_digit t) as [[| d ed] r']; reflexivity.
Qed.

Lemma scan_number_stop (t rest r : pystr) (v : pyval) :
  stop rest = true -> scan_number t = Some (v, r) ->
  scan_number (t ++ rest) = Some (v, r ++ rest).
Proof.
  intros Hs. unfold scan_number.
  rewrite scan_sign_stop by exact Hs.
  destruct (scan_sign t) as [neg s1]. cbn [fst snd].
  destruct (scan_int_part s1) as [[ds r1] |] eqn:Ei; [| discriminate].
  rewrite (scan_int_part_stop _ _ _ _ Hs Ei).
  rewrite scan_frac_stop by exact Hs.
  destruct (scan_frac r1) as [frac r2]. cbn [fst snd].
  rewrite scan_exp_stop by exact Hs.
  destruct (scan_exp r2) as [ex r3]. cbn [fst snd].
  intros H; injection H as <- <-. reflexivity.
Qed.

Lemma prefix_app (p t r rest : pystr) :
  prefix p t = Some r -> prefix p (t ++ rest) = Some (r ++ rest).
Proof.
  revert t. induction p as [| a p IH]; intros t.
  - cbn. intros H; injection H as <-. destruct t; reflexivity.
  - destruct t as [| b t]; [discriminate |]. cbn [app prefix].
    destruct (N.eqb a b); [apply IH | discriminate].
Qed.

Lemma prefix_stop (p t rest : pystr) :
  stop rest = true -> forallb inner_char p = true ->
  prefix p t = None -> prefix p (t ++ rest) = None.
Proof.
  intros Hs. revert t. induction p as [| a p IH]; intros t Hp.
  - destruct t; discriminate.
  - cbn [forallb] in Hp. apply andb_prop in Hp. destruct Hp as [Ha Hp].
    destruct t as [| b t].
    + intros _. cbn [app]. pose proof (stop_head rest a Hs Ha) as H.
      destruct rest as [| x rest]; [reflexivity |].
      cbn [prefix]. rewrite N.eqb_sym, H. reflexivity.
    + cbn [app prefix]. destruct (N.eqb a b); [apply IH; exact Hp | reflexivity].
Qed.

(** A constant or a number is read the same way whatever follows it in
    a document. *)
Lemma scan_atom_stop (t rest r : pystr) (v : pyval) :
  stop rest = true -> scan_atom t = Some (v, r) ->
  scan_atom (t ++ rest) = Some (v, r ++ rest).
Proof.
  intros Hs. unfold scan_atom.
  repeat match goal with
         | |- context [prefix ?p t] =>
             let E := fresh "E" in
             destruct (prefix p t) eqn:E;
             [ rewrite (prefix_app _ _ _ rest E);
               intros H; injection H as <- <-; reflexivity
             | rewrite (prefix_stop p t rest Hs eq_refl E) ]
         end.
  apply scan_number_stop; exact Hs.
Qed.

(** *** Integers *)

Lemma digits_val_app (a b : pystr) (acc : Z) :
  digits_val acc (a ++ b) = digits_val (digits_val acc a) b.
Proof. revert acc. induction a as [| c a IH]; intros acc; [reflexivity | apply IH]. Qed.

Lemma digit_char_zero (x : Z) : digit_char (x mod 10) = 48%N -> x mod 10 = 0.
Proof. intros H. pose proof (digit_char_code x) as E. rewrite H in E. lia. Qed.

Lemma dec_digits_spec (fuel : nat) :
  forall n acc, 0 <= n < 2 ^ Z.of_nat fuel -> (1 <= fuel)%nat ->
  exists ds, dec_digits fuel n acc = ds ++ acc /\ numeral ds n
             /\ (0 < n -> forall c tl, ds = c :: tl -> c <> 48%N).
Proof.
  induction fuel as [| f IH]; intros n acc Hn Hf; [lia |].
  cbn [dec_digits]. destruct (n <? 10) eqn:E10.
  - exists [digit_char (n mod 10)]. split; [reflexivity |].
    assert (Hmod : n mod 10 = n) by (apply Z.mod_small; lia).
    split; [split; [| split] |].
    + cbn. rewrite is_digit_digit_char. reflexivity.
    + cbn [digits_val]. rewrite digit_val_digit_char. lia.
    + eexists _, _. split; [reflexivity | reflexivity].
    + intros Hpos c tl Hc. injection Hc as <- _. intros H0.
      apply digit_char_zero in H0. lia.
  - assert (Hdiv : 1 <= n / 10 < 2 ^ Z.of_nat f).
    { split; [apply Z.div_le_lower_bound; lia |].
      apply Z.div_lt_upper_bound; [lia |].
      rewrite Nat2Z.inj_succ, Z.pow_succ_r in Hn by lia. lia. }
    assert (Hf1 : (1 <= f)%nat).
    { destruct f; [| lia]. cbn in Hdiv. lia. }
    destruct (IH (n / 10) (digit_char (n mod 10) :: acc) ltac:(lia) Hf1)
      as (ds & Eds & (Hall & Hval & (c & tl & Hc & Hc0)) & Hnz).
    exists (ds ++ [digit_char (n mod 10)]). split.
    { rewrite Eds, <- app_assoc. reflexivity. }
    assert (Hc48 : c <> 48%N) by (apply (Hnz ltac:(lia) c tl Hc)).
    split; [split; [| split] |].
    + rewrite forallb_app, Hall. cbn. rewrite is_digit_digit_char. reflexivity.
    + rewrite digits_val_app, Hval. cbn [digits_val].
      rewrite digit_val_digit_char.
      pose proof (Z.div_mod n 10 ltac:(lia)). lia.
    + exists c, (tl ++ [digit_char (n mod 10)]). rewrite Hc. split; [reflexivity |].
      intros H; contradiction.
    + intros _ c' tl' Hc'. rewrite Hc in Hc'. injection Hc' as <- _. exact Hc48.
Qed.

Lemma dec_nat_numeral (n : Z) : 0 <= n -> numeral (dec_nat n) n.
Proof.
  intros Hn. unfold dec_nat.
  destruct (dec_digits_spec (S (Z.to_nat (Z.log2 n))) n []) as (ds & E & H & _).
  - split; [lia |]. rewrite Nat2Z.inj_succ, Z2Nat.id by apply Z.log2_nonneg.
    destruct (Z.eq_dec n 0) as [-> | Hne]; [reflexivity |].
    apply Z.log2_spec. lia.
  - lia.
  - rewrite E, app_nil_r. exact H.
Qed.

Lemma span_all (p : N -> bool) (s : pystr) :
  forallb p s = true -> span p s = (s, []).
Proof.
  induction s as [| c s IH]; [reflexivity |]. cbn [forallb span].
  intros H. apply andb_prop in H. destruct H as [Hc Hs].
  rewrite Hc, (IH Hs). reflexivity.
Qed.

Lemma digit_cases (c : N) :
  is_digit c = true ->
  c = 48%N \/ c = 49%N \/ c = 50%N \/ c = 51%N \/ c = 52%N \/ c = 53%N
  \/ c = 54%N \/ c = 55%N \/ c = 56%N \/ c = 57%N.
Proof.
  unfold is_digit. intros H. apply andb_prop in H. destruct H as [H1 H2].
  apply N.leb_le in H1, H2. lia.
Qed.

Lemma scan_atom_numeral (ds : pystr) (n : Z) :
  numeral ds n ->
  scan_atom ds = Some (PInt n, []) /\ atom_head ds = true
  /\ scan_atom (45%N :: ds) = Some (PInt (- n), [])
  /\ term_head ds = true.
Proof.
  intros (Hall & Hval & (c & tl & -> & Hc0)).
  assert (Hc : is_digit c = true).
  { cbn [forallb] in Hall. apply andb_prop in Hall. tauto. }
  assert (Hsp := span_all is_digit (c :: tl) Hall).
  assert (Hint : scan_int_part (c :: tl) = Some (c :: tl, [])).
  { cbn [scan_int_part]. destruct (N.eqb_spec c 48) as [E | E].
    - rewrite (Hc0 E). reflexivity.
    - rewrite Hc, Hsp. reflexivity. }
  assert (Hnum : forall neg s, scan_sign s = (neg, c :: tl) ->
                 scan_number s
                 = Some (PInt (if neg then - n else n), [])).
  { intros neg s Hs. unfold scan_number. rewrite Hs, Hint.
    cbn [scan_frac scan_exp starts_with number_value]. rewrite Hval.
    reflexivity. }
  destruct (digit_cases c Hc) as [E | [E | [E | [E | [E | [E | [E | [E | [E | E]]]]]]]]];
    subst c; (split; [| split; [| split]]);
    try reflexivity;
    try (unfold scan_atom; cbn -[scan_number];
         first [apply (Hnum false) | apply (Hnum true)]; reflexivity);
    eauto.
Qed.

(** The numeral [json.dumps] writes for an [int] reads back as it. *)
Lemma scan_atom_dec (z : Z) :
  scan_atom (dec z) = Some (PInt z, []) /\ atom_head (dec z) = true
  /\ term_head (dec z) = true.
Proof.
  unfold dec. destruct (z <? 0) eqn:E.
  - destruct (scan_atom_numeral _ _ (dec_nat_numeral (- z) ltac:(lia)))
      as (_ & _ & H & _).
    rewrite H. replace (- - z) with z by lia. repeat split; reflexivity.
  - destruct (scan_atom_numeral _ _ (dec_nat_numeral z ltac:(lia)))
      as (H & Hh & _ & Ht).
    repeat split; assumption.
Qed.

(** *** Percentages *)

Lemma same_eq (x y : pyfloat) : same x y = true -> x = y.
Proof.
  destruct x as [a | a | | a m e], y as [b | b | | b n f]; cbn;
    try discriminate; try reflexivity.
  - intros H. apply Bool.eqb_prop in H. congruence.
  - intros H. apply Bool.eqb_prop in H. congruence.
  - intros H. repeat (apply andb_prop in H; destruct H as [H ?]).
    apply Bool.eqb_prop in H. apply Pos.eqb_eq in H1. apply Z.eqb_eq in H0.
    congruence.
Qed.

(** Checked on each of the 10001 percentages. *)
Lemma percents_read_back : forallb reads_back percents = true.
Proof. vm_compute. reflexivity. Qed.

Lemma scan_atom_percent (x : pyfloat) :
  is_percent x = true ->
  scan_atom (encode_float x) = Some (PFloat x, [])
  /\ atom_head (encode_float x) = true
  /\ term_head (encode_float x) = true.
Proof.
  unfold is_percent. intros H.
  apply existsb_exists in H. destruct H as (y & Hin & Hsame).
  apply same_eq in Hsame. subst y.
  pose proof percents_read_back as Hall.
  rewrite forallb_forall in Hall. specialize (Hall x Hin).
  unfold reads_back in Hall. cbv zeta in Hall.
  destruct (scan_atom (encode_float x)) as [[[] r] |]; try discriminate.
  destruct r; [| discriminate].
  apply andb_prop in Hall. destruct Hall as [Hall Ht].
  apply andb_prop in Hall. destruct Hall as [Hs Hh].
  apply same_eq in Hs. subst. split; [reflexivity | split; assumption].
Qed.

(** *** Terms *)

Lemma encode_list (l : list pyval) :
  encode (PList l) =
  match encode_items true l with
  | Some body => Some ([91%N] ++ body ++ [93%N])
  | None => None
  end.
Proof.
  cbn [encode].
  match goal with
  | |- match ?f true l with _ => _ end = _ =>
      assert (E : forall b l, f b l = encode_items b l)
  end.
  { intros b l0. revert b. induction l0 as [| x l0 IH]; intros b; [reflexivity |].
    cbn [encode_items]. rewrite <- (IH false). reflexivity. }
  rewrite E. reflexivity.
Qed.

Lemma encode_dict (d : list (pystr * pyval)) :
  encode (PDict d) =
  match encode_members true d with
  | Some body => Some ([123%N] ++ body ++ [125%N])
  | None => None
  end.
Proof.
  cbn [encode].
  match goal with
  | |- match ?f true d with _ => _ end = _ =>
      assert (E : forall b d, f b d = encode_members b d)
  end.
  { intros b d0. revert b.
    induction d0 as [| [k x] d0 IH]; intros b; [reflexivity |].
    cbn [encode_members]. rewrite <- (IH false). reflexivity. }
  rewrite E. reflexivity.
Qed.

Lemma pyval_induction (P : pyval -> Prop) :
  P PNone -> (forall b, P (PBool b)) -> (forall z, P (PInt z)) ->
  (forall x, P (PFloat x)) -> (forall s, P (PStr s)) ->
  (forall y m d, P (PDate y m d)) ->
  (forall l, Forall P l -> P (PList l)) ->
  (forall d, Forall (fun kv => P (snd kv)) d -> P (PDict d)) ->
  forall v, P v.
Proof.
  intros HNone HBool HInt HFloat HStr HDate HList HDict.
  fix IH 1. intros [| b | z | x | s | y m d | l | d].
  - exact HNone.
  - apply HBool.
  - apply HInt.
  - apply HFloat.
  - apply HStr.
  - apply HDate.
  - apply HList. revert l. fix IHl 1. intros [| x l]; constructor.
    + apply IH.
    + apply IHl.
  - apply HDict. revert d. fix IHd 1. intros [| [k x] d]; constructor.
    + apply IH.
    + apply IHd.
Qed.

Lemma term_head_nonempty (t : pystr) :
  term_head t = true -> (1 <= List.length t)%nat.
Proof. destruct t; [discriminate | cbn; lia]. Qed.

Lemma skip_ws_term (t r : pystr) :
  term_head t = true -> skip_ws (t ++ r) = t ++ r.
Proof.
  destruct t as [| c t]; [discriminate |]. cbn [term_head app skip_ws].
  intros H. apply andb_prop in H. destruct H as [H _].
  destruct (is_ws c); [discriminate | reflexivity].
Qed.

Lemma skip_ws_stop (r : pystr) : stop r = true -> skip_ws r = r.
Proof.
  destruct r as [| c r]; [reflexivity |]. cbn [stop skip_ws]. intros H.
  replace (is_ws c) with false; [reflexivity |].
  apply orb_prop in H. destruct H as [H | H];
    [apply orb_prop in H; destruct H as [H | H] |];
    apply N.eqb_eq in H; subst c; reflexivity.
Qed.

(** A constant or a number. *)
Lemma atom_reads_back (v : pyval) (t : pystr) :
  encode v = Some t -> size v = 1%nat -> scan_atom t = Some (v, []) ->
  atom_head t = true -> term_head t = true -> reads_back_as v t.
Proof.
  intros He Hsz Hs Ha Ht. split; [exact He |]. split; [exact Ht |].
  split; [rewrite Hsz; apply term_head_nonempty; exact Ht |].
  intros fuel rest Hf Hstop. rewrite Hsz in Hf.
  destruct fuel as [| f]; [lia |].
  destruct t as [| c t]; [discriminate |].
  cbn [app parse_value]. cbn [atom_head] in Ha.
  apply negb_true_iff in Ha.
  apply orb_false_elim in Ha. destruct Ha as [Ha H123].
  apply orb_false_elim in Ha. destruct Ha as [H34 H91].
  rewrite H34, H91, H123.
  change (c :: t ++ rest) with ((c :: t) ++ rest).
  rewrite (scan_atom_stop _ _ _ _ Hstop Hs). reflexivity.
Qed.

Lemma string_reads_back (s : pystr) :
  plain_str s = true -> reads_back_as (PStr s) (encode_string s).
Proof.
  intros Hp. rewrite (encode_string_plain s Hp).
  split; [cbn [encode]; rewrite (encode_string_plain s Hp); reflexivity |].
  split; [reflexivity |]. split; [cbn; lia |].
  intros fuel rest Hf _. destruct fuel as [| f]; [cbn in Hf; lia |].
  cbn [app parse_value]. change (N.eqb 34 34) with true. cbv iota.
  rewrite <- app_assoc. cbn [app].
  rewrite (scanstring_plain s rest Hp). reflexivity.
Qed.

(** The terms of a non-empty array, up to the closing bracket. *)
Lemma items_read_back (l : list pyval) :
  Forall (fun x => exists t, reads_back_as x t) l -> l <> [] ->
  forall first, exists body,
    encode_items first l
    = Some ((if first then [] else [44%N; 32%N]) ++ body)
    /\ term_head body = true
    /\ (items_size l <= S (List.length body))%nat
    /\ forall fuel rest, (items_size l <= fuel)%nat ->
       parse_items fuel (body ++ 93%N :: rest) = Some (l, rest).
Proof.
  induction 1 as [| x l (a & He & Ht & Hlen & Hp) Hl IH]; [congruence |].
  intros _ first. destruct l as [| y l'].
  - exists a. cbn [encode_items]. rewrite He, app_nil_r.
    split; [reflexivity |]. split; [exact Ht |].
    split; [cbn; lia |].
    intros fuel rest Hf. cbn [items_size fold_right] in Hf.
    destruct fuel as [| f]; [lia |]. cbn [parse_items].
    rewrite (Hp f (93%N :: rest)) by (try reflexivity; lia).
    reflexivity.
  - destruct (IH ltac:(discriminate) false) as (b & Hb & Hbt & Hblen & Hbp).
    exists (a ++ 44%N :: 32%N :: b). cbn [encode_items].
    cbn [encode_items] in Hb. rewrite He, Hb.
    split; [reflexivity |].
    split; [destruct a; [discriminate | exact Ht] |].
    split.
    { change (items_size (x :: y :: l'))
        with (S (size x + items_size (y :: l'))).
      rewrite length_app. cbn [List.length]. lia. }
    intros fuel rest Hf.
    change (items_size (x :: y :: l'))
      with (S (size x + items_size (y :: l'))) in Hf.
    destruct fuel as [| f]; [lia |]. cbn [parse_items].
    rewrite <- app_assoc. cbn [app].
    rewrite (Hp f (44%N :: 32%N :: b ++ 93%N :: rest))
      by (try reflexivity; lia).
    cbn [skip_ws is_ws N.eqb Pos.eqb orb starts_with].
    rewrite (skip_ws_term b _ Hbt).
    rewrite (Hbp f rest) by lia. reflexivity.
Qed.

Lemma members_read_back (d : list (pystr * pyval)) :
  Forall (fun kv => plain_str (fst kv) = true
                    /\ exists t, reads_back_as (snd kv) t) d ->
  d <> [] ->
  forall first, exists body,
    encode_members first d
    = Some ((if first then [] else [44%N; 32%N]) ++ body)
    /\ term_head body = true
    /\ (members_size d <= S (List.length body))%nat
    /\ forall fuel rest, (members_size d <= fuel)%nat ->
       parse_members fuel (body ++ 125%N :: rest) = Some (d, rest).
Proof.
  induction 1 as [| [k x] d (Hk & a & He & Ht & Hlen & Hp) Hd IH]; [congruence |].
  intros _ first. cbn [fst snd] in *. destruct d as [| [k2 y] d'].
  - exists (encode_string k ++ 58%N :: 32%N :: a). cbn [encode_members].
    rewrite He, app_nil_r.
    split; [reflexivity |].
    split; [reflexivity |].
    split; [cbn [members_size fold_right snd]; rewrite length_app; cbn; lia |].
    intros fuel rest Hf. cbn [members_size fold_right snd] in Hf.
    destruct fuel as [| f]; [lia |].
    rewrite (encode_string_plain k Hk).
    cbn [app parse_members starts_with N.eqb Pos.eqb].
    rewrite <- !app_assoc. cbn [app].
    rewrite (scanstring_plain k _ Hk).
    cbn [skip_ws is_ws N.eqb Pos.eqb orb starts_with].
    rewrite (skip_ws_term a _ Ht).
    rewrite (Hp f (125%N :: rest)) by (try reflexivity; lia).
    reflexivity.
  - destruct (IH ltac:(discriminate) false) as (b & Hb & Hbt & Hblen & Hbp).
    exists (encode_string k ++ 58%N :: 32%N :: a ++ 44%N :: 32%N :: b).
    cbn [encode_members]. cbn [encode_members] in Hb. rewrite He, Hb.
    split; [reflexivity |].
    split; [reflexivity |].
    split.
    { change (members_size ((k, x) :: (k2, y) :: d'))
        with (S (size x + members_size ((k2, y) :: d'))).
      rewrite !length_app. cbn [List.length]. rewrite length_app.
      cbn [List.length]. lia. }
    intros fuel rest Hf.
    change (members_size ((k, x) :: (k2, y) :: d'))
      with (S (size x + members_size ((k2, y) :: d'))) in Hf.
    destruct fuel as [| f]; [lia |].
    rewrite (encode_string_plain k Hk).
    cbn [app parse_members starts_with N.eqb Pos.eqb].
    rewrite <- !app_assoc. cbn [app].
    rewrite (scanstring_plain k _ Hk).
    cbn [skip_ws is_ws N.eqb Pos.eqb orb starts_with].
    rewrite <- app_assoc. cbn [app].
    rewrite (skip_ws_term a _ Ht).
    rewrite (Hp f (44%N :: 32%N :: b ++ 125%N :: rest))
      by (try reflexivity; lia).
    cbn [skip_ws is_ws N.eqb Pos.eqb orb starts_with].
    rewrite (skip_ws_term b _ Hbt).
    rewrite (Hbp f rest) by lia. reflexivity.
Qed.

(** *** Dicts with distinct keys *)

Lemma dict_set_new {A} (d : list (pystr * A)) (k : pystr) (v : A) :
  existsb (fun k' => pystr_eqb k' k) (map fst d) = false ->
  dict_set d k v = d ++ [(k, v)].
Proof.
  induction d as [| [k' v'] d IH]; [reflexivity |].
  cbn [map fst existsb dict_set app]. intros H.
  apply orb_false_elim in H. destruct H as [Hk Hd].
  rewrite Hk, (IH Hd). reflexivity.
Qed.

Lemma distinct_app (a : list pystr) (k : pystr) (b : list pystr) :
  distinct (a ++ k :: b) = true ->
  existsb (fun k' => pystr_eqb k' k) a = false
  /\ distinct ((a ++ [k]) ++ b) = true.
Proof.
  intros H. split.
  - induction a as [| x a IH]; [reflexivity |].
    cbn [app distinct existsb] in *.
    apply andb_prop in H. destruct H as [Hx Ha].
    rewrite (IH Ha), orb_false_r.
    apply negb_true_iff in Hx. rewrite existsb_app in Hx.
    apply orb_false_elim in Hx. destruct Hx as [_ Hx].
    cbn [existsb] in Hx. apply orb_false_elim in Hx. tauto.
  - rewrite <- app_assoc. exact H.
Qed.

Lemma fold_dict_set {A} (d acc : list (pystr * A)) :
  distinct (map fst acc ++ map fst d) = true ->
  fold_left (fun a kv => dict_set a (fst kv) (snd kv)) d acc = acc ++ d.
Proof.
  revert acc. induction d as [| [k v] d IH]; intros acc H.
  - rewrite app_nil_r. reflexivity.
  - cbn [fold_left fst snd map] in *.
    destruct (distinct_app _ _ _ H) as [Hnew Hrest].
    rewrite (dict_set_new acc k v Hnew).
    rewrite IH.
    + rewrite <- app_assoc. reflexivity.
    + rewrite map_app. exact Hrest.
Qed.

Lemma dict_of_pairs_distinct {A} (d : list (pystr * A)) :
  distinct (map fst d) = true -> dict_of_pairs d = d.
Proof. intros H. unfold dict_of_pairs. rewrite fold_dict_set; [reflexivity | exact H]. Qed.

(** *** The round trip *)

(** [json.loads] reads back every plain value from the text
    [json.dumps] writes for it. *)
Lemma plain_reads_back (v : pyval) :
  plain v = true -> exists t, reads_back_as v t.
Proof.
  induction v as [| b | z | x | s | y m d | l IH | d IH] using pyval_induction;
    intros Hp.
  - exists (str "null"). apply atom_reads_back; reflexivity.
  - destruct b; [exists (str "true") | exists (str "false")];
      apply atom_reads_back; reflexivity.
  - exists (dec z). destruct (scan_atom_dec z) as (Hs & Ha & Ht).
    apply atom_reads_back; auto.
  - cbn [plain] in Hp. exists (encode_float x).
    destruct (scan_atom_percent x Hp) as (Hs & Ha & Ht).
    apply atom_reads_back; auto.
  - exists (encode_string s). apply string_reads_back. exact Hp.
  - discriminate.
  - cbn [plain] in Hp. rewrite forallb_forall in Hp.
    assert (Hall : Forall (fun x => exists t, reads_back_as x t) l).
    { rewrite Forall_forall in *. intros x Hx. apply (IH x Hx), Hp, Hx. }
    destruct l as [| x l].
    + exists (str "[]"). split; [reflexivity |]. split; [reflexivity |].
      split; [cbn; lia |].
      intros fuel rest Hf _. destruct fuel; [cbn in Hf; lia | reflexivity].
    + destruct (items_read_back (x :: l) Hall ltac:(discriminate) true)
        as (body & He & Ht & Hlen & Hparse).
      exists (91%N :: body ++ [93%N]). split; [| split; [| split]].
      * rewrite encode_list, He. reflexivity.
      * reflexivity.
      * change (size (PList (x :: l))) with (S (items_size (x :: l))).
        cbn [List.length]. rewrite length_app. cbn [List.length]. lia.
      * intros fuel rest Hf _.
        change (size (PList (x :: l))) with (S (items_size (x :: l))) in Hf.
        destruct fuel as [| f]; [lia |].
        cbn [app parse_value N.eqb Pos.eqb].
        rewrite <- app_assoc. cbn [app].
        rewrite (skip_ws_term body _ Ht).
        destruct body as [| c body]; [discriminate |].
        cbn [app starts_with]. cbn [term_head] in Ht.
        apply andb_prop in Ht. destruct Ht as [_ Hin].
        unfold inner_char in Hin. apply negb_true_iff in Hin.
        apply orb_false_elim in Hin. destruct Hin as [Hin _].
        apply orb_false_elim in Hin. destruct Hin as [_ H93].
        rewrite H93.
        change (c :: body ++ 93%N :: rest) with ((c :: body) ++ 93%N :: rest).
        rewrite (Hparse f rest) by lia. reflexivity.
  - cbn [plain] in Hp. apply andb_prop in Hp. destruct Hp as [Hp Hk].
    rewrite forallb_forall in Hp.
    assert (Hall : Forall (fun kv => plain_str (fst kv) = true
                           /\ exists t, reads_back_as (snd kv) t) d).
    { rewrite Forall_forall in *. intros kv Hkv.
      specialize (Hp kv Hkv). apply andb_prop in Hp. destruct Hp as [H1 H2].
      split; [exact H1 | apply (IH kv Hkv), H2]. }
    destruct d as [| kv d].
    + exists (str "{}"). split; [reflexivity |]. split; [reflexivity |].
      split; [cbn; lia |].
      intros fuel rest Hf _. destruct fuel; [cbn in Hf; lia | reflexivity].
    + destruct (members_read_back (kv :: d) Hall ltac:(discriminate) true)
        as (body & He & Ht & Hlen & Hparse).
      exists (123%N :: body ++ [125%N]). split; [| split; [| split]].
      * rewrite encode_dict, He. reflexivity.
      * reflexivity.
      * change (size (PDict (kv :: d))) with (S (members_size (kv :: d))).
        cbn [List.length]. rewrite length_app. cbn [List.length]. lia.
      * intros fuel rest Hf _.
        change (size (PDict (kv :: d))) with (S (members_size (kv :: d))) in Hf.
        destruct fuel as [| f]; [lia |].
        cbn [app parse_value N.eqb Pos.eqb].
        rewrite <- app_assoc. cbn [app].
        rewrite (skip_ws_term body _ Ht).
        destruct body as [| c body]; [discriminate |].
        cbn [app starts_with]. cbn [term_head] in Ht.
        apply andb_prop in Ht. destruct Ht as [_ Hin].
        unfold inner_char in Hin. apply negb_true_iff in Hin.
        apply orb_false_elim in Hin. destruct Hin as [_ H125].
        rewrite H125.
        change (c :: body ++ 125%N :: rest) with ((c :: body) ++ 125%N :: rest).
        rewrite (Hparse f rest) by lia.
        rewrite (dict_of_pairs_distinct _ Hk). reflexivity.
Qed.

(** [json.loads(json.dumps(v)) = v] for a plain value. *)
Lemma decode_encode (v : pyval) :
  plain v = true -> exists t, encode v = Some t /\ decode t = Some v.
Proof.
  intros Hp. destruct (plain_reads_back v Hp) as (t & He & Ht & Hlen & Hparse).
  exists t. split; [exact He |]. unfold decode.
  rewrite <- (app_nil_r t) at 2. rewrite (skip_ws_term t [] Ht).
  rewrite (Hparse (S (List.length t)) []) by (try reflexivity; lia).
  reflexivity.
Qed.

End JsonFacts.

(** ** The refresh *)

Module RefreshFacts.
Import Text Py PyFloat Calendar Datetime Json Db Dash Obs.
Import FloatFacts DatetimeFacts JsonFacts.

Lemma bind_ok {S A B} (m : M S A) (k : A -> M S B) (s s' : S) (a : A) :
  m s = (Ok a, s') -> bind m k s = k a s'.
Proof. intros H. unfold bind. rewrite H. reflexivity. Qed.

Lemma bind_raise {S A B} (m : M S A) (k : A -> M S B) (s s' : S) (x : exn) :
  m s = (Raise x, s') -> bind m k s = (Raise x, s').
Proof. intros H. unfold bind. rewrite H. reflexivity. Qed.

Lemma stringify_hour (l : list (pystr * Z)) :
  stringify (str "hour")
    (map (fun kn => [(str "hour", CStr (fst kn)); (str "count", CInt (snd kn))]) l)
  = Ok (map (fun kn => [(str "hour", CStr (fst kn)); (str "count", CInt (snd kn))]) l).
Proof.
  induction l as [| kn l IH]; [reflexivity |].
  cbn [map stringify]. rewrite IH. reflexivity.
Qed.

Lemma stringify_date (l : list (Z * Z * Z * Z)) :
  stringify (str "date")
    (map (fun kn => let '(y, m, d) := fst kn in
                    [(str "date", CDate y m d); (str "count", CInt (snd kn))]) l)
  = Ok (map (fun kn => let '(y, m, d) := fst kn in
                       [(str "date", CStr (date_isoformat y m d));
                        (str "count", CInt (snd kn))]) l).
Proof.
  induction l as [| [[[y m] d] n] l IH]; [reflexivity |].
  cbn [map stringify]. rewrite IH. reflexivity.
Qed.

(** *** The rate *)

Lemma same_refl (x : pyfloat) : same x x = true.
Proof.
  destruct x as [s | s | | s m e]; cbn; try reflexivity;
    try (destruct s; reflexivity).
  rewrite Pos.eqb_refl, Z.eqb_refl. destruct s; reflexivity.
Qed.

Lemma percent_is_percent (n : Z) :
  0 <= n <= 10000 -> is_percent (nearest_double false n 100) = true.
Proof.
  intros Hn. unfold is_percent. apply existsb_exists.
  exists (nearest_double false n 100). split; [| apply same_refl].
  unfold percents. apply in_map_iff. exists (Z.to_nat n). split.
  - rewrite Z2Nat.id by lia. reflexivity.
  - apply in_seq. lia.
Qed.

Lemma migrated_le_total (e : env) : 0 <= migrated_count e <= total_count e.
Proof.
  unfold migrated_count, total_count.
  pose proof (filter_length_le migrated (users e)). lia.
Qed.

(** The rate is the integer 0 for an empty table and otherwise a
    percentage with two decimals, as a float; no exception is raised. *)
Lemma migration_rate_value (m t : Z) :
  0 <= m <= t ->
  (t = 0 /\ migration_rate m t = Ok (PInt 0))
  \/ (0 < t /\ exists n, 0 <= n <= 10000
               /\ migration_rate m t = Ok (PFloat (nearest_double false n 100))
               /\ Z.abs (n * t - 10000 * m) * 2 ^ 53
                  <= t * (2 ^ 52 + 22800)).
Proof.
  intros Hm. unfold migration_rate. destruct (0 <? t) eqn:Et.
  - right. split; [lia |].
    destruct (rate_hundredths m t Hm ltac:(lia))
      as (q & p & n & Hq & Hp & Hr & Hn & Herr).
    exists n. split; [exact Hn |]. split; [| exact Herr].
    rewrite Hq. cbn [rbind]. rewrite Hp. cbn [rbind]. rewrite Hr. reflexivity.
  - left. split; [lia | reflexivity].
Qed.

Lemma migration_rate_plain (m t : Z) :
  0 <= m <= t -> exists rate, migration_rate m t = Ok rate /\ plain rate = true.
Proof.
  intros Hm.
  destruct (migration_rate_value m t Hm) as [[_ H] | [_ (n & Hn & H & _)]].
  - exists (PInt 0). split; [exact H | reflexivity].
  - eexists. split; [exact H |]. cbn [plain]. apply percent_is_percent, Hn.
Qed.

(** *** The snapshot is a plain value *)

Lemma plain_digit (x : Z) : plain_char (digit_char (x mod 10)) = true.
Proof.
  unfold plain_char. pose proof (digit_char_code x) as E.
  pose proof (Z.mod_pos_bound x 10 ltac:(lia)) as Hb.
  replace (N.leb 32 (digit_char (x mod 10))) with true
    by (symmetry; apply N.leb_le; lia).
  replace (N.leb (digit_char (x mod 10)) 126) with true
    by (symmetry; apply N.leb_le; lia).
  rewrite !digit_char_neq by lia. reflexivity.
Qed.

Lemma plain_zpad (k : nat) (z : Z) : plain_str (zpad k z) = true.
Proof.
  revert z. induction k as [| k IH]; intros z; [reflexivity |].
  cbn [zpad]. unfold plain_str. rewrite forallb_app. cbn [forallb].
  rewrite plain_digit. fold (plain_str (zpad k (z / 10))). rewrite IH.
  reflexivity.
Qed.

Lemma plain_str_app (a b : pystr) :
  plain_str (a ++ b) = (plain_str a && plain_str b)%bool.
Proof. apply forallb_app. Qed.

Lemma plain_date_isoformat (y m d : Z) : plain_str (date_isoformat y m d) = true.
Proof.
  unfold date_isoformat. rewrite !plain_str_app, !plain_zpad. reflexivity.
Qed.

Lemma plain_hour_bucket (t : sqltime) : plain_str (hour_bucket t) = true.
Proof.
  unfold hour_bucket. rewrite !plain_str_app, !plain_zpad. reflexivity.
Qed.

Lemma plain_isoformat_now (r : datetime) :
  plain_str (isoformat (datetime_now r)) = true.
Proof.
  unfold isoformat, datetime_now.
  cbn [year month day hour minute second microsecond tzinfo].
  rewrite !plain_str_app, plain_date_isoformat, !plain_zpad.
  destruct (microsecond r =? 0); [reflexivity |].
  rewrite plain_str_app, plain_zpad. reflexivity.
Qed.

Lemma group_count_keys {K} (cmp : K -> K -> comparison) (P : K -> Prop)
  (keys : list K) :
  Forall P keys -> Forall (fun kn => P (fst kn)) (group_count cmp keys).
Proof.
  unfold group_count.
  assert (Hb : forall k l, P k -> Forall (fun kn => P (fst kn)) l ->
                           Forall (fun kn => P (fst kn)) (bump cmp k l)).
  { intros k l Hk. induction 1 as [| [k' n] l Hk' Hl IH]; cbn [bump].
    - constructor; [exact Hk | constructor].
    - destruct (cmp k k'); repeat constructor; auto. }
  assert (Hf : forall keys acc, Forall P keys ->
                 Forall (fun kn => P (fst kn)) acc ->
                 Forall (fun kn => P (fst kn))
                        (fold_left (fun a k => bump cmp k a) keys acc)).
  { induction keys0 as [| k keys0 IH]; intros acc Hk Ha; [exact Ha |].
    inversion Hk; subst. cbn [fold_left]. apply IH; [assumption |].
    apply Hb; assumption. }
  intros H. apply Hf; [exact H | constructor].
Qed.

Lemma plain_hourly (e : env) :
  forallb plain (map row_value (hourly_series e)) = true.
Proof.
  unfold hourly_series.
  set (keys := map hour_bucket _).
  assert (Hk : Forall (fun k => plain_str k = true) keys).
  { unfold keys. apply Forall_forall. intros k Hin.
    apply in_map_iff in Hin. destruct Hin as (t & <- & _).
    apply plain_hour_bucket. }
  pose proof (group_count_keys pystr_compare _ keys Hk) as Hg.
  induction Hg as [| [k n] l Hkn Hl IH]; [reflexivity |].
  cbn [map forallb]. rewrite IH. cbn [fst] in Hkn.
  cbn [row_value map fst snd cell_value plain forallb]. rewrite Hkn.
  reflexivity.
Qed.

Lemma plain_daily (e : env) :
  forallb plain (map row_value (daily_series e)) = true.
Proof.
  unfold daily_series.
  generalize (group_count date_compare
                (map day_bucket
                   (times_of (filter (migrated_since (db_now e) 604800) (users e))))).
  induction l as [| [[[y m] d] n] l IH]; [reflexivity |].
  cbn [map forallb]. rewrite IH.
  cbn [row_value map fst snd cell_value plain forallb].
  rewrite plain_date_isoformat. reflexivity.
Qed.

Lemma snapshot_plain (e : env) (rate : pyval) :
  plain rate = true -> plain (snapshot e rate) = true.
Proof.
  intros Hr. unfold snapshot, make_stats.
  cbn [plain forallb fst snd map].
  rewrite Hr, plain_hourly, plain_daily, plain_isoformat_now. reflexivity.
Qed.

(** *** Running the refresh *)

Lemma run_hourly (e : env) :
  stringify (str "hour") (run_query (users e) (db_now e) QHourly)
  = Ok (hourly_series e).
Proof. apply stringify_hour. Qed.

Lemma run_daily (e : env) :
  stringify (str "date") (run_query (users e) (db_now e) QDaily)
  = Ok (daily_series e).
Proof. apply stringify_date. Qed.

Lemma pystr_eqb_refl (a : pystr) : pystr_eqb a a = true.
Proof. induction a as [| c a IH]; [reflexivity |]. cbn. rewrite N.eqb_refl. exact IH. Qed.

Lemma dict_get_head {A} (k : pystr) (v : A) (d : list (pystr * A)) :
  dict_get ((k, v) :: d) k = Some v.
Proof. cbn [dict_get]. rewrite pystr_eqb_refl. reflexivity. Qed.

(** One statement at a time. *)
Ltac prim :=
  unfold on_world, get_db_connection, set_conn, new_cursor, set_cursor,
    execute, fetchone_item, fetchall, eval, ret, open_truncate, write_text,
    get_cursor, get_conn, close_cursor, close_conn, log;
  cbn [fst snd cache_file open_conns open_cursors db_log conn cursor
       cursor_rows run_query].

Ltac step_with tac :=
  erewrite bind_ok; [cbv beta | prim; tac; reflexivity].

Ltac step := step_with idtac.

Lemma refresh_body_no_fault (e : env) (w : world) (rate : pyval) (text : pystr) :
  no_fault e ->
  migration_rate (migrated_count e) (total_count e) = Ok rate ->
  encode (snapshot e rate) = Some text ->
  refresh_body e (w, mkFrame None None [])
  = (Ok (snapshot e rate), body_end e w text).
Proof.
  intros (Hc & Hx & Hw) Hr He. unfold refresh_body.
  step_with ltac:(rewrite Hc).
  step. step. step.
  step_with ltac:(rewrite Hx).
  step_with ltac:(rewrite dict_get_head).
  step_with ltac:(rewrite Hx).
  step_with ltac:(rewrite dict_get_head).
  step_with ltac:(rewrite Hx).
  step.
  step_with ltac:(rewrite stringify_hour).
  step_with ltac:(rewrite Hx).
  step.
  step_with ltac:(rewrite stringify_date).
  step. step.
  step_with ltac:(fold (total_count e); fold (migrated_count e); rewrite Hr).
  cbv zeta.
  step_with ltac:(rewrite Hw).
  fold (total_count e). fold (migrated_count e).
  fold (hourly_series e). fold (daily_series e).
  fold (snapshot e rate).
  step_with ltac:(unfold json_dumps; rewrite He).
  step.
  reflexivity.
Qed.

Lemma refresh_finally_bound (w : world) (rows : list row) :
  refresh_finally (w, mkFrame (Some tt) (Some tt) rows)
  = (Ok tt,
     (mkWorld (cache_file w) (Nat.pred (open_conns w))
              (Nat.pred (open_cursors w))
              (EvCloseConn :: EvCloseCursor :: db_log w),
      mkFrame (Some tt) (Some tt) rows)).
Proof. unfold refresh_finally. step. step. step. reflexivity. Qed.

Lemma refresh_finally_unbound (w : world) (c : option unit) (rows : list row) :
  refresh_finally (w, mkFrame c None rows)
  = (Raise UnboundLocalError, (w, mkFrame c None rows)).
Proof. reflexivity. Qed.

(** Without a fault the refresh returns the snapshot of the database
    state, leaves its text in the cache file, and closes what it
    opened. *)
Lemma refresh_no_fault (e : env) (w : world) :
  no_fault e ->
  exists rate text,
    migration_rate (migrated_count e) (total_count e) = Ok rate
    /\ plain rate = true
    /\ encode (snapshot e rate) = Some text
    /\ decode text = Some (snapshot e rate)
    /\ refresh e w
       = (Ok (snapshot e rate),
          mkWorld (Some text) (open_conns w) (open_cursors w)
                  (refresh_calls ++ db_log w)).
Proof.
  intros Hnf.
  destruct (migration_rate_plain _ _ (migrated_le_total e)) as (rate & Hr & Hp).
  destruct (decode_encode _ (snapshot_plain e rate Hp)) as (text & He & Hd).
  exists rate, text. split; [exact Hr |]. split; [exact Hp |].
  split; [exact He |]. split; [exact Hd |].
  unfold refresh, in_frame, try_finally.
  rewrite (refresh_body_no_fault e w rate text Hnf Hr He).
  unfold body_end. rewrite refresh_finally_bound. reflexivity.
Qed.

(** *** Buckets *)

Lemma bump_positive {K} (cmp : K -> K -> comparison) (k : K)
  (l : list (K * Z)) :
  Forall (fun kn => 1 <= snd kn) l ->
  Forall (fun kn => 1 <= snd kn) (bump cmp k l).
Proof.
  induction l as [| [k' n] l IH]; intros H; cbn [bump].
  - constructor; [cbn; lia | constructor].
  - inversion H as [| x y Hn Hl]; subst. cbn [snd] in Hn.
    destruct (cmp k k').
    + constructor; [cbn; lia | exact Hl].
    + constructor; [cbn; lia | exact H].
    + constructor; [exact Hn | apply IH, Hl].
Qed.

(** A group exists only for a key that occurs: every count is at
    least 1. *)
Lemma group_count_positive {K} (cmp : K -> K -> comparison) (keys : list K) :
  Forall (fun kn => 1 <= snd kn) (group_count cmp keys).
Proof.
  unfold group_count.
  assert (G : forall acc, Forall (fun kn : K * Z => 1 <= snd kn) acc ->
              Forall (fun kn => 1 <= snd kn)
                     (fold_left (fun acc k => bump cmp k acc) keys acc)).
  { induction keys as [| k keys IH]; intros acc Hacc; cbn [fold_left].
    - exact Hacc.
    - apply IH, bump_positive, Hacc. }
  apply G. constructor.
Qed.

Ltac fail_with tac :=
  erewrite bind_raise; [| prim; tac; reflexivity].

(** When the connection cannot be opened, the [finally] clause finds
    [cursor] unbound: the refresh ends in [UnboundLocalError]. *)
Lemma refresh_connect_fails (e : env) (w : world) :
  connect_fails e = true ->
  refresh e w
  = (Raise UnboundLocalError,
     mkWorld (cache_file w) (open_conns w) (open_cursors w)
             (EvConnect :: db_log w)).
Proof.
  intros Hc. unfold refresh, in_frame, try_finally, refresh_body.
  fail_with ltac:(rewrite Hc). reflexivity.
Qed.

(** When a statement fails, its exception reaches the caller after the
    [finally] clause has closed the cursor and the connection; the cache
    file is as it was. *)
Lemma refresh_query_fails (e : env) (w : world) (q : query) :
  connect_fails e = false -> first_failure e = Some q ->
  refresh e w = (Raise DatabaseError, after_failed_query w q).
Proof.
  intros Hc. unfold first_failure.
  destruct (execute_fails e QTotal) eqn:E1;
    [| destruct (execute_fails e QMigrated) eqn:E2;
       [| destruct (execute_fails e QHourly) eqn:E3;
          [| destruct (execute_fails e QDaily) eqn:E4; [| discriminate]]]];
    intros H; injection H as <-;
    unfold refresh, in_frame, try_finally, refresh_body;
    step_with ltac:(rewrite Hc); step; step; step.
  - fail_with ltac:(rewrite E1).
    rewrite refresh_finally_bound. reflexivity.
  - step_with ltac:(rewrite E1). step_with ltac:(rewrite dict_get_head).
    fail_with ltac:(rewrite E2).
    rewrite refresh_finally_bound. reflexivity.
  - step_with ltac:(rewrite E1). step_with ltac:(rewrite dict_get_head).
    step_with ltac:(rewrite E2). step_with ltac:(rewrite dict_get_head).
    fail_with ltac:(rewrite E3).
    rewrite refresh_finally_bound. reflexivity.
  - step_with ltac:(rewrite E1). step_with ltac:(rewrite dict_get_head).
    step_with ltac:(rewrite E2). step_with ltac:(rewrite dict_get_head).
    step_with ltac:(rewrite E3). step.
    step_with ltac:(rewrite stringify_hour).
    fail_with ltac:(rewrite E4).
    rewrite refresh_finally_bound. reflexivity.
Qed.

(** When only the cache file cannot be opened for writing, [OSError]
    reaches the caller after the [finally] clause. *)
Lemma refresh_write_fails (e : env) (w : world) :
  connect_fails e = false -> first_failure e = None -> write_fails e = true ->
  refresh e w
  = (Raise OSError,
     mkWorld (cache_file w) (open_conns w) (open_cursors w)
             (refresh_calls ++ db_log w)).
Proof.
  intros Hc Hq Hw. unfold first_failure in Hq.
  destruct (execute_fails e QTotal) eqn:E1; [discriminate |].
  destruct (execute_fails e QMigrated) eqn:E2; [discriminate |].
  destruct (execute_fails e QHourly) eqn:E3; [discriminate |].
  destruct (execute_fails e QDaily) eqn:E4; [discriminate |].
  destruct (migration_rate_plain _ _ (migrated_le_total e)) as (rate & Hr & Hp).
  unfold refresh, in_frame, try_finally, refresh_body.
  step_with ltac:(rewrite Hc). step. step. step.
  step_with ltac:(rewrite E1). step_with ltac:(rewrite dict_get_head).
  step_with ltac:(rewrite E2). step_with ltac:(rewrite dict_get_head).
  step_with ltac:(rewrite E3). step.
  step_with ltac:(rewrite stringify_hour).
  step_with ltac:(rewrite E4). step.
  step_with ltac:(rewrite stringify_date).
  step. step.
  step_with ltac:(fold (total_count e); fold (migrated_count e); rewrite Hr).
  cbv zeta.
  fail_with ltac:(rewrite Hw).
  rewrite refresh_finally_bound. reflexivity.
Qed.

Lemma no_first_failure (e : env) :
  first_failure e = None -> forall q, execute_fails e q = false.
Proof.
  unfold first_failure.
  destruct (execute_fails e QTotal) eqn:E1; [discriminate |].
  destruct (execute_fails e QMigrated) eqn:E2; [discriminate |].
  destruct (execute_fails e QHourly) eqn:E3; [discriminate |].
  destruct (execute_fails e QDaily) eqn:E4; [discriminate |].
  intros _ []; assumption.
Qed.

(** Every way the refresh can end. *)
Lemma refresh_outcomes (e : env) (w : world) :
  let w' := snd (refresh e w) in
  open_conns w' = open_conns w /\ open_cursors w' = open_cursors w
  /\ (cache_file w' = cache_file w
      \/ exists rate, fst (refresh e w) = Ok (snapshot e rate)).
Proof.
  destruct (connect_fails e) eqn:Hc.
  { rewrite (refresh_connect_fails e w Hc). cbn. auto. }
  destruct (first_failure e) as [q |] eqn:Hq.
  { rewrite (refresh_query_fails e w q Hc Hq). cbn. auto. }
  destruct (write_fails e) eqn:Hw.
  { rewrite (refresh_write_fails e w Hc Hq Hw). cbn. auto. }
  destruct (refresh_no_fault e w) as (rate & text & _ & _ & _ & _ & H).
  { split; [exact Hc |]. split; [apply no_first_failure, Hq | exact Hw]. }
  rewrite H. cbn. eauto.
Qed.

End RefreshFacts.

(* ================================================================= *)
(** ** The staleness check, case by case *)

Module CacheFacts.
Import Text Py PyFloat Datetime Json Db Dash Obs.

(** The [try] block of [should_update_cache]. *)
Lemma should_update_cache_present (e : env) (w : world) (text : pystr) :
  cache_file w = Some text ->
  should_update_cache e w
  = try_except
      (cache <- eval (json_loads text) ;;
       field <- eval (py_get cache (str "last_update") (PStr [])) ;;
       last_update <- eval (py_fromisoformat field) ;;
       td <- eval (py_datetime_sub (datetime_now (now_check e)) last_update) ;;
       secs <- eval (total_seconds td) ;;
       ret (gt_int secs cache_duration))
      cache_errors (ret true) w.
Proof.
  intros H. unfold should_update_cache. unfold bind at 1.
  unfold path_exists. rewrite H. cbn [negb]. unfold try_except.
  unfold bind at 1. unfold read_text. rewrite H. reflexivity.
Qed.

Lemma stale_absent (e : env) (w : world) :
  cache_file w = None -> should_update_cache e w = (Ok true, w).
Proof.
  intros H. unfold should_update_cache, bind, path_exists. rewrite H.
  reflexivity.
Qed.

Lemma stale_unparseable (e : env) (w : world) (text : pystr) :
  cache_file w = Some text -> decode text = None ->
  should_update_cache e w = (Ok true, w).
Proof.
  intros H D. rewrite (should_update_cache_present e w text H).
  unfold try_except, bind, eval, json_loads. rewrite D. reflexivity.
Qed.





Lemma cache_timestamp_inv (text : pystr) (t : datetime) :
  cache_timestamp text = Some t ->
  exists d s, decode text = Some (PDict d)
              /\ dict_get d (str "last_update") = Some (PStr s)
              /\ fromisoformat s = Some t.
Proof.
  unfold cache_timestamp. intros H.
  destruct (decode text) as [[| | | | | | |d] |]; try discriminate.
  destruct (dict_get d (str "last_update")) as [[| | | |s | | |] |] eqn:G;
    try discriminate.
  exists d, s. repeat split; assumption.
Qed.


(** A timestamp without offset: the check compares the microseconds
    elapsed with 300 seconds. *)
Lemma checks_naive (e : env) (w : world) (text : pystr) (t : datetime) :
  cache_file w = Some text -> cache_timestamp text = Some t ->
  naive t = true -> valid (datetime_now (now_check e)) = true ->
  should_update_cache e w = (Ok (300000000 <? elapsed_us e t), w).
Proof.
  intros H C N V. destruct (cache_timestamp_inv text t C) as (d & s & D & G & F).
  pose proof (DatetimeFacts.fromisoformat_valid s t F) as Vt.
  pose proof (DatetimeFacts.wall_us_bounds _ V) as B1.
  pose proof (DatetimeFacts.wall_us_bounds _ Vt) as B2.
  destruct (FloatFacts.total_seconds_threshold (elapsed_us e t))
    as (x & Hx & Hg).
  { unfold elapsed_us.
    assert (2 ^ 59 < 2 ^ 63) by (vm_compute; reflexivity). lia. }
  rewrite (should_update_cache_present e w text H).
  unfold try_except, bind, eval, json_loads, py_get, py_fromisoformat.
  rewrite D, G, F. unfold py_datetime_sub, Datetime.sub, naive in *.
  cbn [tzinfo datetime_now].
  destruct (tzinfo t); [discriminate |].
  fold (datetime_now (now_check e)). fold (elapsed_us e t).
  rewrite Hx. unfold ret, cache_duration. rewrite Hg. reflexivity.
Qed.

(** The two branches of [get_migration_stats]. *)
Lemma get_migration_stats_hit (e : env) (w : world) :
  fst (should_update_cache e w) = Ok false ->
  exists text v,
    cache_file w = Some text /\ decode text = Some v
    /\ get_migration_stats e w = (Ok v, w).
Proof.
  intros H.
  pose proof (ReadOnly.read_only_should_update_cache e w) as R.
  destruct (cache_file w) as [text |] eqn:C.
  2:{ rewrite (stale_absent e w C) in H. discriminate. }
  destruct (decode text) as [v |] eqn:D.
  2:{ rewrite (stale_unparseable e w text C D) in H. discriminate. }
  exists text, v. split; [reflexivity |]. split; [exact D |].
  unfold get_migration_stats, bind.
  destruct (should_update_cache e w) as [r w']. cbn [fst snd] in H, R.
  subst r w'. cbn [negb]. unfold bind, read_text, eval, json_loads.
  rewrite C, D. reflexivity.
Qed.

Lemma get_migration_stats_stale (e : env) (w : world) :
  fst (should_update_cache e w) = Ok true ->
  get_migration_stats e w = refresh e w.
Proof.
  intros H.
  pose proof (ReadOnly.read_only_should_update_cache e w) as R.
  unfold get_migration_stats, bind.
  destruct (should_update_cache e w) as [r w']. cbn [fst snd] in H, R.
  subst r w'. reflexivity.
Qed.

Lemma get_migration_stats_check_raises (e : env) (w : world) (x : exn) :
  fst (should_update_cache e w) = Raise x ->
  get_migration_stats e w = (Raise x, w).
Proof.
  intros H.
  pose proof (ReadOnly.read_only_should_update_cache e w) as R.
  unfold get_migration_stats, bind.
  destruct (should_update_cache e w) as [r w']. cbn [fst snd] in H, R.
  subst r w'. reflexivity.
Qed.

End CacheFacts.

(* ================================================================= *)
(** * The properties of the two methods *)

(** ** The staleness check *)

Module Staleness.
Import Text Py PyFloat Datetime Json Db Dash Obs.
Import CacheFacts.

(** C1. The check does not fail open on every cache file without a
    valid timestamp: on the file [{"last_update": 123}] it raises
    [TypeError] (from [datetime.fromisoformat]) and on the file [[]] it
    raises [AttributeError] (from [cache.get]); the [except] clause
    names neither class, so the caller gets the exception instead of
    [True]. *)
Theorem should_update_cache_raises_on_odd_json :
  should_update_cache later_env (file_world text_number)
  = (Raise TypeError, file_world text_number)
  /\ should_update_cache later_env (file_world text_array)
     = (Raise AttributeError, file_world text_array).
Proof. split; vm_compute; reflexivity. Qed.



(** A missing cache file makes the check return [True]. *)
Theorem missing_cache_is_stale (e : env) (w : world) :
  cache_file w = None -> should_update_cache e w = (Ok true, w).
Proof. apply stale_absent. Qed.

Lemma missing_cache_is_stale_witness :
  should_update_cache example_env empty_world = (Ok true, empty_world).
Proof. apply (missing_cache_is_stale example_env empty_world). reflexivity. Defined.








End Staleness.

(** ** The snapshot a refresh computes *)

Module Snapshot.
Import Text Py PyFloat Datetime Json Db Dash Obs.
Import CacheFacts RefreshFacts.

Lemma fresh_snapshot (e : env) (w : world) :
  no_fault e -> fst (should_update_cache e w) = Ok true ->
  exists rate,
    migration_rate (migrated_count e) (total_count e) = Ok rate
    /\ fst (get_migration_stats e w) = Ok (snapshot e rate).
Proof.
  intros Hf Hs. rewrite (get_migration_stats_stale e w Hs).
  destruct (refresh_no_fault e w Hf) as (rate & text & Hr & _ & _ & _ & H).
  exists rate. rewrite H. split; [exact Hr | reflexivity].
Qed.

(** C4. In the snapshot a refresh computes, [migration_rate] is the
    value of [round(migrated / total * 100, 2)] when there are users and
    the integer 0 when there are none; no exception is raised. The value
    for [total > 0] is the float nearest to [n / 100] for a whole number
    [n] of hundredths between 0 and 10000 such that, for fewer than
    [2^37] users, no other whole number is nearer to
    [10000 * migrated / total]. One migrated user among four gives
    [25.0], none among any positive number gives [0.0]. *)
Theorem snapshot_migration_rate (e : env) (w : world) :
  no_fault e -> fst (should_update_cache e w) = Ok true ->
  exists s rate,
    fst (get_migration_stats e w) = Ok s
    /\ field s "migration_rate" = Some rate
    /\ migration_rate (migrated_count e) (total_count e) = Ok rate
    /\ (total_count e = 0 -> rate = PInt 0)
    /\ (0 < total_count e ->
        exists n,
          0 <= n <= 10000
          /\ rate = PFloat (nearest_double false n 100)
          /\ (total_count e < 2 ^ 37 ->
              2 * Z.abs (n * total_count e - 10000 * migrated_count e)
              <= total_count e))
    /\ (total_count e = 4 -> migrated_count e = 1 ->
        rate = PFloat (nearest_double false 25 1))
    /\ (0 < total_count e -> migrated_count e = 0 ->
        rate = PFloat (S754_zero false)).
Proof.
  intros Hf Hs. destruct (fresh_snapshot e w Hf Hs) as (rate & Hr & H).
  exists (snapshot e rate), rate.
  split; [exact H |]. split; [reflexivity |]. split; [exact Hr |].
  pose proof (migrated_le_total e) as Hm.
  destruct (migration_rate_value _ _ Hm)
    as [[Ht H0] | [Ht (n & Hn & Hv & Herr)]].
  - repeat split; try lia. intros _. congruence.
  - split; [lia |]. split; [| split].
    + intros _. exists n. split; [exact Hn |]. split; [congruence |].
      intros Hlt. apply FloatFacts.nearest_hundredths; [lia | exact Herr].
    + intros E4 E1. rewrite E4, E1 in Hr. vm_compute in Hr.
      injection Hr as <-. vm_compute. reflexivity.
    + intros _ E0. rewrite E0 in Hr. unfold migration_rate in Hr.
      replace (0 <? total_count e) with true in Hr by lia.
      unfold int_truediv in Hr.
      replace (total_count e =? 0) with false in Hr by lia.
      replace (total_count e <? 0) with false in Hr by lia.
      cbn in Hr. congruence.
Qed.

Lemma snapshot_migration_rate_witness :
  no_fault example_env
  /\ fst (should_update_cache example_env empty_world) = Ok true
  /\ exists s rate,
       fst (get_migration_stats example_env empty_world) = Ok s
       /\ field s "migration_rate" = Some rate
       /\ migration_rate (migrated_count example_env) (total_count example_env)
          = Ok rate
       /\ (total_count example_env = 0 -> rate = PInt 0)
       /\ (0 < total_count example_env ->
           exists n,
             0 <= n <= 10000
             /\ rate = PFloat (nearest_double false n 100)
             /\ (total_count example_env < 2 ^ 37 ->
                 2 * Z.abs (n * total_count example_env
                            - 10000 * migrated_count example_env)
                 <= total_count example_env))
       /\ (total_count example_env = 4 -> migrated_count example_env = 1 ->
           rate = PFloat (nearest_double false 25 1))
       /\ (0 < total_count example_env -> migrated_count example_env = 0 ->
           rate = PFloat (S754_zero false)).
Proof.
  assert (Hf : no_fault example_env)
    by (split; [reflexivity | split; [intros q; reflexivity | reflexivity]]).
  assert (Hs : fst (should_update_cache example_env empty_world) = Ok true)
    by reflexivity.
  split; [exact Hf |]. split; [exact Hs |].
  exact (snapshot_migration_rate example_env empty_world Hf Hs).
Defined.

(** C5. In the snapshot a refresh computes, [total_users] is the number
    of user records, [migrated_users] the number of those with a
    non-null token, [pending_users] their difference, and
    [0 <= migrated_users <= total_users]. *)
Theorem snapshot_counts (e : env) (w : world) :
  no_fault e -> fst (should_update_cache e w) = Ok true ->
  exists s total moved pending,
    fst (get_migration_stats e w) = Ok s
    /\ field s "total_users" = Some (PInt total)
    /\ field s "migrated_users" = Some (PInt moved)
    /\ field s "pending_users" = Some (PInt pending)
    /\ total = Z.of_nat (List.length (users e))
    /\ moved = Z.of_nat (List.length (filter migrated (users e)))
    /\ pending = total - moved
    /\ 0 <= moved <= total.
Proof.
  intros Hf Hs. destruct (fresh_snapshot e w Hf Hs) as (rate & Hr & H).
  exists (snapshot e rate), (total_count e), (migrated_count e),
         (total_count e - migrated_count e).
  split; [exact H |].
  repeat (split; [reflexivity |]).
  apply migrated_le_total.
Qed.

Lemma snapshot_counts_witness :
  no_fault example_env
  /\ fst (should_update_cache example_env empty_world) = Ok true
  /\ exists s total moved pending,
       fst (get_migration_stats example_env empty_world) = Ok s
       /\ field s "total_users" = Some (PInt total)
       /\ field s "migrated_users" = Some (PInt moved)
       /\ field s "pending_users" = Some (PInt pending)
       /\ total = Z.of_nat (List.length (users example_env))
       /\ moved
          = Z.of_nat (List.length (filter migrated (users example_env)))
       /\ pending = total - moved
       /\ 0 <= moved <= total.
Proof.
  assert (Hf : no_fault example_env)
    by (split; [reflexivity | split; [intros q; reflexivity | reflexivity]]).
  assert (Hs : fst (should_update_cache example_env empty_world) = Ok true)
    by reflexivity.
  split; [exact Hf |]. split; [exact Hs |].
  exact (snapshot_counts example_env empty_world Hf Hs).
Defined.

Lemma series_positive {K} (f : K * Z -> row) (l : list (K * Z)) :
  (forall kn, row_count (f kn) = Some (snd kn)) ->
  Forall (fun kn => 1 <= snd kn) l -> counts_positive (map f l).
Proof.
  intros Hf H. unfold counts_positive. apply Forall_map.
  eapply Forall_impl; [| exact H].
  intros kn Hn. exists (snd kn). split; [apply Hf | exact Hn].
Qed.

(** In the snapshot a refresh computes, the two series hold a row only
    for an hour or a day with at least one migration: every [count] is
    at least 1, none is 0. *)
Theorem snapshot_buckets_sparse (e : env) (w : world) :
  no_fault e -> fst (should_update_cache e w) = Ok true ->
  exists s,
    fst (get_migration_stats e w) = Ok s
    /\ field s "hourly_data" = Some (PList (map row_value (hourly_series e)))
    /\ field s "daily_data" = Some (PList (map row_value (daily_series e)))
    /\ counts_positive (hourly_series e)
    /\ counts_positive (daily_series e).
Proof.
  intros Hf Hs. destruct (fresh_snapshot e w Hf Hs) as (rate & Hr & H).
  exists (snapshot e rate). split; [exact H |].
  split; [reflexivity |]. split; [reflexivity |]. split.
  - unfold hourly_series. apply series_positive.
    + intros kn. reflexivity.
    + apply group_count_positive.
  - unfold daily_series. apply series_positive.
    + intros [[[y m] d] n]. reflexivity.
    + apply group_count_positive.
Qed.

Lemma snapshot_buckets_sparse_witness :
  exists s,
    fst (get_migration_stats example_env empty_world) = Ok s
    /\ field s "hourly_data"
       = Some (PList (map row_value (hourly_series example_env)))
    /\ field s "daily_data"
       = Some (PList (map row_value (daily_series example_env)))
    /\ counts_positive (hourly_series example_env)
    /\ counts_positive (daily_series example_env).
Proof.
  apply (snapshot_buckets_sparse example_env empty_world).
  - split; [reflexivity | split; [intros q; reflexivity | reflexivity]].
  - reflexivity.
Defined.

End Snapshot.

(** ** The cache file between two calls *)

Module CachePath.
Import Text Py PyFloat Datetime Json Db Dash Obs.
Import CacheFacts RefreshFacts.

Lemma snapshot_last_update (e : env) (rate : pyval) :
  field (snapshot e rate) "last_update"
  = Some (PStr (isoformat (datetime_now (now_stamp e)))).
Proof. reflexivity. Qed.

(** The file a refresh writes holds the time of its snapshot. *)
Lemma snapshot_timestamp (e : env) (rate : pyval) (text : pystr) :
  decode text = Some (snapshot e rate) ->
  valid (datetime_now (now_stamp e)) = true ->
  cache_timestamp text = Some (datetime_now (now_stamp e)).
Proof.
  intros D V. unfold cache_timestamp. rewrite D.
  pose proof (snapshot_last_update e rate) as L.
  unfold snapshot, make_stats in *. cbn [field] in L. rewrite L.
  apply DatetimeFacts.fromisoformat_isoformat; [exact V | reflexivity].
Qed.

(** C3. When the staleness check answers [False], [get_migration_stats]
    returns what [json.load] reads from the cache file and leaves the
    world as it is: no call reaches the database. When the check answers
    [True] and no step fails, it queries the database, returns the
    snapshot of the table, and leaves the text of that snapshot in the
    cache file, the connection and the cursor closed. *)
Theorem get_migration_stats_hit_or_refresh (e : env) (w : world) :
  (fst (should_update_cache e w) = Ok false ->
   exists text v,
     cache_file w = Some text /\ decode text = Some v
     /\ get_migration_stats e w = (Ok v, w))
  /\ (fst (should_update_cache e w) = Ok true -> no_fault e ->
      exists rate text,
        migration_rate (migrated_count e) (total_count e) = Ok rate
        /\ encode (snapshot e rate) = Some text
        /\ get_migration_stats e w
           = (Ok (snapshot e rate),
              mkWorld (Some text) (open_conns w) (open_cursors w)
                      (refresh_calls ++ db_log w))).
Proof.
  split.
  - apply get_migration_stats_hit.
  - intros Hs Hf. rewrite (get_migration_stats_stale e w Hs).
    destruct (refresh_no_fault e w Hf) as (rate & text & Hr & _ & He & _ & H).
    exists rate, text. auto.
Qed.

Lemma get_migration_stats_hit_or_refresh_witness :
  (exists text v,
     cache_file (file_world text_odd) = Some text /\ decode text = Some v
     /\ get_migration_stats later_env (file_world text_odd)
        = (Ok v, file_world text_odd))
  /\ (exists rate text,
        migration_rate (migrated_count example_env) (total_count example_env)
        = Ok rate
        /\ encode (snapshot example_env rate) = Some text
        /\ get_migration_stats example_env empty_world
           = (Ok (snapshot example_env rate),
              mkWorld (Some text) (open_conns empty_world)
                      (open_cursors empty_world)
                      (refresh_calls ++ db_log empty_world))).
Proof.
  split.
  - apply (proj1 (get_migration_stats_hit_or_refresh later_env
                    (file_world text_odd))).
    vm_compute. reflexivity.
  - apply (proj2 (get_migration_stats_hit_or_refresh example_env empty_world)).
    + reflexivity.
    + split; [reflexivity | split; [intros q; reflexivity | reflexivity]].
Defined.



(** C9. On a cache hit the caller gets the value [json.load] reads from
    the file, whatever it is: nothing is checked, added or changed, and
    the world is left as it was. *)
Theorem cache_hit_verbatim (e : env) (w : world) (text : pystr) (v : pyval) :
  cache_file w = Some text ->
  decode text = Some v ->
  fst (should_update_cache e w) = Ok false ->
  get_migration_stats e w = (Ok v, w).
Proof.
  intros Hfile Hv Hs.
  destruct (get_migration_stats_hit e w Hs) as (text' & v' & Hfile' & Hv' & H).
  rewrite H. congruence.
Qed.

(** A fresh file with one user in all and five migrated ones, and
    without the other fields of a snapshot, is returned as it is. *)
Lemma cache_hit_verbatim_witness :
  get_migration_stats later_env (file_world text_odd)
  = (Ok value_odd, file_world text_odd).
Proof.
  apply (cache_hit_verbatim later_env (file_world text_odd) text_odd value_odd).
  - reflexivity.
  - vm_compute. reflexivity.
  - vm_compute. reflexivity.
Defined.

End CachePath.

(** ** The connection *)

Module Resources.
Import Text Py PyFloat Datetime Json Db Dash Obs.
Import CacheFacts RefreshFacts.

(** C7. Whatever path a call of [get_migration_stats] takes (a cache
    hit, a refresh that runs to its end, a statement or the opening of
    the cache file failing, the connection attempt failing, the
    staleness check raising), as many connections and as many cursors
    are open after the call as before it. The calls [conn.cursor()],
    [cursor.close()] and [conn.close()] themselves do not fail. *)
Theorem connection_and_cursor_released (e : env) (w : world) :
  open_conns (snd (get_migration_stats e w)) = open_conns w
  /\ open_cursors (snd (get_migration_stats e w)) = open_cursors w.
Proof.
  destruct (fst (should_update_cache e w)) as [[|] | x] eqn:Hs.
  - rewrite (get_migration_stats_stale e w Hs).
    destruct (refresh_outcomes e w) as (Hc & Hk & _). split; assumption.
  - destruct (get_migration_stats_hit e w Hs) as (text & v & _ & _ & H).
    rewrite H. split; reflexivity.
  - rewrite (get_migration_stats_check_raises e w x Hs). split; reflexivity.
Qed.

(** C8. With no cache file and the database out of reach, the caller
    does not get the error of the connection attempt: the [finally]
    clause reads [cursor], which was never bound, and
    [UnboundLocalError] is what [get_migration_stats] raises. *)
Theorem connect_failure_raises_unbound_local :
  get_migration_stats unreachable_env empty_world
  = (Raise UnboundLocalError, mkWorld None 0 0 [EvConnect]).
Proof. vm_compute. reflexivity. Qed.

(** The same for every stale cache and every failing connection
    attempt; the cache file is left as it was. *)
Theorem connect_failure_masked (e : env) (w : world) :
  fst (should_update_cache e w) = Ok true -> connect_fails e = true ->
  get_migration_stats e w
  = (Raise UnboundLocalError,
     mkWorld (cache_file w) (open_conns w) (open_cursors w)
             (EvConnect :: db_log w)).
Proof.
  intros Hs Hc. rewrite (get_migration_stats_stale e w Hs).
  apply refresh_connect_fails, Hc.
Qed.

Lemma connect_failure_masked_witness :
  get_migration_stats unreachable_env (file_world text_cut)
  = (Raise UnboundLocalError,
     mkWorld (cache_file (file_world text_cut))
             (open_conns (file_world text_cut))
             (open_cursors (file_world text_cut))
             (EvConnect :: db_log (file_world text_cut))).
Proof.
  apply (connect_failure_masked unreachable_env (file_world text_cut)).
  - vm_compute. reflexivity.
  - reflexivity.
Defined.

(** The failure of a statement does reach the caller: when the cache is
    stale, the connection opens and one of the four statements fails, the error of the first
    failing statement reaches the caller, no later statement is run, the
    cursor and the connection are closed, and the cache file is as it
    was before the call. *)
Theorem query_failure_propagates (e : env) (w : world) (q : query) :
  fst (should_update_cache e w) = Ok true ->
  connect_fails e = false ->
  first_failure e = Some q ->
  get_migration_stats e w = (Raise DatabaseError, after_failed_query w q)
  /\ cache_file (after_failed_query w q) = cache_file w.
Proof.
  intros Hs Hc Hq. rewrite (get_migration_stats_stale e w Hs).
  split; [apply refresh_query_fails; assumption | reflexivity].
Qed.

Lemma query_failure_propagates_witness :
  get_migration_stats failing_query_env (file_world text_cut)
  = (Raise DatabaseError, after_failed_query (file_world text_cut) QHourly)
  /\ cache_file (after_failed_query (file_world text_cut) QHourly)
     = cache_file (file_world text_cut).
Proof.
  apply (query_failure_propagates failing_query_env (file_world text_cut)
           QHourly).
  - vm_compute. reflexivity.
  - reflexivity.
  - reflexivity.
Defined.

End Resources.

(* ================================================================= *)
(** * The page *)

(** ** Formatting and arithmetic of the values shown *)

Module FormatFacts.
Import Text Py PyFloat Datetime Json Db Dash Obs PyObj App View.

Lemma group_rev_filter (k : nat) (rds : pystr) :
  forallb not_comma rds = true ->
  filter not_comma (group_rev k rds) = rds.
Proof.
  revert k. induction rds as [| c r IH]; intros k H; [reflexivity |].
  cbn [forallb] in H. apply andb_prop in H. destruct H as [Hc Hr].
  cbn [group_rev]. destruct (Nat.eqb k 3); cbn [filter].
  - change (not_comma 44) with false. cbv iota. rewrite Hc, IH by exact Hr.
    reflexivity.
  - rewrite Hc, IH by exact Hr. reflexivity.
Qed.

Lemma not_comma_neq (c : N) : not_comma c = true -> c <> 44%N.
Proof.
  unfold not_comma. intros H E. subst c. discriminate.
Qed.

(** In the grouped digits, least significant first, the commas sit at
    every fourth place. *)
Lemma group_rev_commas (k : nat) (rds : pystr) (i : nat) (c : N) :
  (k <= 3)%nat -> forallb not_comma rds = true ->
  nth_error (group_rev k rds) i = Some c ->
  (c = 44%N <-> (i + k + 1) mod 4 = 0)%nat.
Proof.
  revert k i. induction rds as [| a r IH]; intros k i Hk H Hn.
  - destruct i; discriminate.
  - cbn [forallb] in H. apply andb_prop in H. destruct H as [Ha Hr].
    apply not_comma_neq in Ha.
    cbn [group_rev] in Hn. destruct (Nat.eqb k 3) eqn:E.
    + apply Nat.eqb_eq in E. subst k.
      destruct i as [| [| j]]; cbn [nth_error] in Hn.
      * injection Hn as <-. split; reflexivity.
      * injection Hn as <-. split; [intros; contradiction | discriminate].
      * rewrite (IH 1%nat j ltac:(lia) Hr Hn).
        replace (S (S j) + 3 + 1)%nat with (j + 1 + 1 + 1 * 4)%nat by lia.
        rewrite Nat.Div0.mod_add. reflexivity.
    + apply Nat.eqb_neq in E.
      destruct i as [| j]; cbn [nth_error] in Hn.
      * injection Hn as <-. split; [intros; contradiction |].
        rewrite Nat.mod_small by lia. lia.
      * rewrite (IH (S k) j ltac:(lia) Hr Hn).
        replace (S j + k + 1)%nat with (j + S k + 1)%nat by lia. reflexivity.
Qed.

Lemma group_rev_last (k : nat) (rds : pystr) :
  forallb not_comma rds = true -> last (group_rev k rds) 0%N <> 44%N.
Proof.
  revert k. induction rds as [| a r IH]; intros k H; [discriminate |].
  cbn [forallb] in H. apply andb_prop in H. destruct H as [Ha Hr].
  apply not_comma_neq in Ha.
  assert (T : forall k', last (a :: group_rev k' r) 0%N <> 44%N).
  { intros k'. destruct r as [| b r'].
    - exact Ha.
    - specialize (IH k' Hr).
      cbn [group_rev] in *. destruct (Nat.eqb k' 3); exact IH. }
  cbn [group_rev]. destruct (Nat.eqb k 3).
  - change (last (44%N :: a :: group_rev 1 r) 0%N)
      with (last (a :: group_rev 1 r) 0%N). apply T.
  - apply T.
Qed.

Lemma digits_not_comma (ds : pystr) :
  forallb is_digit ds = true -> forallb not_comma ds = true.
Proof.
  intros H. apply forallb_forall. intros c Hc.
  pose proof (proj1 (forallb_forall _ _) H c Hc) as Hd.
  unfold is_digit in Hd. unfold not_comma.
  destruct (N.eqb_spec c 44) as [-> |]; [discriminate | reflexivity].
Qed.

(** The three facts that fix the grouping of a run of digits. *)
Lemma group3_spec (ds : pystr) :
  forallb is_digit ds = true ->
  filter not_comma (group3 ds) = ds
  /\ (forall i c, nth_error (rev (group3 ds)) i = Some c ->
                  (c = 44%N <-> i mod 4 = 3)%nat)
  /\ (forall r, group3 ds <> 44%N :: r).
Proof.
  intros Hd. pose proof (digits_not_comma ds Hd) as Hc.
  assert (Hr : forallb not_comma (rev ds) = true).
  { apply forallb_forall. intros c Hin. apply in_rev in Hin.
    exact (proj1 (forallb_forall _ _) Hc c Hin). }
  unfold group3. split; [| split].
  - rewrite filter_rev, group_rev_filter by exact Hr. apply rev_involutive.
  - intros i c Hn. rewrite rev_involutive in Hn.
    rewrite (group_rev_commas 0 (rev ds) i c ltac:(lia) Hr Hn).
    replace (i + 0 + 1)%nat with (S i) by lia.
    pose proof (Nat.mod_upper_bound i 4 ltac:(lia)) as Hb.
    pose proof (Nat.div_mod_eq i 4) as Hi.
    split; intros Hm.
    + destruct (Nat.eq_dec (i mod 4) 3) as [| Hne]; [assumption | exfalso].
      replace (S i) with (S (i mod 4) + (i / 4) * 4)%nat in Hm by lia.
      rewrite Nat.Div0.mod_add, Nat.mod_small in Hm by lia. lia.
    + replace (S i) with (0 + (S (i / 4)) * 4)%nat by lia.
      rewrite Nat.Div0.mod_add. reflexivity.
  - intros r E.
    apply (group_rev_last 0 (rev ds) Hr).
    assert (E' : group_rev 0 (rev ds) = rev r ++ [44%N]).
    { rewrite <- (rev_involutive (group_rev 0 (rev ds))), E. reflexivity. }
    rewrite E'. apply last_last.
Qed.

(** The quotient by 100 of a float between 0 and 100 lies between 0
    and 1. *)
Lemma div_100_unit (x : pyfloat) :
  at_most 100 x ->
  exists p, truediv_int (PFloat x) 100 = Ok p /\ at_most 1 p.
Proof.
  intros H. unfold truediv_int. rewrite FloatFacts.of_int_100. cbn [rbind].
  destruct x as [s | s | | s m e]; cbn [at_most] in H; try contradiction.
  - subst s. eexists. split; [reflexivity |]. reflexivity.
  - destruct H as (-> & He & Hm).
    assert (Hp : 0 < 2 ^ (- e)) by (apply Z.pow_pos_nonneg; lia).
    unfold div, num_den. change (0 <=? - 46) with false. cbv iota.
    change (2 ^ (- - 46)) with 70368744177664. simpl xorb.
    eexists. split; [reflexivity |].
    destruct (0 <=? e) eqn:E0.
    + assert (e = 0) by lia. subst e. change (2 ^ 0) with 1.
      change (2 ^ (- 0)) with 1 in Hm.
      apply FloatFacts.nearest_double_at_most; simpl Z.abs; lia.
    + apply FloatFacts.nearest_double_at_most; simpl Z.abs; lia.
Qed.

End FormatFacts.

(** ** The two series *)

Module SeriesFacts.
Import Text Py PyFloat Datetime Json Db Dash Obs PyObj App View.
Import CacheFacts RefreshFacts.

Lemma pystr_compare_gt_lt (a b : pystr) :
  pystr_compare a b = Gt -> pystr_compare b a = Lt.
Proof.
  revert b. induction a as [| x a IH]; intros [| y b] H; cbn in *;
    try discriminate; try reflexivity.
  rewrite (N.compare_antisym x y).
  destruct (N.compare x y); cbn in *; try discriminate; auto.
Qed.

Lemma date_compare_gt_lt (a b : Z * Z * Z) :
  date_compare a b = Gt -> date_compare b a = Lt.
Proof.
  destruct a as [[y1 m1] d1], b as [[y2 m2] d2]. unfold date_compare.
  rewrite (Z.compare_antisym y1 y2), (Z.compare_antisym m1 m2),
    (Z.compare_antisym d1 d2).
  destruct (y1 ?= y2); cbn; try discriminate; auto.
  destruct (m1 ?= m2); cbn; try discriminate; auto.
  destruct (d1 ?= d2); cbn; try discriminate; auto.
Qed.

Lemma bump_ascending {K} (cmp : K -> K -> comparison) (k : K)
  (l : list (K * Z)) :
  (forall a b, cmp a b = Gt -> cmp b a = Lt) ->
  ascending cmp (map fst l) -> ascending cmp (map fst (bump cmp k l)).
Proof.
  intros Hanti. induction l as [| [k1 n1] l IH]; intros H.
  - cbn. auto.
  - cbn [bump]. destruct (cmp k k1) eqn:E1.
    + exact H.
    + cbn [map fst ascending]. split; [exact E1 | exact H].
    + cbn [map fst ascending] in H. destruct H as [H1 H2].
      specialize (IH H2).
      change (map fst ((k1, n1) :: bump cmp k l))
        with (k1 :: map fst (bump cmp k l)).
      cbn [ascending]. split; [| exact IH].
      destruct l as [| [k2 n2] l'].
      * cbn. apply Hanti, E1.
      * cbn [bump]. cbn [map fst] in H1.
        destruct (cmp k k2); cbn [map fst]; auto.
Qed.

Lemma group_count_ascending {K} (cmp : K -> K -> comparison) (keys : list K) :
  (forall a b, cmp a b = Gt -> cmp b a = Lt) ->
  ascending cmp (map fst (group_count cmp keys)).
Proof.
  intros Hanti. unfold group_count.
  assert (G : forall acc, ascending cmp (map fst acc) ->
              ascending cmp
                (map fst (fold_left (fun acc k => bump cmp k acc) keys acc))).
  { induction keys as [| k keys IH]; intros acc Hacc; cbn [fold_left].
    - exact Hacc.
    - apply IH, bump_ascending; assumption. }
  apply G. exact I.
Qed.

Lemma bump_total {K} (cmp : K -> K -> comparison) (k : K) (l : list (K * Z)) :
  total (map snd (bump cmp k l)) = total (map snd l) + 1.
Proof.
  induction l as [| [k1 n1] l IH]; [reflexivity |].
  cbn [bump]. destruct (cmp k k1); cbn [map snd total fold_right] in *;
    unfold total in *; cbn [map snd fold_right]; lia.
Qed.

Lemma group_count_total {K} (cmp : K -> K -> comparison) (keys : list K) :
  total (map snd (group_count cmp keys)) = Z.of_nat (List.length keys).
Proof.
  unfold group_count.
  assert (G : forall acc,
              total (map snd (fold_left (fun acc k => bump cmp k acc) keys acc))
              = total (map snd acc) + Z.of_nat (List.length keys)).
  { induction keys as [| k keys IH]; intros acc; cbn [fold_left List.length].
    - lia.
    - rewrite IH, bump_total. lia. }
  rewrite G. reflexivity.
Qed.

(** A record inside the interval has an [updated_at]. *)
Lemma times_of_recent (now : sqltime) (interval : Z) (us : list user) :
  List.length (times_of (filter (migrated_since now interval) us))
  = List.length (filter (migrated_since now interval) us).
Proof.
  induction us as [| u us IH]; [reflexivity |].
  cbn [filter]. destruct (migrated_since now interval u) eqn:E; [| exact IH].
  unfold migrated_since in E. unfold times_of in *. cbn [flat_map].
  destruct (cm_firebase_token u); [| discriminate].
  destruct (updated_at u); [| discriminate].
  cbn [List.app List.length]. rewrite IH. reflexivity.
Qed.

Lemma group_count_nil {K} (cmp : K -> K -> comparison) (keys : list K) :
  group_count cmp keys = [] <-> keys = [].
Proof.
  split; [| intros ->; reflexivity].
  intros H. pose proof (group_count_total cmp keys) as T. rewrite H in T.
  destruct keys; [reflexivity | cbn in T; lia].
Qed.

Lemma hourly_series_rows (e : env) :
  hourly_series e = map hourly_row (hourly_groups e).
Proof. reflexivity. Qed.

Lemma daily_series_rows (e : env) :
  daily_series e = map daily_row (daily_groups e).
Proof.
  unfold daily_series, daily_groups. apply map_ext.
  intros [[[y m] d] n]. reflexivity.
Qed.

(** In the snapshot a refresh computes, [hourly_data] holds one row for
    each hour bucket and [daily_data] one for each date, in strictly
    ascending order of the bucket, so no bucket occurs twice; the
    counts of [hourly_data] add up to the number of migrated records
    updated within the last 24 hours, those of [daily_data] to the
    number updated within the last 7 days. *)
Theorem series_ordered_and_complete (e : env) (w : world) :
  no_fault e -> fst (should_update_cache e w) = Ok true ->
  exists s,
    fst (get_migration_stats e w) = Ok s
    /\ field s "hourly_data"
       = Some (PList (map row_value (map hourly_row (hourly_groups e))))
    /\ field s "daily_data"
       = Some (PList (map row_value (map daily_row (daily_groups e))))
    /\ ascending pystr_compare (map fst (hourly_groups e))
    /\ ascending date_compare (map fst (daily_groups e))
    /\ total (map snd (hourly_groups e))
       = Z.of_nat (List.length (recent e 86400))
    /\ total (map snd (daily_groups e))
       = Z.of_nat (List.length (recent e 604800)).
Proof.
  intros Hf Hs. rewrite (get_migration_stats_stale e w Hs).
  destruct (refresh_no_fault e w Hf) as (rate & text & _ & _ & _ & _ & H).
  exists (snapshot e rate). rewrite H.
  split; [reflexivity |].
  split; [reflexivity |].
  split.
  { unfold snapshot, make_stats. cbn [field]. rewrite daily_series_rows.
    reflexivity. }
  split; [apply group_count_ascending, pystr_compare_gt_lt |].
  split; [apply group_count_ascending, date_compare_gt_lt |].
  unfold hourly_groups, daily_groups, recent.
  rewrite !group_count_total, !length_map, !times_of_recent. auto.
Qed.

Lemma series_ordered_and_complete_witness :
  exists s,
    fst (get_migration_stats example_env empty_world) = Ok s
    /\ field s "hourly_data"
       = Some (PList (map row_value
                        (map hourly_row (hourly_groups example_env))))
    /\ field s "daily_data"
       = Some (PList (map row_value
                        (map daily_row (daily_groups example_env))))
    /\ ascending pystr_compare (map fst (hourly_groups example_env))
    /\ ascending date_compare (map fst (daily_groups example_env))
    /\ total (map snd (hourly_groups example_env))
       = Z.of_nat (List.length (recent example_env 86400))
    /\ total (map snd (daily_groups example_env))
       = Z.of_nat (List.length (recent example_env 604800)).
Proof.
  apply (series_ordered_and_complete example_env empty_world).
  - split; [reflexivity | split; [intros q; reflexivity | reflexivity]].
  - reflexivity.
Defined.

End SeriesFacts.

(** ** Calls one after the other, and the configuration *)

Module CallFacts.
Import Text Py PyFloat Datetime Json Db Dash Obs PyObj App View.
Import CacheFacts RefreshFacts.




(** The file a refresh writes never makes the staleness check raise:
    after a refresh without failure, the check of any later call
    returns, and its answer is [True] exactly when more than 300
    seconds lie between the stamp of the snapshot and the clock of that
    call. *)
Theorem written_cache_is_checked (e1 : env) (w : world) :
  no_fault e1 ->
  fst (should_update_cache e1 w) = Ok true ->
  valid (datetime_now (now_stamp e1)) = true ->
  exists s w1,
    get_migration_stats e1 w = (Ok s, w1)
    /\ forall e2,
         valid (datetime_now (now_check e2)) = true ->
         should_update_cache e2 w1
         = (Ok (cache_duration * 1000000
                <? elapsed_us e2 (datetime_now (now_stamp e1))), w1).
Proof.
  intros Hf Hs V1. rewrite (get_migration_stats_stale e1 w Hs).
  destruct (refresh_no_fault e1 w Hf) as (rate & text & _ & _ & _ & Hd & H).
  rewrite H. eexists. eexists. split; [reflexivity |].
  intros e2 V2.
  pose proof (CachePath.snapshot_timestamp e1 rate text Hd V1) as Ht.
  exact (checks_naive e2 (refreshed w text) text
           (datetime_now (now_stamp e1)) eq_refl Ht eq_refl V2).
Qed.

Lemma written_cache_is_checked_witness :
  exists s w1,
    get_migration_stats example_env empty_world = (Ok s, w1)
    /\ forall e2,
         valid (datetime_now (now_check e2)) = true ->
         should_update_cache e2 w1
         = (Ok (cache_duration * 1000000
                <? elapsed_us e2 (datetime_now (now_stamp example_env))), w1).
Proof.
  apply (written_cache_is_checked example_env empty_world).
  - split; [reflexivity | split; [intros q; reflexivity | reflexivity]].
  - reflexivity.
  - reflexivity.
Defined.

(** When the cache file cannot be opened for writing, [OSError] reaches
    the caller after all four statements have run; the cursor and the
    connection are closed and the cache file keeps what it held. *)
Theorem write_failure_propagates (e : env) (w : world) :
  fst (should_update_cache e w) = Ok true ->
  connect_fails e = false ->
  (forall q, execute_fails e q = false) ->
  write_fails e = true ->
  get_migration_stats e w
  = (Raise OSError,
     mkWorld (cache_file w) (open_conns w) (open_cursors w)
             (refresh_calls ++ db_log w)).
Proof.
  intros Hs Hc Hq Hw. rewrite (get_migration_stats_stale e w Hs).
  apply refresh_write_fails; try assumption.
  unfold first_failure. rewrite !Hq. reflexivity.
Qed.

Lemma write_failure_propagates_witness :
  get_migration_stats read_only_disk_env (file_world text_cut)
  = (Raise OSError,
     mkWorld (cache_file (file_world text_cut))
             (open_conns (file_world text_cut))
             (open_cursors (file_world text_cut))
             (refresh_calls ++ db_log (file_world text_cut))).
Proof.
  apply (write_failure_propagates read_only_disk_env (file_world text_cut)).
  - vm_compute. reflexivity.
  - reflexivity.
  - intros q. reflexivity.
  - reflexivity.
Defined.

(** *** The configuration *)


Lemma getitem_absent (d : list (pystr * pyval)) (k : pystr) :
  dict_get d k = None -> getitem (PDict d) k = Raise KeyError.
Proof. intros H. unfold getitem. rewrite H. reflexivity. Qed.

Lemma connect_arguments_missing (d : list (pystr * pyval)) :
  (exists k, In k config_keys /\ dict_get d k = None) ->
  connect_arguments (init (PDict d)) = Raise KeyError.
Proof.
  intros (k & Hin & Hk). unfold connect_arguments, init. cbn [db_config].
  unfold getitem.
  destruct (dict_get d (str "host")) eqn:E1; [| reflexivity].
  destruct (dict_get d (str "user")) eqn:E2; [| reflexivity].
  destruct (dict_get d (str "password")) eqn:E3; [| reflexivity].
  destruct (dict_get d (str "database")) eqn:E4; [| reflexivity].
  exfalso. unfold config_keys in Hin. cbn [In] in Hin.
  destruct Hin as [<- | [<- | [<- | [<- | []]]]]; congruence.
Qed.



Lemma bind_ext {S A B} (m : M S A) (k1 k2 : A -> M S B) (s : S) :
  (forall a s', k1 a s' = k2 a s') -> bind m k1 s = bind m k2 s.
Proof.
  intros H. unfold bind. destruct (m s) as [[a | x] s']; [apply H | reflexivity].
Qed.

(** With a complete configuration the method of the instance is the
    method. *)
Lemma get_migration_stats_of_complete
  (self : migration_stats) (a : connect_args) (e : env) (w : world) :
  connect_arguments self = Ok a ->
  get_migration_stats_of self e w = get_migration_stats e w.
Proof.
  intros H. unfold get_migration_stats_of, get_migration_stats.
  apply bind_ext. intros stale w1.
  destruct (negb stale); [reflexivity |].
  unfold in_frame, try_finally.
  assert (E : (c <- on_world (get_db_connection_of self e) ;; after_connect e c)
                (w1, mkFrame None None [])
              = refresh_body e (w1, mkFrame None None [])).
  { unfold refresh_body. unfold bind at 1 3.
    unfold get_db_connection_of, on_world. unfold bind at 1. unfold eval.
    rewrite H. reflexivity. }
  rewrite E. reflexivity.
Qed.

(** An instance whose configuration lacks an entry never reports that:
    on a stale cache its [get_migration_stats] raises
    [UnboundLocalError] from the [finally] clause, without any call to
    the database and without touching the cache file. *)
Theorem incomplete_config_masked
  (d : list (pystr * pyval)) (e : env) (w : world) :
  (exists k, In k config_keys /\ dict_get d k = None) ->
  fst (should_update_cache e w) = Ok true ->
  get_migration_stats_of (init (PDict d)) e w = (Raise UnboundLocalError, w).
Proof.
  intros Hk Hs.
  pose proof (ReadOnly.read_only_should_update_cache e w) as R.
  pose proof (connect_arguments_missing d Hk) as E.
  unfold get_migration_stats_of. unfold bind at 1.
  destruct (should_update_cache e w) as [r w']. cbn [fst snd] in Hs, R.
  subst r w'. cbn [negb].
  unfold in_frame, try_finally, bind, on_world, get_db_connection_of, eval.
  cbn [fst snd]. rewrite E. cbn. destruct w; reflexivity.
Qed.

Lemma incomplete_config_masked_witness :
  get_migration_stats_of (init short_config) example_env empty_world
  = (Raise UnboundLocalError, empty_world).
Proof.
  apply (incomplete_config_masked
           [(str "host", PStr (str "db.internal"));
            (str "user", PStr (str "dash"));
            (str "database", PStr (str "app"))] example_env empty_world).
  - exists (str "password"). split; [cbn; auto | reflexivity].
  - reflexivity.
Defined.

End CallFacts.

(** ** A run of the script *)

Module MainFacts.
Import Text Py PyFloat Datetime Json Db Dash Obs PyObj App View.
Import CacheFacts RefreshFacts FormatFacts SeriesFacts CallFacts.

Ltac aprim :=
  unfold ui, on_outside, checkbox_widget, bind, eval, ret;
  cbn [outside ui_log fst snd].

Ltac astep_with tac :=
  erewrite bind_ok; [cbv beta | aprim; tac; reflexivity].

Ltac astep := astep_with idtac.

Ltac araise_with tac :=
  erewrite bind_raise; [| aprim; tac; reflexivity].

(** The configuration [main] builds is complete. *)
Lemma main_config_complete (h u p n : pyval) :
  connect_arguments
    (init (PDict (dict_of_pairs [(str "host", h); (str "user", u);
                                 (str "password", p); (str "database", n)])))
  = Ok (mkArgs h u p n (str "utf8mb4") DictCursor).
Proof. reflexivity. Qed.

Lemma secrets_complete (s : session) (d : list (pystr * pyval)) :
  secrets s = Some d ->
  (forall k, In k secret_keys -> dict_get d k <> None) ->
  exists h u p n,
    secret s (str "DB_HOST") = Ok h /\ secret s (str "DB_USER") = Ok u
    /\ secret s (str "DB_PASSWORD") = Ok p /\ secret s (str "DB_NAME") = Ok n.
Proof.
  intros Hs H. unfold secret. rewrite Hs. unfold secret_keys in H.
  destruct (dict_get d (str "DB_HOST")) as [h |] eqn:E1;
    [| exfalso; apply (H (str "DB_HOST")); [cbn; auto | exact E1]].
  destruct (dict_get d (str "DB_USER")) as [u |] eqn:E2;
    [| exfalso; apply (H (str "DB_USER")); [cbn; auto | exact E2]].
  destruct (dict_get d (str "DB_PASSWORD")) as [p |] eqn:E3;
    [| exfalso; apply (H (str "DB_PASSWORD")); [cbn; auto | exact E3]].
  destruct (dict_get d (str "DB_NAME")) as [n |] eqn:E4;
    [| exfalso; apply (H (str "DB_NAME")); [cbn; auto 6 | exact E4]].
  exists h, u, p, n. auto.
Qed.

(** The script up to the call of [get_migration_stats]. *)
Ltac to_stats H1 H2 H3 H4 :=
  unfold main;
  astep;
  astep_with ltac:(rewrite H1);
  astep_with ltac:(rewrite H2);
  astep_with ltac:(rewrite H3);
  astep_with ltac:(rewrite H4);
  cbv zeta;
  astep; astep; astep.

(** A run on a value that has the six entries the page reads, each of
    a type the page can show. *)
Lemma main_runs (s : session) (e : env) (a : app)
  (d : list (pystr * pyval)) (w1 : world)
  (h u p n total_v migrated_v rate daily hourly last : pyval)
  (total_text migrated_text : pystr) (fraction : pyfloat) (stamp : datetime) :
  secret s (str "DB_HOST") = Ok h -> secret s (str "DB_USER") = Ok u ->
  secret s (str "DB_PASSWORD") = Ok p -> secret s (str "DB_NAME") = Ok n ->
  get_migration_stats e (outside a) = (Ok (PDict d), w1) ->
  dict_get d (str "total_users") = Some total_v ->
  dict_get d (str "migrated_users") = Some migrated_v ->
  dict_get d (str "migration_rate") = Some rate ->
  dict_get d (str "daily_data") = Some daily ->
  dict_get d (str "hourly_data") = Some hourly ->
  dict_get d (str "last_update") = Some last ->
  format_comma total_v = Ok total_text ->
  format_comma migrated_v = Ok migrated_text ->
  truediv_int rate 100 = Ok fraction ->
  py_fromisoformat last = Ok stamp ->
  main s e a
  = (Ok tt,
     mkApp w1
       (rev (page (checkbox s) total_text migrated_text
               (py_str (printable s) rate ++ [37%N]) fraction daily hourly
               (strftime_seconds stamp))
        ++ ui_log a)).
Proof.
  intros H1 H2 H3 H4 Hg Dt Dm Dr Dd Dh Dl Ft Fm Fr Fs.
  to_stats H1 H2 H3 H4.
  astep_with ltac:(rewrite (get_migration_stats_of_complete _ _ e (outside a)
                              (main_config_complete h u p n)), Hg).
  astep.
  astep_with ltac:(unfold getitem; rewrite Dt).
  astep_with ltac:(rewrite Ft).
  astep.
  astep_with ltac:(unfold getitem; rewrite Dm).
  astep_with ltac:(rewrite Fm).
  astep.
  astep_with ltac:(unfold getitem; rewrite Dr).
  astep.
  astep_with ltac:(unfold getitem; rewrite Dr).
  astep_with ltac:(rewrite Fr).
  astep. astep.
  astep_with ltac:(unfold getitem; rewrite Dd).
  unfold page.
  destruct (truthy daily).
  - astep_with ltac:(unfold getitem; rewrite Dd).
    astep_with ltac:(unfold getitem; rewrite Dh).
    destruct (truthy hourly).
    + astep_with ltac:(unfold getitem; rewrite Dh).
      astep_with ltac:(unfold getitem; rewrite Dl).
      astep_with ltac:(rewrite Fs).
      astep. destruct (checkbox s); [astep |]; reflexivity.
    + astep.
      astep_with ltac:(unfold getitem; rewrite Dl).
      astep_with ltac:(rewrite Fs).
      astep. destruct (checkbox s); [astep |]; reflexivity.
  - astep.
    astep_with ltac:(unfold getitem; rewrite Dh).
    destruct (truthy hourly).
    + astep_with ltac:(unfold getitem; rewrite Dh).
      astep_with ltac:(unfold getitem; rewrite Dl).
      astep_with ltac:(rewrite Fs).
      astep. destruct (checkbox s); [astep |]; reflexivity.
    + astep.
      astep_with ltac:(unfold getitem; rewrite Dl).
      astep_with ltac:(rewrite Fs).
      astep. destruct (checkbox s); [astep |]; reflexivity.
Qed.

(** *** What a snapshot shows *)





(** The rate of a snapshot is shown as the cache file writes it, and
    its hundredth lies between 0 and 1. *)
Lemma rate_shown (pr : N -> bool) (m t : Z) (rate : pyval) :
  0 <= m <= t -> migration_rate m t = Ok rate ->
  encode rate = Some (py_str pr rate)
  /\ exists fraction, truediv_int rate 100 = Ok fraction /\ at_most 1 fraction.
Proof.
  intros Hm Hr.
  destruct (migration_rate_value m t Hm) as [[_ H] | [_ (n & Hn & H & _)]];
    rewrite H in Hr; injection Hr as <-.
  - split; [reflexivity |]. eexists. split; [vm_compute; reflexivity |].
    reflexivity.
  - assert (A : at_most 100 (nearest_double false n 100))
      by (apply FloatFacts.nearest_double_at_most; lia).
    split; [| apply div_100_unit, A].
    destruct (nearest_double false n 100) as [sg | sg | | sg mm ee];
      cbn [at_most] in A; try contradiction; reflexivity.
Qed.

(** What the page shows of the snapshot of [e0] with the rate [rate]. *)
Lemma main_on_snapshot (s : session) (e e0 : env) (a : app)
  (sd : list (pystr * pyval)) (rate : pyval) (w1 : world) :
  secrets s = Some sd ->
  (forall k, In k secret_keys -> dict_get sd k <> None) ->
  migration_rate (migrated_count e0) (total_count e0) = Ok rate ->
  valid (datetime_now (now_stamp e0)) = true ->
  get_migration_stats e (outside a) = (Ok (snapshot e0 rate), w1) ->
  exists rate_text fraction,
    encode rate = Some rate_text
    /\ truediv_int rate 100 = Ok fraction /\ at_most 1 fraction
    /\ main s e a
       = (Ok tt,
          mkApp w1
            (rev (page (checkbox s)
                    (format_int_comma (total_count e0))
                    (format_int_comma (migrated_count e0))
                    (rate_text ++ [37%N]) fraction
                    (PList (map row_value (daily_series e0)))
                    (PList (map row_value (hourly_series e0)))
                    (strftime_seconds (datetime_now (now_stamp e0))))
             ++ ui_log a)).
Proof.
  intros Hsec Hkeys Hr V Hg.
  destruct (secrets_complete s sd Hsec Hkeys) as (h & u & p & n & H1 & H2 & H3 & H4).
  destruct (rate_shown (printable s) _ _ rate (migrated_le_total e0) Hr)
    as (Henc & fraction & Hfr & Hunit).
  exists (py_str (printable s) rate), fraction.
  split; [exact Henc |]. split; [exact Hfr |]. split; [exact Hunit |].
  eapply main_runs; try eassumption.
  - reflexivity.
  - reflexivity.
  - reflexivity.
  - reflexivity.
  - reflexivity.
  - reflexivity.
  - reflexivity.
  - reflexivity.
  - unfold py_fromisoformat.
    rewrite DatetimeFacts.fromisoformat_isoformat by (auto; reflexivity).
    reflexivity.
Qed.

(** A run of [main] on a stale cache with the database in reach. *)
Lemma main_fresh (s : session) (e : env) (a : app)
  (sd : list (pystr * pyval)) :
  secrets s = Some sd ->
  (forall k, In k secret_keys -> dict_get sd k <> None) ->
  no_fault e ->
  fst (should_update_cache e (outside a)) = Ok true ->
  valid (datetime_now (now_stamp e)) = true ->
  exists rate rate_text fraction text,
    migration_rate (migrated_count e) (total_count e) = Ok rate
    /\ encode rate = Some rate_text
    /\ truediv_int rate 100 = Ok fraction /\ at_most 1 fraction
    /\ encode (snapshot e rate) = Some text
    /\ decode text = Some (snapshot e rate)
    /\ main s e a
       = (Ok tt,
          mkApp (refreshed (outside a) text)
            (rev (page (checkbox s)
                    (format_int_comma (total_count e))
                    (format_int_comma (migrated_count e))
                    (rate_text ++ [37%N]) fraction
                    (PList (map row_value (daily_series e)))
                    (PList (map row_value (hourly_series e)))
                    (strftime_seconds (datetime_now (now_stamp e))))
             ++ ui_log a)).
Proof.
  intros Hsec Hkeys Hf Hs V.
  destruct (refresh_no_fault e (outside a) Hf)
    as (rate & text & Hr & _ & He & Hd & H).
  rewrite <- (get_migration_stats_stale e (outside a) Hs) in H.
  destruct (main_on_snapshot s e e a sd rate _ Hsec Hkeys Hr V H)
    as (rate_text & fraction & Henc & Hfr & Hunit & Hm).
  exists rate, rate_text, fraction, text. auto 10.
Qed.

Lemma dec_nat_digits (n : Z) : 0 <= n -> forallb is_digit (dec_nat n) = true.
Proof. intros H. exact (proj1 (JsonFacts.dec_nat_numeral n H)). Qed.


(** [f"{n:,}"] for an [int]: a minus sign for a negative number, then
    the decimal digits of its absolute value with a comma before every
    group of three digits counted from the right, and none in front. *)
Theorem format_comma_groups (n : Z) :
  exists g,
    format_comma (PInt n) = Ok ((if n <? 0 then [45%N] else []) ++ g)
    /\ filter not_comma g = dec_nat (Z.abs n)
    /\ (forall i c, nth_error (rev g) i = Some c ->
                    (c = 44%N <-> i mod 4 = 3)%nat)
    /\ (forall r, g <> 44%N :: r).
Proof.
  exists (group3 (dec_nat (Z.abs n))). split; [reflexivity |].
  apply group3_spec, dec_nat_digits, Z.abs_nonneg.
Qed.

(** The argument of [st.progress] for a snapshot a refresh computes:
    [stats['migration_rate'] / 100] raises nothing and is a float
    between 0.0 and 1.0. *)
Theorem progress_fraction_in_unit (e : env) (w : world) :
  no_fault e -> fst (should_update_cache e w) = Ok true ->
  exists stats rate fraction,
    fst (get_migration_stats e w) = Ok stats
    /\ getitem stats (str "migration_rate") = Ok rate
    /\ truediv_int rate 100 = Ok fraction
    /\ at_most 1 fraction.
Proof.
  intros Hf Hs. rewrite (get_migration_stats_stale e w Hs).
  destruct (refresh_no_fault e w Hf) as (rate & text & Hr & _ & _ & _ & H).
  destruct (rate_shown (fun _ => false) _ _ rate (migrated_le_total e) Hr)
    as (_ & fraction & Hfr & Hunit).
  exists (snapshot e rate), rate, fraction. rewrite H.
  split; [reflexivity |]. split; [reflexivity |]. split; assumption.
Qed.

Lemma progress_fraction_in_unit_witness :
  exists stats rate fraction,
    fst (get_migration_stats example_env empty_world) = Ok stats
    /\ getitem stats (str "migration_rate") = Ok rate
    /\ truediv_int rate 100 = Ok fraction
    /\ at_most 1 fraction.
Proof.
  apply (progress_fraction_in_unit example_env empty_world).
  - split; [reflexivity | split; [intros q; reflexivity | reflexivity]].
  - reflexivity.
Defined.



(** *** Runs that fail *)

(** Without its secrets the script stops at once: when there is no
    secrets file [main] raises [OSError], when one of the four secrets
    is missing it raises [KeyError]; in both cases only the page
    configuration has been set, nothing is read from the cache file and
    no call reaches the database. *)
Theorem main_needs_secrets (s : session) (e : env) (a : app) :
  (secrets s = None ->
   main s e a
   = (Raise OSError,
      mkApp (outside a)
        (UiPageConfig (str "User Migration Dashboard") [128202%N] (str "wide")
         :: ui_log a)))
  /\ (forall sd,
        secrets s = Some sd ->
        (exists k, In k secret_keys /\ dict_get sd k = None) ->
        main s e a
        = (Raise KeyError,
           mkApp (outside a)
             (UiPageConfig (str "User Migration Dashboard") [128202%N]
                           (str "wide")
              :: ui_log a))).
Proof.
  split.
  - intros Hs. unfold main. astep.
    araise_with ltac:(unfold secret; rewrite Hs). reflexivity.
  - intros sd Hs (k & Hin & Hk). unfold main. astep.
    unfold secret_keys in Hin. cbn [In] in Hin.
    destruct (dict_get sd (str "DB_HOST")) as [h |] eqn:E1.
    2:{ araise_with ltac:(unfold secret; rewrite Hs, E1). reflexivity. }
    astep_with ltac:(unfold secret; rewrite Hs, E1).
    destruct (dict_get sd (str "DB_USER")) as [u |] eqn:E2.
    2:{ araise_with ltac:(unfold secret; rewrite Hs, E2). reflexivity. }
    astep_with ltac:(unfold secret; rewrite Hs, E2).
    destruct (dict_get sd (str "DB_PASSWORD")) as [p |] eqn:E3.
    2:{ araise_with ltac:(unfold secret; rewrite Hs, E3). reflexivity. }
    astep_with ltac:(unfold secret; rewrite Hs, E3).
    destruct (dict_get sd (str "DB_NAME")) as [n |] eqn:E4.
    2:{ araise_with ltac:(unfold secret; rewrite Hs, E4). reflexivity. }
    exfalso. destruct Hin as [<- | [<- | [<- | [<- | []]]]]; congruence.
Qed.

Lemma main_needs_secrets_witness :
  main short_session example_env start
  = (Raise KeyError,
     mkApp (outside start)
       (UiPageConfig (str "User Migration Dashboard") [128202%N] (str "wide")
        :: ui_log start)).
Proof.
  apply (proj2 (main_needs_secrets short_session example_env start)
           (firstn 3 example_secrets)).
  - reflexivity.
  - exists (str "DB_NAME"). split; [cbn; auto 6 | reflexivity].
Defined.

(** [main] handles no exception of [get_migration_stats]: whatever the
    call raises (the error of a statement, [UnboundLocalError] after a
    failed connection attempt, an exception of the staleness check)
    ends the run with that exception. The title, the text and the
    checkbox have been shown by then; no metric, progress or chart
    is. *)
Theorem main_propagates_failure (s : session) (e : env) (a : app)
  (sd : list (pystr * pyval)) (x : exn) (w1 : world) :
  secrets s = Some sd ->
  (forall k, In k secret_keys -> dict_get sd k <> None) ->
  get_migration_stats e (outside a) = (Raise x, w1) ->
  main s e a
  = (Raise x,
     mkApp w1
       (UiCheckbox (str "Auto-refresh (5 min)") true
        :: UiWrite (str "Track user migration progress in real-time")
        :: UiTitle (128241%N :: str " User Migration Dashboard")
        :: UiPageConfig (str "User Migration Dashboard") [128202%N]
                        (str "wide")
        :: ui_log a)).
Proof.
  intros Hsec Hkeys Hg.
  destruct (secrets_complete s sd Hsec Hkeys)
    as (h & u & p & n & H1 & H2 & H3 & H4).
  to_stats H1 H2 H3 H4.
  araise_with ltac:(rewrite (get_migration_stats_of_complete _ _ e (outside a)
                               (main_config_complete h u p n)), Hg).
  reflexivity.
Qed.

Lemma main_propagates_failure_witness :
  main example_session unreachable_env start
  = (Raise UnboundLocalError,
     mkApp (mkWorld None 0 0 [EvConnect])
       (UiCheckbox (str "Auto-refresh (5 min)") true
        :: UiWrite (str "Track user migration progress in real-time")
        :: UiTitle (128241%N :: str " User Migration Dashboard")
        :: UiPageConfig (str "User Migration Dashboard") [128202%N]
                        (str "wide")
        :: ui_log start)).
Proof.
  apply (main_propagates_failure example_session unreachable_env start
           example_secrets).
  - reflexivity.
  - intros k Hk. cbn in Hk.
    destruct Hk as [<- | [<- | [<- | [<- | []]]]]; discriminate.
  - vm_compute. reflexivity.
Defined.

(** One fallible expression of the script: it raises, and the run ends
    there, or it has a value and the run goes on. *)
Ltac fall :=
  match goal with
  | |- exists x l, bind (eval ?r) _ _ = _ =>
      let E := fresh "E" in
      destruct r eqn:E;
      [ try congruence;
        erewrite bind_ok by (unfold eval; reflexivity); cbv beta
      | erewrite bind_raise by (unfold eval; reflexivity);
        eexists; eexists; reflexivity ]
  end.

(** A run on a value without one of the six entries. *)
Lemma main_raises (s : session) (e : env) (a : app)
  (d : list (pystr * pyval)) (w1 : world) (h u p n : pyval) (k : pystr) :
  secret s (str "DB_HOST") = Ok h -> secret s (str "DB_USER") = Ok u ->
  secret s (str "DB_PASSWORD") = Ok p -> secret s (str "DB_NAME") = Ok n ->
  get_migration_stats e (outside a) = (Ok (PDict d), w1) ->
  In k page_keys -> dict_get d k = None ->
  exists x l, main s e a = (Raise x, mkApp w1 l).
Proof.
  intros H1 H2 H3 H4 Hg Hin Hk.
  apply getitem_absent in Hk.
  to_stats H1 H2 H3 H4.
  astep_with ltac:(rewrite (get_migration_stats_of_complete _ _ e (outside a)
                              (main_config_complete h u p n)), Hg).
  astep.
  unfold page_keys in Hin. cbn [In] in Hin.
  destruct Hin as [<- | [<- | [<- | [<- | [<- | [<- | []]]]]]];
    fall; fall; astep;
    fall; fall; astep;
    fall; astep; astep;
    fall; astep; astep;
    fall;
    (match goal with
     | E : getitem _ (str "daily_data") = Ok ?v |- _ =>
         destruct (truthy v); astep
     end);
    fall;
    (match goal with
     | E : getitem _ (str "hourly_data") = Ok ?v |- _ =>
         destruct (truthy v); astep
     end);
    fall.
Qed.

(** A cache file inside its time to live that lacks one of the six
    entries the page reads makes every run of [main] fail: the value is
    returned as it is, and the script raises when it reads or formats
    what is not there. The cache file is left as it is and no call
    reaches the database. *)
Theorem main_fails_on_incomplete_cache
  (s : session) (e : env) (a : app) (sd : list (pystr * pyval))
  (text : pystr) (d : list (pystr * pyval)) :
  secrets s = Some sd ->
  (forall k, In k secret_keys -> dict_get sd k <> None) ->
  cache_file (outside a) = Some text ->
  decode text = Some (PDict d) ->
  fst (should_update_cache e (outside a)) = Ok false ->
  (exists k, In k page_keys /\ dict_get d k = None) ->
  exists x l, main s e a = (Raise x, mkApp (outside a) l).
Proof.
  intros Hsec Hkeys Hfile Hdec Hs (k & Hin & Hk).
  destruct (secrets_complete s sd Hsec Hkeys)
    as (h & u & p & n & H1 & H2 & H3 & H4).
  destruct (get_migration_stats_hit e (outside a) Hs)
    as (text' & v & Hfile' & Hv & Hg).
  assert (v = PDict d) by congruence. subst v.
  exact (main_raises s e a d (outside a) h u p n k H1 H2 H3 H4 Hg Hin Hk).
Qed.

Lemma main_fails_on_incomplete_cache_witness :
  exists x l,
    main example_session later_env (mkApp (file_world text_stamp_only) [])
    = (Raise x, mkApp (outside (mkApp (file_world text_stamp_only) [])) l).
Proof.
  apply (main_fails_on_incomplete_cache example_session later_env
           (mkApp (file_world text_stamp_only) []) example_secrets
           text_stamp_only
           [(str "last_update", PStr (str "2024-05-17T10:04:00"))]).
  - reflexivity.
  - intros k Hk. cbn in Hk.
    destruct Hk as [<- | [<- | [<- | [<- | []]]]]; discriminate.
  - reflexivity.
  - vm_compute. reflexivity.
  - vm_compute. reflexivity.
  - exists (str "total_users"). split; [cbn; auto | reflexivity].
Defined.

(** *** One run after the other *)

Lemma page_ends_with_sleep (tt1 mt rt : pystr) (fr : pyfloat)
  (daily hourly : pyval) (label : pystr) :
  exists earlier,
    rev (page true tt1 mt rt fr daily hourly label)
    = UiRerun :: UiSleep 600 :: earlier.
Proof.
  unfold page. cbv iota. rewrite !app_assoc, rev_app_distr.
  eexists. reflexivity.
Qed.

(** A call after the cache was written: a hit while at most 300 seconds
    have passed. *)
Lemma second_call_hits (e1 e2 : env) (w : world) (rate : pyval)
  (text : pystr) :
  decode text = Some (snapshot e1 rate) ->
  valid (datetime_now (now_stamp e1)) = true ->
  valid (datetime_now (now_check e2)) = true ->
  elapsed_us e2 (datetime_now (now_stamp e1)) <= cache_duration * 1000000 ->
  get_migration_stats e2 (refreshed w text)
  = (Ok (snapshot e1 rate), refreshed w text).
Proof.
  intros Hd V1 V2 Hel.
  pose proof (CachePath.snapshot_timestamp e1 rate text Hd V1) as Ht.
  pose proof (checks_naive e2 (refreshed w text) text
                (datetime_now (now_stamp e1)) eq_refl Ht eq_refl V2) as Hc.
  replace (300000000 <? elapsed_us e2 (datetime_now (now_stamp e1)))
    with false in Hc by (unfold cache_duration in Hel; lia).
  destruct (get_migration_stats_hit e2 (refreshed w text))
    as (text' & v & Hfile & Hv & Hg).
  { rewrite Hc. reflexivity. }
  cbn in Hfile. injection Hfile as <-.
  rewrite Hg. congruence.
Qed.

(** The automatic refresh never finds the cache fresh: [main] sleeps
    600 seconds before it asks for a rerun, the cache lives 300
    seconds. After a run that refreshed the cache with the checkbox
    ticked, the last two calls to the page are the sleep of 600 seconds
    and the rerun, and a run whose clock is at least those 600 seconds
    past the stamp of the snapshot finds the cache stale and queries
    the database again. *)
Theorem auto_refresh_requeries (s : session) (e1 : env) (a : app)
  (sd : list (pystr * pyval)) :
  secrets s = Some sd ->
  (forall k, In k secret_keys -> dict_get sd k <> None) ->
  no_fault e1 ->
  fst (should_update_cache e1 (outside a)) = Ok true ->
  valid (datetime_now (now_stamp e1)) = true ->
  checkbox s = true ->
  exists a1 slept earlier,
    main s e1 a = (Ok tt, a1)
    /\ ui_log a1 = UiRerun :: UiSleep slept :: earlier
    /\ cache_duration < slept
    /\ forall e2,
         valid (datetime_now (now_check e2)) = true ->
         slept * 1000000 <= elapsed_us e2 (datetime_now (now_stamp e1)) ->
         fst (should_update_cache e2 (outside a1)) = Ok true
         /\ (no_fault e2 ->
             db_log (snd (get_migration_stats e2 (outside a1)))
             = refresh_calls ++ db_log (outside a1)).
Proof.
  intros Hsec Hkeys Hf Hs V Hbox.
  destruct (main_fresh s e1 a sd Hsec Hkeys Hf Hs V)
    as (rate & rate_text & fraction & text & Hr & _ & _ & _ & _ & Hd & H).
  rewrite Hbox in H.
  destruct (page_ends_with_sleep
              (format_int_comma (total_count e1))
              (format_int_comma (migrated_count e1))
              (rate_text ++ [37%N]) fraction
              (PList (map row_value (daily_series e1)))
              (PList (map row_value (hourly_series e1)))
              (strftime_seconds (datetime_now (now_stamp e1))))
    as (earlier & Hp).
  rewrite Hp in H. eexists. exists 600. eexists.
  split; [exact H |]. split; [reflexivity |].
  split; [reflexivity |].
  intros e2 V2 Hel. cbn [outside].
  pose proof (CachePath.snapshot_timestamp e1 rate text Hd V) as Ht.
  pose proof (checks_naive e2 (refreshed (outside a) text) text
                (datetime_now (now_stamp e1)) eq_refl Ht eq_refl V2) as Hc.
  replace (300000000 <? elapsed_us e2 (datetime_now (now_stamp e1)))
    with true in Hc by lia.
  split; [rewrite Hc; reflexivity |].
  intros Hf2.
  rewrite (get_migration_stats_stale e2 _ ltac:(rewrite Hc; reflexivity)).
  destruct (refresh_no_fault e2 (refreshed (outside a) text) Hf2)
    as (rate2 & text2 & _ & _ & _ & _ & H2).
  rewrite H2. reflexivity.
Qed.

Lemma auto_refresh_requeries_witness :
  exists a1 slept earlier,
    main example_session example_env start = (Ok tt, a1)
    /\ ui_log a1 = UiRerun :: UiSleep slept :: earlier
    /\ cache_duration < slept
    /\ forall e2,
         valid (datetime_now (now_check e2)) = true ->
         slept * 1000000
         <= elapsed_us e2 (datetime_now (now_stamp example_env)) ->
         fst (should_update_cache e2 (outside a1)) = Ok true
         /\ (no_fault e2 ->
             db_log (snd (get_migration_stats e2 (outside a1)))
             = refresh_calls ++ db_log (outside a1)).
Proof.
  apply (auto_refresh_requeries example_session example_env start
           example_secrets).
  - reflexivity.
  - intros k Hk. cbn in Hk.
    destruct Hk as [<- | [<- | [<- | [<- | []]]]]; discriminate.
  - split; [reflexivity | split; [intros q; reflexivity | reflexivity]].
  - reflexivity.
  - reflexivity.
  - reflexivity.
Defined.

(** A reload inside the time to live shows the same page without the
    database: when a run has refreshed the cache and a second run
    starts while at most 300 seconds have passed since the stamp of
    the snapshot, the second run makes the same calls to the page as
    the first, leaves the cache file as it is, and no call reaches the
    database, whether it is in reach or not. *)
Theorem reload_shows_cached_snapshot (s : session) (e1 e2 : env) (a : app)
  (sd : list (pystr * pyval)) :
  secrets s = Some sd ->
  (forall k, In k secret_keys -> dict_get sd k <> None) ->
  no_fault e1 ->
  fst (should_update_cache e1 (outside a)) = Ok true ->
  valid (datetime_now (now_stamp e1)) = true ->
  valid (datetime_now (now_check e2)) = true ->
  elapsed_us e2 (datetime_now (now_stamp e1)) <= cache_duration * 1000000 ->
  exists view w1,
    main s e1 a = (Ok tt, mkApp w1 (view ++ ui_log a))
    /\ main s e2 (mkApp w1 (view ++ ui_log a))
       = (Ok tt, mkApp w1 (view ++ view ++ ui_log a)).
Proof.
  intros Hsec Hkeys Hf Hs V1 V2 Hel.
  destruct (refresh_no_fault e1 (outside a) Hf)
    as (rate & text & Hr & _ & He & Hd & H).
  rewrite <- (get_migration_stats_stale e1 (outside a) Hs) in H.
  destruct (main_on_snapshot s e1 e1 a sd rate _ Hsec Hkeys Hr V1 H)
    as (rate_text & fraction & Henc & Hfr & _ & Hm).
  pose proof (second_call_hits e1 e2 (outside a) rate text Hd V1 V2 Hel) as H2.
  match type of Hm with
  | _ = (_, mkApp _ (?v ++ _)) => set (view := v) in *
  end.
  exists view, (refreshed (outside a) text). split; [exact Hm |].
  destruct (main_on_snapshot s e2 e1
              (mkApp (refreshed (outside a) text) (view ++ ui_log a)) sd rate
              (refreshed (outside a) text) Hsec Hkeys Hr V1 H2)
    as (rate_text' & fraction' & Henc' & Hfr' & _ & Hm').
  rewrite Hm'. cbn [ui_log].
  assert (rate_text' = rate_text) by congruence.
  assert (fraction' = fraction) by congruence.
  subst. reflexivity.
Qed.

Lemma reload_shows_cached_snapshot_witness :
  exists view w1,
    main example_session example_env start
    = (Ok tt, mkApp w1 (view ++ ui_log start))
    /\ main example_session later_env (mkApp w1 (view ++ ui_log start))
       = (Ok tt, mkApp w1 (view ++ view ++ ui_log start)).
Proof.
  apply (reload_shows_cached_snapshot example_session example_env later_env
           start example_secrets).
  - reflexivity.
  - intros k Hk. cbn in Hk.
    destruct Hk as [<- | [<- | [<- | [<- | []]]]]; discriminate.
  - split; [reflexivity | split; [intros q; reflexivity | reflexivity]].
  - reflexivity.
  - reflexivity.
  - reflexivity.
  - vm_compute. discriminate.
Defined.

(** *** The charts *)

Lemma series_empty (e : env) :
  (daily_series e = [] <-> recent e 604800 = [])
  /\ (hourly_series e = [] <-> recent e 86400 = []).
Proof.
  assert (L : forall i, times_of (recent e i) = [] <-> recent e i = []).
  { intros i. unfold recent.
    pose proof (times_of_recent (db_now e) i (users e)) as T.
    split; intros E.
    - rewrite E in T. destruct (filter _ _); [reflexivity | discriminate].
    - rewrite E. reflexivity. }
  split.
  - rewrite daily_series_rows. unfold daily_groups.
    fold (recent e 604800). rewrite <- L.
    split; intros E.
    + apply map_eq_nil in E. apply group_count_nil in E.
      apply map_eq_nil in E. exact E.
    + rewrite E. reflexivity.
  - rewrite hourly_series_rows. unfold hourly_groups.
    fold (recent e 86400). rewrite <- L.
    split; intros E.
    + apply map_eq_nil in E. apply group_count_nil in E.
      apply map_eq_nil in E. exact E.
    + rewrite E. reflexivity.
Qed.

Lemma truthy_rows (rows : list row) :
  truthy (PList (map row_value rows)) = true <-> rows <> [].
Proof. destruct rows; cbn; split; congruence. Qed.

Lemma page_charts (auto : bool) (tt1 mt rt : pystr) (fr : pyfloat)
  (daily hourly : pyval) (label : pystr) :
  ((exists data x y t,
      In (UiLineChart data x y t) (page auto tt1 mt rt fr daily hourly label))
   <-> truthy daily = true)
  /\ ((exists data x y t,
         In (UiBarChart data x y t) (page auto tt1 mt rt fr daily hourly label))
      <-> truthy hourly = true).
Proof.
  unfold page.
  destruct (truthy daily), (truthy hourly), auto; cbn [In List.app];
    (split;
     (split;
      [ intros (data & x & y & t & H);
        repeat (destruct H as [H | H]; try discriminate);
        try reflexivity; try contradiction
      | intros H; try discriminate;
        do 4 eexists; auto 20 ])).
Qed.

(** The page draws the line chart exactly when at least one migrated
    record was updated within the last 7 days, and the bar chart
    exactly when at least one was updated within the last 24 hours: a
    run on a stale cache with the database in reach makes the calls
    [view], and a chart is among them if and only if its series has a
    record to count. *)
Theorem charts_follow_records (s : session) (e : env) (a : app)
  (sd : list (pystr * pyval)) :
  secrets s = Some sd ->
  (forall k, In k secret_keys -> dict_get sd k <> None) ->
  no_fault e ->
  fst (should_update_cache e (outside a)) = Ok true ->
  valid (datetime_now (now_stamp e)) = true ->
  exists view w1,
    main s e a = (Ok tt, mkApp w1 (rev view ++ ui_log a))
    /\ ((exists data x y t, In (UiLineChart data x y t) view)
        <-> recent e 604800 <> [])
    /\ ((exists data x y t, In (UiBarChart data x y t) view)
        <-> recent e 86400 <> []).
Proof.
  intros Hsec Hkeys Hf Hs V.
  destruct (main_fresh s e a sd Hsec Hkeys Hf Hs V)
    as (rate & rate_text & fraction & text & _ & _ & _ & _ & _ & _ & H).
  eexists. eexists. split; [exact H |].
  destruct (page_charts (checkbox s)
              (format_int_comma (total_count e))
              (format_int_comma (migrated_count e))
              (rate_text ++ [37%N]) fraction
              (PList (map row_value (daily_series e)))
              (PList (map row_value (hourly_series e)))
              (strftime_seconds (datetime_now (now_stamp e))))
    as [Hline Hbar].
  destruct (series_empty e) as [Hd Hh].
  split.
  - rewrite Hline, truthy_rows, Hd. reflexivity.
  - rewrite Hbar, truthy_rows, Hh. reflexivity.
Qed.

Lemma charts_follow_records_witness :
  exists view w1,
    main example_session example_env start
    = (Ok tt, mkApp w1 (rev view ++ ui_log start))
    /\ ((exists data x y t, In (UiLineChart data x y t) view)
        <-> recent example_env 604800 <> [])
    /\ ((exists data x y t, In (UiBarChart data x y t) view)
        <-> recent example_env 86400 <> []).
Proof.
  apply (charts_follow_records example_session example_env start
           example_secrets).
  - reflexivity.
  - intros k Hk. cbn in Hk.
    destruct Hk as [<- | [<- | [<- | [<- | []]]]]; discriminate.
  - split; [reflexivity | split; [intros q; reflexivity | reflexivity]].
  - reflexivity.
  - reflexivity.
Defined.

End MainFacts.

(** ** The two ends of the scale *)

Module EdgeFacts.
Import Text Py PyFloat Datetime Json Db Dash Obs PyObj App View.
Import CacheFacts RefreshFacts FormatFacts MainFacts.

(** A number divided by itself is [1.0]. *)
Lemma nearest_double_same (t : Z) :
  0 < t -> nearest_double false t t = S754_finite false 4503599627370496 (-52).
Proof.
  intros Ht. unfold nearest_double. replace (t =? 0) with false by lia.
  assert (Hmag : mag t t = 1).
  { unfold mag. rewrite Z.sub_diag. unfold ge_pow2.
    change (0 <=? 0) with true. cbv iota. change (2 ^ 0) with 1.
    replace (t * 1 <=? t) with true by lia. reflexivity. }
  rewrite Hmag. change (Z.max (1 - 53) (- 1074)) with (- 52).
  change (0 <=? - 52) with false. cbv iota.
  change (2 ^ (- - 52)) with 4503599627370496.
  assert (Hq : div_rne (t * 4503599627370496) t = 4503599627370496).
  { rewrite FloatFacts.div_rne_eq.
    rewrite (Z.mul_comm t), Z.div_mul, Z.mod_mul by lia.
    change (2 * 0) with 0.
    destruct (Z.compare_spec 0 t); [lia | reflexivity | lia]. }
  rewrite Hq. reflexivity.
Qed.

Lemma full_rate (t : Z) :
  0 < t -> migration_rate t t = Ok (PFloat (nearest_double false 100 1)).
Proof.
  intros Ht. unfold migration_rate. replace (0 <? t) with true by lia.
  unfold int_truediv. replace (t =? 0) with false by lia.
  replace (t <? 0) with false by lia. cbn [xorb].
  rewrite Z.abs_eq by lia. rewrite (nearest_double_same t Ht).
  vm_compute. reflexivity.
Qed.

(** When every user is migrated the rate is exactly [100.0], written
    [100.0] in the cache file, and the progress is exactly [1.0], the
    largest value [st.progress] takes. *)
Theorem full_migration_is_100 (e : env) (w : world) :
  no_fault e -> fst (should_update_cache e w) = Ok true ->
  0 < total_count e -> migrated_count e = total_count e ->
  exists stats,
    fst (get_migration_stats e w) = Ok stats
    /\ getitem stats (str "migration_rate")
       = Ok (PFloat (nearest_double false 100 1))
    /\ encode (PFloat (nearest_double false 100 1)) = Some (str "100.0")
    /\ truediv_int (PFloat (nearest_double false 100 1)) 100
       = Ok (nearest_double false 1 1)
    /\ field stats "pending_users" = Some (PInt 0).
Proof.
  intros Hf Hs Ht Hm. rewrite (get_migration_stats_stale e w Hs).
  destruct (refresh_no_fault e w Hf) as (rate & text & Hr & _ & _ & _ & H).
  rewrite Hm, (full_rate _ Ht) in Hr. injection Hr as <-.
  eexists. rewrite H. split; [reflexivity |].
  split; [reflexivity |].
  split; [vm_compute; reflexivity |].
  split; [vm_compute; reflexivity |].
  unfold snapshot, make_stats. cbn [field].
  replace (total_count e - migrated_count e) with 0 by lia. reflexivity.
Qed.

(** Two records, both migrated. *)
Lemma full_migration_is_100_witness :
  exists stats,
    fst (get_migration_stats
           (mkEnv (now_check example_env) (now_stamp example_env)
                  (firstn 1 example_users ++ firstn 1 example_users)
                  (db_now example_env) false (fun _ => false) false)
           empty_world) = Ok stats
    /\ getitem stats (str "migration_rate")
       = Ok (PFloat (nearest_double false 100 1))
    /\ encode (PFloat (nearest_double false 100 1)) = Some (str "100.0")
    /\ truediv_int (PFloat (nearest_double false 100 1)) 100
       = Ok (nearest_double false 1 1)
    /\ field stats "pending_users" = Some (PInt 0).
Proof.
  apply (full_migration_is_100
           (mkEnv (now_check example_env) (now_stamp example_env)
                  (firstn 1 example_users ++ firstn 1 example_users)
                  (db_now example_env) false (fun _ => false) false)
           empty_world).
  - split; [reflexivity | split; [intros q; reflexivity | reflexivity]].
  - reflexivity.
  - vm_compute. reflexivity.
  - reflexivity.
Defined.

(** On an empty table a run of [main] raises nothing, divides nothing
    by zero, and shows [0] users, [0] migrated, the rate [0%], a
    progress of [0.0] and no chart. *)
Theorem main_on_empty_table (s : session) (e : env) (a : app)
  (sd : list (pystr * pyval)) :
  secrets s = Some sd ->
  (forall k, In k secret_keys -> dict_get sd k <> None) ->
  no_fault e ->
  fst (should_update_cache e (outside a)) = Ok true ->
  valid (datetime_now (now_stamp e)) = true ->
  users e = [] ->
  exists w1,
    main s e a
    = (Ok tt,
       mkApp w1
         (rev (page (checkbox s) (str "0") (str "0") (str "0%")
                 (S754_zero false) (PList []) (PList [])
                 (strftime_seconds (datetime_now (now_stamp e))))
          ++ ui_log a)).
Proof.
  intros Hsec Hkeys Hf Hs V Hu.
  destruct (main_fresh s e a sd Hsec Hkeys Hf Hs V)
    as (rate & rate_text & fraction & text & Hr & Henc & Hfr & _ & _ & _ & H).
  assert (Et : total_count e = 0) by (unfold total_count; rewrite Hu; reflexivity).
  assert (Em : migrated_count e = 0)
    by (unfold migrated_count; rewrite Hu; reflexivity).
  assert (Ed : daily_series e = [])
    by (unfold daily_series; rewrite Hu; reflexivity).
  assert (Eh : hourly_series e = [])
    by (unfold hourly_series; rewrite Hu; reflexivity).
  rewrite Et, Em in Hr. cbn in Hr. injection Hr as <-.
  cbn in Henc. injection Henc as <-.
  vm_compute in Hfr. injection Hfr as <-.
  rewrite Et, Em, Ed, Eh in H.
  eexists. exact H.
Qed.

Lemma main_on_empty_table_witness :
  exists w1,
    main example_session
         (mkEnv (now_check example_env) (now_stamp example_env) []
                (db_now example_env) false (fun _ => false) false)
         start
    = (Ok tt,
       mkApp w1
         (rev (page (checkbox example_session) (str "0") (str "0") (str "0%")
                 (S754_zero false) (PList []) (PList [])
                 (strftime_seconds
                    (datetime_now (now_stamp example_env))))
          ++ ui_log start)).
Proof.
  apply (main_on_empty_table example_session
           (mkEnv (now_check example_env) (now_stamp example_env) []
                  (db_now example_env) false (fun _ => false) false)
           start example_secrets).
  - reflexivity.
  - intros k Hk. cbn in Hk.
    destruct Hk as [<- | [<- | [<- | [<- | []]]]]; discriminate.
  - split; [reflexivity | split; [intros q; reflexivity | reflexivity]].
  - reflexivity.
  - reflexivity.
  - reflexivity.
Defined.

End EdgeFacts.
